(** * weightEMA: the Trainer's epoch loop and the prediction-history plots

    A shallow embedding of [src/trainer.py] (class [Trainer]) and of
    [src/plotter.py] (the four [plot_*] functions), with the properties
    the specification states about them.

    Conventions.
    - Python exceptions are values of [exn]; a call that raises returns
      [Raise e] and keeps the mutations done before the raise.
    - Losses are IEEE-754 binary64 numbers, modelled by [spec_float] with
      its comparison [SFcompare] (a NaN compares false with everything).
    - The statistics of the plots are means of 0/1 values; they are
      modelled by canonical rationals [Qc], with [None] for the NaN that
      numpy returns for the mean of an empty axis.
    - External collaborators (model, optimizer, scheduler, metric
      accumulators, matplotlib) are opaque: the model and optimizer are
      represented by the number of optimizer steps they received, the
      scheduler by its number of [step()] calls, the values the metric
      accumulators compute by a record given per epoch, and the calls to
      the outside world by a trace of [event]s. *)

From Stdlib Require Import ZArith String Ascii Bool Lia Arith List Permutation.
From Stdlib Require Import QArith Qcanon Qround.
From Stdlib Require Import Floats.SpecFloat.
From Stdlib Require Import DecimalString.
From Stdlib Require DecimalZ.
From Stdlib Require Import Lqa.
From Stdlib Require Import Sorted.
Import ListNotations.

Local Open Scope Z_scope.
Local Open Scope string_scope.

(** ** Python exceptions and results *)

Inductive exn : Type :=
  | AssertionError (msg : string)
  | NameError (name : string)
  | KeyError (key : string)
  | ValueError (msg : string)
  | FileNotFoundError
  | TypeError
  | AttributeError
  | IndexError.

Inductive result (A : Type) : Type :=
  | Ok (a : A)
  | Raise (e : exn).

Arguments Ok {A} a.
Arguments Raise {A} e.

Definition is_ok {A} (r : result A) : bool :=
  match r with Ok _ => true | Raise _ => false end.

(** Python's [range(lo, hi)]. *)
Definition range (lo hi : Z) : list Z :=
  map (fun i => lo + Z.of_nat i) (seq 0 (Z.to_nat (hi - lo))).

(** [str(n)] for an integer. *)
Definition str_of_Z (n : Z) : string := NilZero.string_of_int (Z.to_int n).

(** [b.startswith("/")] and [a.endswith("/")]. *)
Definition startswith_sep (b : string) : bool :=
  match b with
  | String c _ => Ascii.eqb c "/"
  | EmptyString => false
  end.

Fixpoint endswith_sep (a : string) : bool :=
  match a with
  | EmptyString => false
  | String c EmptyString => Ascii.eqb c "/"
  | String _ rest => endswith_sep rest
  end.

(** [os.path.join(a, b)] (posixpath) on two strings. *)
Definition join (a b : string) : string :=
  if startswith_sep b then b
  else if (String.eqb a "" || endswith_sep a)%bool then a ++ b
  else a ++ "/" ++ b.

(** The first argument may be [None], which [os.fspath] rejects with a
    [TypeError]. *)
Definition os_path_join (a : option string) (b : string) : result string :=
  match a with
  | None => Raise TypeError
  | Some a => Ok (join a b)
  end.

(** ** The Trainer ([src/trainer.py]) *)

Module Trainer.

Definition float : Type := spec_float.

(** [math.inf] *)
Definition inf : float := S754_infinity false.

(** Python's [x > y] on two floats. *)
Definition gt (x y : float) : bool := SFltb y x.

(** The averaged model: [module] counts the [update] calls that shaped
    its weights, [decay] is fixed at construction. *)
Record AveragedModel : Type := mk_averaged {
  module : nat;
  decay : float
}.

(** The two kinds of object handed to [torch.save]. *)
Inductive saved_obj : Type :=
  | FullCheckpoint (epoch : Z) (optimizer : nat) (model : nat)
                   (scheduler : option nat)
  | AveragedCheckpoint (epoch : Z) (model : nat) (decay : float).

(** What the metric accumulators and the norm helpers return in one
    epoch ([src/metrics.py] and [src/utils.py] are collaborators). *)
Record epoch_metrics : Type := mk_metrics {
  train_loss : float;
  train_acc : float;
  val_loss : float;
  val_acc : float;
  avg_val_loss : float;
  avg_val_acc : float;
  model_weight_norm : float;
  avg_model_weight_norm : float;
  weight_diff_norm : float;
  last_lr : float
}.

Inductive phase : Type := Train | Validation | AveragedValidation.

Inductive log_msg : Type :=
  | BeginningTraining
  | EpochSummary (epoch : Z)
  | FinishedTraining
  | CheckpointLoaded (epoch : Z).

(** Calls to the outside world, in program order. *)
Inductive event : Type :=
  | PbarDescription (epoch : Z) (p : phase)
  | LoggerInfo (msg : log_msg)
  | AddScalar (tag : string) (value : float) (epoch : Z)
  | TorchSave (obj : saved_obj) (path : string)
  | MakeDirs (path : string)
  | NpSave (path : string) (averaged : bool).

(** The attributes of [self].  [writer] and [val_loader] only record
    whether the attribute is not [None]; [train_loader] is its number
    of batches. *)
Record trainer : Type := mk_trainer {
  writer : bool;
  save_path : option string;
  save_preds : bool;
  train_loader : nat;
  val_loader : bool;
  model : nat;
  optimizer : nat;
  scheduler : option nat;
  update_sched_on_iter : bool;
  epochs : Z;
  start_epoch : Z;
  averaged_model : option AveragedModel;
  weight_diff : option float;
  best_val_loss : float;
  best_avg_val_loss : float
}.

Definition set_model (v : nat) (t : trainer) : trainer :=
  mk_trainer (writer t) (save_path t) (save_preds t) (train_loader t)
    (val_loader t) v (optimizer t) (scheduler t) (update_sched_on_iter t)
    (epochs t) (start_epoch t) (averaged_model t) (weight_diff t)
    (best_val_loss t) (best_avg_val_loss t).

Definition set_optimizer (v : nat) (t : trainer) : trainer :=
  mk_trainer (writer t) (save_path t) (save_preds t) (train_loader t)
    (val_loader t) (model t) v (scheduler t) (update_sched_on_iter t)
    (epochs t) (start_epoch t) (averaged_model t) (weight_diff t)
    (best_val_loss t) (best_avg_val_loss t).

Definition set_scheduler (v : option nat) (t : trainer) : trainer :=
  mk_trainer (writer t) (save_path t) (save_preds t) (train_loader t)
    (val_loader t) (model t) (optimizer t) v (update_sched_on_iter t)
    (epochs t) (start_epoch t) (averaged_model t) (weight_diff t)
    (best_val_loss t) (best_avg_val_loss t).

Definition set_start_epoch (v : Z) (t : trainer) : trainer :=
  mk_trainer (writer t) (save_path t) (save_preds t) (train_loader t)
    (val_loader t) (model t) (optimizer t) (scheduler t)
    (update_sched_on_iter t) (epochs t) v (averaged_model t)
    (weight_diff t) (best_val_loss t) (best_avg_val_loss t).

Definition set_averaged_model (v : option AveragedModel) (t : trainer)
  : trainer :=
  mk_trainer (writer t) (save_path t) (save_preds t) (train_loader t)
    (val_loader t) (model t) (optimizer t) (scheduler t)
    (update_sched_on_iter t) (epochs t) (start_epoch t) v
    (weight_diff t) (best_val_loss t) (best_avg_val_loss t).

Definition set_weight_diff (v : option float) (t : trainer) : trainer :=
  mk_trainer (writer t) (save_path t) (save_preds t) (train_loader t)
    (val_loader t) (model t) (optimizer t) (scheduler t)
    (update_sched_on_iter t) (epochs t) (start_epoch t)
    (averaged_model t) v (best_val_loss t) (best_avg_val_loss t).

Definition set_best_val_loss (v : float) (t : trainer) : trainer :=
  mk_trainer (writer t) (save_path t) (save_preds t) (train_loader t)
    (val_loader t) (model t) (optimizer t) (scheduler t)
    (update_sched_on_iter t) (epochs t) (start_epoch t)
    (averaged_model t) (weight_diff t) v (best_avg_val_loss t).

Definition set_best_avg_val_loss (v : float) (t : trainer) : trainer :=
  mk_trainer (writer t) (save_path t) (save_preds t) (train_loader t)
    (val_loader t) (model t) (optimizer t) (scheduler t)
    (update_sched_on_iter t) (epochs t) (start_epoch t)
    (averaged_model t) (weight_diff t) (best_val_loss t) v.

(** *** A monad for methods of [self]

    A method takes the object, returns a value or raises, leaves the
    object mutated and emits events. *)

Definition M (A : Type) : Type := trainer -> result A * trainer * list event.

Definition ret {A} (a : A) : M A := fun t => (Ok a, t, []).

Definition bind {A B} (c : M A) (f : A -> M B) : M B := fun t =>
  match c t with
  | (Ok a, t1, ev1) =>
      match f a t1 with
      | (r, t2, ev2) => (r, t2, (ev1 ++ ev2)%list)
      end
  | (Raise e, t1, ev1) => (Raise e, t1, ev1)
  end.

Definition get : M trainer := fun t => (Ok t, t, []).
Definition modify (f : trainer -> trainer) : M unit := fun t => (Ok tt, f t, []).
Definition emit (e : event) : M unit := fun t => (Ok tt, t, [e]).
Definition lift {A} (r : result A) : M A := fun t => (r, t, []).
Definition raise {A} (e : exn) : M A := lift (Raise e).
Definition when (b : bool) (c : M unit) : M unit := if b then c else ret tt.

Notation "x <- c ;; k" := (bind c (fun x => k))
  (at level 61, c at next level, right associativity).
Notation "c ;; k" := (bind c (fun _ => k))
  (at level 61, right associativity).

(** A [for] loop: the first iteration that raises ends the loop. *)
Fixpoint for_each {A} (l : list A) (body : A -> M unit) : M unit :=
  match l with
  | [] => ret tt
  | x :: rest => body x ;; for_each rest body
  end.

Definition result_of {A} (o : result A * trainer * list event) : result A :=
  fst (fst o).
Definition state_of {A} (o : result A * trainer * list event) : trainer :=
  snd (fst o).
Definition events_of {A} (o : result A * trainer * list event) : list event :=
  snd o.

Definition is_some {A} (o : option A) : bool :=
  match o with Some _ => true | None => false end.

(** *** [_save_model], [_save_averaged_model] *)

Definition _save_model (path : string) (epoch : Z) : M unit :=
  t <- get ;;
  let obj := FullCheckpoint (epoch + 1) (optimizer t) (model t) (scheduler t) in
  p <- lift (os_path_join (save_path t) path) ;;
  emit (TorchSave obj p).

Definition _save_averaged_model (path : string) (epoch : Z) : M unit :=
  t <- get ;;
  match averaged_model t with
  | None => raise AttributeError
  | Some a =>
      let obj := AveragedCheckpoint (epoch + 1) (module a) (decay a) in
      p <- lift (os_path_join (save_path t) path) ;;
      emit (TorchSave obj p)
  end.

(** *** [_train_loop], [_val_loop] *)

Definition scheduler_step : M unit :=
  modify (fun t => set_scheduler (option_map S (scheduler t)) t).

Definition train_batch : M unit :=
  (* optimizer.step() *)
  modify (fun t => set_model (S (model t)) (set_optimizer (S (optimizer t)) t)) ;;
  t <- get ;;
  (match averaged_model t with
   | Some a => modify (set_averaged_model (Some (mk_averaged (S (module a)) (decay a))))
   | None => ret tt
   end) ;;
  when (is_some (scheduler t) && update_sched_on_iter t) scheduler_step.

Definition _train_loop (epoch : Z) : M unit :=
  emit (PbarDescription epoch Train) ;;
  t <- get ;;
  for_each (seq 0 (train_loader t)) (fun _ => train_batch) ;;
  when (is_some (scheduler t) && negb (update_sched_on_iter t)) scheduler_step.

Definition _val_loop (epoch : Z) (on_averaged : bool) : M unit :=
  if on_averaged then emit (PbarDescription epoch AveragedValidation)
  else emit (PbarDescription epoch Validation).

(** *** [_write_to_tb]

    [_end_loop], its only caller, has set [weight_diff] whenever an
    averaged model is present. *)

Definition _write_to_tb (m : epoch_metrics) (epoch : Z) : M unit :=
  emit (AddScalar "Loss/train" (train_loss m) epoch) ;;
  emit (AddScalar "Accuracy/train" (train_acc m) epoch) ;;
  t <- get ;;
  when (val_loader t)
    (emit (AddScalar "Loss/val" (val_loss m) epoch) ;;
     emit (AddScalar "Accuracy/val" (val_acc m) epoch) ;;
     when (is_some (averaged_model t))
       (emit (AddScalar "Loss/averaged_val" (avg_val_loss m) epoch) ;;
        emit (AddScalar "Accuracy/averaged_val" (avg_val_acc m) epoch) ;;
        emit (AddScalar "Model/model_weight_norm" (model_weight_norm m) epoch) ;;
        emit (AddScalar "Model/avg_model_weight_norm" (avg_model_weight_norm m) epoch) ;;
        wd <- (match weight_diff t with
               | Some w => ret w
               | None => ret S754_nan
               end) ;;
        emit (AddScalar "Model/weight_diff_norm" wd epoch) ;;
        (* self.scheduler.get_last_lr()[0] *)
        match scheduler t with
        | None => raise AttributeError
        | Some _ => emit (AddScalar "Model/lr" (last_lr m) epoch)
        end)).

(** *** [_end_loop] *)

Definition _end_loop (m : epoch_metrics) (epoch : Z) : M unit :=
  t <- get ;;
  when (is_some (averaged_model t))
    (modify (set_weight_diff (Some (weight_diff_norm m)))) ;;
  (* Print epoch results *)
  emit (LoggerInfo (EpochSummary epoch)) ;;
  (* Write to tensorboard *)
  when (writer t) (_write_to_tb m epoch) ;;
  (* Save model *)
  when (is_some (save_path t))
    (p <- lift (os_path_join (save_path t) "most_recent.pt") ;;
     _save_model p epoch ;;
     when (val_loader t)
       (let val_loss := val_loss m in
        t1 <- get ;;
        if gt (best_val_loss t1) val_loss then
          modify (set_best_val_loss val_loss) ;;
          p <- lift (os_path_join (save_path t) "best_model.pt") ;;
          _save_model p epoch
        else ret tt) ;;
     when (is_some (averaged_model t))
       (p <- lift (os_path_join (save_path t) "averaged_most_recent.pt") ;;
        _save_averaged_model p epoch ;;
        when (val_loader t)
          (let avg_val_loss := avg_val_loss m in
           t1 <- get ;;
           if gt (best_avg_val_loss t1) avg_val_loss then
             modify (set_best_avg_val_loss avg_val_loss) ;;
             p <- lift (os_path_join (save_path t) "best_averaged_model.pt") ;;
             _save_averaged_model p epoch
           else ret tt)) ;;
     (* Save preds *)
     when (save_preds t)
       (preds_dir <- lift (os_path_join (save_path t) "preds") ;;
        emit (MakeDirs preds_dir) ;;
        p <- lift (os_path_join (Some preds_dir) (str_of_Z epoch)) ;;
        emit (NpSave p false) ;;
        p <- lift (os_path_join (Some preds_dir) (str_of_Z epoch ++ "_average")) ;;
        emit (NpSave p true))).

(** *** [train] *)

Definition epoch_body (metrics : Z -> epoch_metrics) (epoch : Z) : M unit :=
  _train_loop epoch ;;
  t <- get ;;
  when (val_loader t)
    (_val_loop epoch false ;;
     when (is_some (averaged_model t)) (_val_loop epoch true)) ;;
  _end_loop (metrics epoch) epoch.

Definition train (metrics : Z -> epoch_metrics) : M unit :=
  emit (LoggerInfo BeginningTraining) ;;
  t <- get ;;
  for_each (range (start_epoch t) (epochs t)) (epoch_body metrics) ;;
  emit (LoggerInfo FinishedTraining) ;;
  p <- lift (os_path_join (save_path t) "final_model.pt") ;;
  _save_model p (epochs t) ;;
  when (is_some (averaged_model t))
    (p <- lift (os_path_join (save_path t) "final_averaged_model.pt") ;;
     _save_averaged_model p (epochs t)).

(** *** [_load_from_checkpoint] and [__init__]

    [torch_load] stands for the file system as [torch.load] sees it.
    The scheduler is an opaque capability: [load_state_dict] installs
    the state the checkpoint holds, and raises [TypeError] when handed
    the [None] that [_save_model] stores for a trainer without a
    scheduler. *)

Definition checkpoint_model (c : saved_obj) : nat :=
  match c with
  | FullCheckpoint _ _ m _ => m
  | AveragedCheckpoint _ m _ => m
  end.

Definition checkpoint_optimizer (c : saved_obj) : result nat :=
  match c with
  | FullCheckpoint _ o _ _ => Ok o
  | AveragedCheckpoint _ _ _ => Raise (KeyError "optimizer")
  end.

Definition checkpoint_epoch (c : saved_obj) : Z :=
  match c with
  | FullCheckpoint e _ _ _ => e
  | AveragedCheckpoint e _ _ => e
  end.

Definition checkpoint_scheduler (c : saved_obj) : result (option nat) :=
  match c with
  | FullCheckpoint _ _ _ s => Ok s
  | AveragedCheckpoint _ _ _ => Raise (KeyError "scheduler")
  end.

Definition _load_from_checkpoint (torch_load : string -> result saved_obj)
    (checkpoint_path : string) : M unit :=
  checkpoint <- lift (torch_load checkpoint_path) ;;
  modify (set_model (checkpoint_model checkpoint)) ;;
  o <- lift (checkpoint_optimizer checkpoint) ;;
  modify (set_optimizer o) ;;
  modify (set_start_epoch (checkpoint_epoch checkpoint)) ;;
  t <- get ;;
  when (is_some (scheduler t))
    (s <- lift (checkpoint_scheduler checkpoint) ;;
     match s with
     | Some n => modify (set_scheduler (Some n))
     | None => raise TypeError
     end) ;;
  t <- get ;;
  if start_epoch t >? epochs t then
    raise (ValueError "Starting epoch is larger than total epochs")
  else emit (LoggerInfo (CheckpointLoaded (start_epoch t))).

(** The keyword arguments of [Trainer(...)]. *)
Record init_args : Type := mk_init_args {
  arg_epochs : Z;
  arg_train_loader : nat;
  arg_val_loader : bool;
  arg_scheduler : option nat;
  arg_update_sched_on_iter : bool;
  arg_writer : bool;
  arg_save_path : option string;
  arg_checkpoint_path : option string;
  arg_averaged_model : option AveragedModel;
  arg_save_preds : bool
}.

(** The object while [__init__] runs: the attributes assigned last
    ([weight_diff] and the two trackers) already hold their values,
    nothing before their assignment reads them. *)
Definition blank (a : init_args) : trainer :=
  mk_trainer (arg_writer a) (arg_save_path a) (arg_save_preds a)
    (arg_train_loader a) (arg_val_loader a) 0%nat 0%nat (arg_scheduler a)
    (arg_update_sched_on_iter a) (arg_epochs a) 0 (arg_averaged_model a)
    None inf inf.

Definition __init__ (torch_load : string -> result saved_obj) (a : init_args)
  : result unit * trainer * list event :=
  (match arg_checkpoint_path a with
   | Some p => if String.eqb p "" then ret tt
               else _load_from_checkpoint torch_load p
   | None => ret tt
   end ;;
   modify (set_weight_diff None) ;;
   modify (set_best_val_loss inf) ;;
   modify (set_best_avg_val_loss inf)) (blank a).

(** *** Reading a run

    The functions below only inspect states and traces. *)

(** [_end_loop] and [train] join [save_path] with a file name and hand
    the result to [_save_model], which joins it with [save_path] again. *)
Definition checkpoint_file (sp name : string) : string := join sp (join sp name).

Definition saved_to (path : string) (e : event) : bool :=
  match e with
  | TorchSave _ p => String.eqb p path
  | _ => false
  end.

(** Does the trace write the file [path] with [torch.save]? *)
Definition writes (path : string) (evs : list event) : bool :=
  existsb (saved_to path) evs.

(** The objects the trace hands to [torch.save]. *)
Definition saved_objs (evs : list event) : list saved_obj :=
  flat_map (fun e => match e with TorchSave o _ => [o] | _ => [] end) evs.

(** The epochs whose train loop the trace ran. *)
Definition trained (evs : list event) : list Z :=
  flat_map (fun e => match e with
                     | PbarDescription epoch Train => [epoch]
                     | _ => []
                     end) evs.

(** The object after the first [k] epochs of [train], and the trace of
    the next one. *)
Fixpoint after_epochs (metrics : Z -> epoch_metrics) (t : trainer) (k : nat)
  : trainer :=
  match k with
  | O => t
  | S k' => state_of (epoch_body metrics (start_epoch t + Z.of_nat k')
                                 (after_epochs metrics t k'))
  end.

Definition epoch_run (metrics : Z -> epoch_metrics) (t : trainer) (k : nat)
  : result unit * trainer * list event :=
  epoch_body metrics (start_epoch t + Z.of_nat k) (after_epochs metrics t k).

(** [_write_to_tb] reads the scheduler only when a writer, a validation
    loader and an averaged model are all present. *)
Definition tb_needs_scheduler (t : trainer) : bool :=
  writer t && val_loader t && is_some (averaged_model t).

(** [_write_to_tb] finds every component it reads. *)
Definition tb_safe (t : trainer) : bool :=
  negb (tb_needs_scheduler t) || is_some (scheduler t).

(** Binary64 literals: the float nearest to [n / d]. *)
Definition float_of_ratio (n d : Z) : float :=
  SFdiv 53 1024 (binary_normalize 53 1024 n 0 false)
                (binary_normalize 53 1024 d 0 false).

(** The arguments of a resumed run: the same, with a checkpoint path. *)
Definition resume_from (path : string) (a : init_args) : init_args :=
  mk_init_args (arg_epochs a) (arg_train_loader a) (arg_val_loader a)
    (arg_scheduler a) (arg_update_sched_on_iter a) (arg_writer a)
    (arg_save_path a) (Some path) (arg_averaged_model a) (arg_save_preds a).

(** *** Concrete runs *)

(** A file system without checkpoints. *)
Definition no_files (path : string) : result saved_obj := Raise FileNotFoundError.

(** A file system that holds one checkpoint. *)
Definition one_file (path : string) (obj : saved_obj) (p : string)
  : result saved_obj :=
  if String.eqb p path then Ok obj else Raise FileNotFoundError.

(** Metrics whose losses follow a list, epoch by epoch. *)
Definition metrics_of_losses (losses : list float) (epoch : Z) : epoch_metrics :=
  let v := nth (Z.to_nat epoch) losses S754_nan in
  mk_metrics v v v v v v v v v v.

(** The losses 3.0, 2.5, 2.5, 2.0, 2.6. *)
Definition example_losses : list float :=
  [float_of_ratio 3 1; float_of_ratio 5 2; float_of_ratio 5 2;
   float_of_ratio 2 1; float_of_ratio 13 5].

(** Five epochs, two batches each, a validation loader and a save
    path; no scheduler, writer or averaged model. *)
Definition example_args : init_args :=
  mk_init_args 5 2 true None false false (Some "out") None None false.

(** The same without a save path. *)
Definition args_without_save_path : init_args :=
  mk_init_args 5 2 true None false false None None None false.

(** A writer, a validation loader and an averaged model, but no
    scheduler. *)
Definition args_without_scheduler : init_args :=
  mk_init_args 5 2 true None false true (Some "out") None
    (Some (mk_averaged 0 (float_of_ratio 999 1000))) false.

(** *** Predicates on states *)

(** What an epoch never changes: the configuration, and which optional
    components are present. *)
Definition same_setup (t t' : trainer) : Prop :=
  writer t' = writer t /\ save_path t' = save_path t /\
  save_preds t' = save_preds t /\ train_loader t' = train_loader t /\
  val_loader t' = val_loader t /\
  update_sched_on_iter t' = update_sched_on_iter t /\
  epochs t' = epochs t /\ start_epoch t' = start_epoch t /\
  is_some (scheduler t') = is_some (scheduler t) /\
  is_some (averaged_model t') = is_some (averaged_model t).

Definition same_trackers (t t' : trainer) : Prop :=
  best_val_loss t' = best_val_loss t /\
  best_avg_val_loss t' = best_avg_val_loss t.

(** A trainer that can finish its epochs: it has a save path, and a
    scheduler whenever [_write_to_tb] reads one. *)
Definition setup_ok (sp : string) (t : trainer) : Prop :=
  save_path t = Some sp /\ tb_safe t = true.

(** The object [Trainer(...)] builds when there is no checkpoint file. *)
Definition trainer_of (a : init_args) : trainer := state_of (__init__ no_files a).

(** *** Reading a trace *)

(** How many times the trace writes the file [path] with [torch.save]. *)
Definition count_writes (path : string) (evs : list event) : nat :=
  List.length (filter (saved_to path) evs).

(** The tags of the scalars sent to the writer, with their step. *)
Definition scalars (evs : list event) : list (string * Z) :=
  flat_map (fun e => match e with
                     | AddScalar tag _ epoch => [(tag, epoch)]
                     | _ => []
                     end) evs.

(** The prediction files written with [np.save]: their path, and
    whether they hold the averaged model's predictions. *)
Definition np_saves (evs : list event) : list (string * bool) :=
  flat_map (fun e => match e with
                     | NpSave path averaged => [(path, averaged)]
                     | _ => []
                     end) evs.

(** The path [_end_loop] gives to [np.save] at the end of [epoch]. *)
Definition preds_file (sp : string) (epoch : Z) (averaged : bool) : string :=
  join (join sp "preds")
       (if averaged then str_of_Z epoch ++ "_average" else str_of_Z epoch).

(** The optimizer steps of the scheduler, when there is one. *)
Definition scheduler_steps (t : trainer) : nat :=
  match scheduler t with Some n => n | None => 0%nat end.

(** The updates the averaged model received, when there is one. *)
Definition averaged_updates (t : trainer) : nat :=
  match averaged_model t with Some a => module a | None => 0%nat end.

(** The characters of [str(n)] for an integer: digits and the sign. *)
Definition decimal_char (c : ascii) : bool :=
  existsb (Ascii.eqb c) ["0"; "1"; "2"; "3"; "4"; "5"; "6"; "7"; "8"; "9"; "-"]%char.

Fixpoint all_chars (p : ascii -> bool) (s : string) : bool :=
  match s with
  | EmptyString => true
  | String c rest => p c && all_chars p rest
  end.


(** *** More concrete runs *)

(** Three epochs of two batches with every optional component: a
    validation loader, a scheduler stepped on every batch, a writer, a
    save path, an averaged model, and the predictions saved. *)
Definition full_args : init_args :=
  mk_init_args 3 2 true (Some 0%nat) true true (Some "out") None
    (Some (mk_averaged 0 (float_of_ratio 999 1000))) true.

(** The example without a validation loader. *)
Definition args_without_validation : init_args :=
  mk_init_args 5 2 false None false false (Some "out") None None false.

(** A writer, a validation loader and an averaged model, the
    predictions saved, but neither a scheduler nor a save path. *)
Definition args_without_scheduler_or_save_path : init_args :=
  mk_init_args 5 2 true None false true None None
    (Some (mk_averaged 0 (float_of_ratio 999 1000))) true.

End Trainer.

(** ** The plots ([src/plotter.py]) *)

Module Plotter.

Local Open Scope nat_scope.

(** *** Two-dimensional numpy arrays

    A prediction history is an [E x N] array whose entries are 0 or 1;
    [dtype] tells whether numpy holds them as booleans or as integers,
    which changes what [+] means. *)

Inductive dtype : Type := BoolT | IntT.

Record ndarray : Type := mk_ndarray {
  dt : dtype;
  n_cols : nat;
  rows : list (list Z)
}.

Definition shape (a : ndarray) : nat * nat := (length (rows a), n_cols a).

Definition shape_eqb (s1 s2 : nat * nat) : bool :=
  (fst s1 =? fst s2) && (snd s1 =? snd s2).

(** Every row has [n_cols] entries, each 0 or 1. *)
Definition well_formed (a : ndarray) : Prop :=
  Forall (fun r => length r = n_cols a /\ Forall (fun x => x = 0%Z \/ x = 1%Z) r)
         (rows a).

(** [a[1:, ...]] and [a[:-1, ...]] *)
Definition from_second (a : ndarray) : ndarray :=
  mk_ndarray (dt a) (n_cols a) (tl (rows a)).

Definition but_last (a : ndarray) : ndarray :=
  mk_ndarray (dt a) (n_cols a) (removelast (rows a)).

(** Broadcasting of one axis: equal lengths, or one of them is 1. *)
Definition broadcast_dim (d1 d2 : nat) : option nat :=
  if d1 =? d2 then Some d1
  else if d1 =? 1 then Some d2
  else if d2 =? 1 then Some d1
  else None.

Definition stretch {A} (n : nat) (l : list A) : list A :=
  match l with
  | [x] => repeat x n
  | _ => l
  end.

Definition map2 {A B C} (f : A -> B -> C) (l1 : list A) (l2 : list B) : list C :=
  map (fun p => f (fst p) (snd p)) (combine l1 l2).

Definition elementwise (f : Z -> Z -> Z) (d : dtype) (a b : ndarray)
  : result ndarray :=
  match broadcast_dim (length (rows a)) (length (rows b)),
        broadcast_dim (n_cols a) (n_cols b) with
  | Some e, Some n =>
      let ra := map (stretch n) (stretch e (rows a)) in
      let rb := map (stretch n) (stretch e (rows b)) in
      Ok (mk_ndarray d n (map2 (map2 f) ra rb))
  | _, _ => Raise (ValueError "operands could not be broadcast together")
  end.

(** [a == b] *)
Definition np_eq (a b : ndarray) : result ndarray :=
  elementwise (fun x y => Z.b2z (Z.eqb x y)) BoolT a b.

(** [a + b]: logical or on two boolean arrays, the sum otherwise. *)
Definition np_add (a b : ndarray) : result ndarray :=
  match dt a, dt b with
  | BoolT, BoolT =>
      elementwise (fun x y => Z.b2z (negb (Z.eqb x 0) || negb (Z.eqb y 0))) BoolT a b
  | _, _ => elementwise Z.add IntT a b
  end.

(** [a * b] where one operand is an integer array. *)
Definition np_mul (a b : ndarray) : result ndarray :=
  elementwise Z.mul IntT a b.

(** [1 - a] *)
Definition one_minus (a : ndarray) : ndarray :=
  mk_ndarray IntT (n_cols a) (map (map (fun x => (1 - x)%Z)) (rows a)).

(** [a[:, j]]; the index is non-negative here. *)
Definition column (a : ndarray) (j : nat) : result (list Z) :=
  if j <? n_cols a then Ok (map (fun r => nth j r 0%Z) (rows a))
  else Raise IndexError.

(** *** Series of numbers

    A float that is a mean of 0/1 entries, or derived from such means
    by sums and products, is kept as the exact rational that numpy
    rounds to binary64; [None] is NaN.  Rounding is monotone and keeps 0
    and 1, so what is stated of these numbers below carries over to the
    floats: equalities with 0 and 1, bounds between 0 and 1, and the
    order of two means over the same number of entries.  The order of
    two values computed along different paths does not carry over
    ([1 - 0.9 < 0.1] in binary64), and nothing below states one. *)

Definition number : Type := option Qc.
Definition series : Type := list number.

Definition num_of_Z (z : Z) : number := Some (Q2Qc (inject_Z z)).

Definition num_add (x y : number) : number :=
  match x, y with
  | Some p, Some q => Some (p + q)%Qc
  | _, _ => None
  end.

Definition num_mul (x y : number) : number :=
  match x, y with
  | Some p, Some q => Some (p * q)%Qc
  | _, _ => None
  end.

Definition num_sub (x y : number) : number :=
  match x, y with
  | Some p, Some q => Some (p - q)%Qc
  | _, _ => None
  end.

(** [x / n] for a count [n]; 0/0 is NaN. *)
Definition num_div_nat (x : number) (n : nat) : number :=
  match x, n with
  | Some p, S _ => Some (p / Q2Qc (inject_Z (Z.of_nat n)))%Qc
  | _, _ => None
  end.

Definition sumZ (l : list Z) : Z := fold_right Z.add 0%Z l.

(** The mean of a one-dimensional slice. *)
Definition mean (l : list Z) : number :=
  num_div_nat (num_of_Z (sumZ l)) (length l).

(** [np.mean(a, axis=1)]: one value per row. *)
Definition mean_axis1 (a : ndarray) : series := map mean (rows a).

(** [np.mean(a, axis=0)]: one value per column. *)
Definition mean_axis0 (a : ndarray) : series :=
  map (fun j => mean (map (fun r => nth j r 0%Z) (rows a))) (seq 0 (n_cols a)).

(** [1 - s] for a series. *)
Definition one_minus_series (s : series) : series :=
  map (fun x => num_sub (num_of_Z 1) x) s.

(** [np.ones((window,)) / window] *)
Definition ones_over (window : Z) : series :=
  repeat (num_div_nat (num_of_Z 1) (Z.to_nat window)) (Z.to_nat window).

Definition dot (xs ys : series) : number :=
  fold_right num_add (num_of_Z 0) (map2 num_mul xs ys).

(** [np.correlate(a, w, "valid")] for [len(w) <= len(a)]. *)
Definition correlate_valid (a w : series) : series :=
  map (fun k => dot (firstn (length w) (skipn k a)) w)
      (seq 0 (length a - length w + 1)).

(** [np.convolve(a, v, mode="valid")]: the operands are swapped when
    [v] is the longer one, an empty operand is refused, and the result
    is the correlation with the reversed kernel. *)
Definition convolve_valid (a v : series) : result series :=
  let '(a, v) := if length a <? length v then (v, a) else (a, v) in
  if length a =? 0 then Raise (ValueError "a cannot be empty")
  else if length v =? 0 then Raise (ValueError "v cannot be empty")
  else Ok (correlate_valid a (rev v)).

(** [np.linspace(start, stop, num)] *)
Definition linspace (start stop : Qc) (num : nat) : list Qc :=
  match num with
  | 0 => []
  | 1 => [start]
  | _ => map (fun k => (start + Q2Qc (inject_Z (Z.of_nat k))
                               * ((stop - start) / Q2Qc (inject_Z (Z.of_nat (num - 1)))))%Qc)
             (seq 0 num)
  end.

(** [x.astype("int")]: truncation towards zero. *)
Definition to_int (q : Qc) : Z :=
  if Qle_bool 0 (this q) then Qfloor (this q) else Qceiling (this q).

(** [l[i]] for a Python list or a one-dimensional array. *)
Definition index {A} (l : list A) (i : Z) : result A :=
  let n := Z.of_nat (length l) in
  let j := if (i <? 0)%Z then (i + n)%Z else i in
  if ((0 <=? j)%Z && (j <? n)%Z)%bool then
    match nth_error l (Z.to_nat j) with
    | Some x => Ok x
    | None => Raise IndexError
    end
  else Raise IndexError.

(** [np.asarray(l)[idx]] for an index array. *)
Fixpoint take {A} (l : list A) (idx : list Z) : result (list A) :=
  match idx with
  | [] => Ok []
  | i :: rest =>
      match index l i, take l rest with
      | Ok x, Ok xs => Ok (x :: xs)
      | Raise e, _ => Raise e
      | _, Raise e => Raise e
      end
  end.

(** [np.argsort(keys)]: the indices in ascending order of their key,
    NaN last.  numpy's default sort promises no order among equal keys;
    here they keep their index order, and what is proved for all
    histories below holds for any order of the ties. *)
Definition num_leb (x y : number) : bool :=
  match x, y with
  | Some p, Some q => Qle_bool (this p) (this q)
  | Some _, None => true
  | None, Some _ => false
  | None, None => true
  end.

Fixpoint insert_sorted (keys : series) (i : nat) (sorted : list nat) : list nat :=
  match sorted with
  | [] => [i]
  | j :: rest =>
      if num_leb (nth j keys None) (nth i keys None)
      then j :: insert_sorted keys i rest
      else i :: j :: rest
  end.

Definition argsort (keys : series) : list nat :=
  fold_left (fun sorted i => insert_sorted keys i sorted) (seq 0 (length keys)) [].

(** [np.random.choice(pop, k, replace=False)]: the generator is a
    stream of draws; each draw picks one of the elements left. *)
Fixpoint draw {A} (rng : nat -> nat) (step : nat) (pop : list A) (k : nat) : list A :=
  match k with
  | 0 => []
  | S k' =>
      match pop with
      | [] => []
      | _ :: _ =>
          let i := rng step mod length pop in
          firstn 1 (skipn i pop) ++ draw rng (S step) (firstn i pop ++ skipn (S i) pop) k'
      end
  end.

Definition random_choice {A} (rng : nat -> nat) (pop : list A) (k : nat)
  : result (list A) :=
  if length pop <? k then
    Raise (ValueError "Cannot take a larger sample than population when 'replace=False'")
  else Ok (draw rng 0 pop k).

(** *** Calls to seaborn and matplotlib, and a monad that records them *)

Inductive call : Type :=
  | SetTheme
  | Figure
  | Plot (x : option (list Z)) (y : series) (label : string) (dashed : bool)
  | Hist (data : series) (bins : nat) (label : option string)
  | Heatmap (image : list (list Z))
  | Legend
  | XLabel (text : string)
  | YLabel (text : string)
  | YTicks (n : nat)
  | SaveFig (name : string).

Definition P (A : Type) : Type := result A * list call.

Definition ret {A} (a : A) : P A := (Ok a, []).

Definition bind {A B} (c : P A) (f : A -> P B) : P B :=
  match c with
  | (Ok a, calls1) =>
      match f a with
      | (r, calls2) => (r, (calls1 ++ calls2)%list)
      end
  | (Raise e, calls1) => (Raise e, calls1)
  end.

Definition lift {A} (r : result A) : P A := (r, []).
Definition raise {A} (e : exn) : P A := (Raise e, []).
Definition emit (c : call) : P unit := (Ok tt, [c]).
Definition assert (b : bool) (msg : string) : P unit :=
  if b then ret tt else raise (AssertionError msg).

Notation "x <- c ;; k" := (bind c (fun x => k))
  (at level 61, c at next level, right associativity).
Notation "c ;; k" := (bind c (fun _ => k))
  (at level 61, right associativity).

Fixpoint for_each {A} (l : list A) (body : A -> P unit) : P unit :=
  match l with
  | [] => ret tt
  | x :: rest => body x ;; for_each rest body
  end.

(** [enumerate(l)] *)
Definition enumerate {A} (l : list A) : list (nat * A) :=
  combine (seq 0 (length l)) l.

(** [[str(i) for i in range(1, 1 + len(preds))]] *)
Definition default_labels (preds : list ndarray) : list string :=
  map str_of_Z (range 1 (1 + Z.of_nat (length preds))).

Definition rational (z : Z) (d : positive) : Qc := Q2Qc (z # d).

(** *** [plot_stability] *)

Definition plot_stability (preds : list ndarray) (labels : option (list string))
    (iters : option (list Z)) : P unit :=
  emit SetTheme ;;
  for_each preds (fun pred =>
    first <- lift (index preds 0) ;;
    assert (shape_eqb (shape first) (shape pred))
           "Shape of predictions must be the same") ;;
  iters <- (match iters with
            | None => raise (NameError "preds_a")
            | Some it => ret it
            end) ;;
  let labels := match labels with
                | None => default_labels preds
                | Some l => l
                end in
  (* prediction stability *)
  emit Figure ;;
  for_each (enumerate preds) (fun '(i, pred) =>
    same <- lift (np_eq (from_second pred) (but_last pred)) ;;
    let match_ := mean_axis1 same in
    label <- lift (index labels (Z.of_nat i)) ;;
    emit (Plot None match_ label false)) ;;
  for_each (enumerate preds) (fun '(i, pred) =>
    let accuracy := mean_axis1 (from_second pred) in
    label <- lift (index labels (Z.of_nat i)) ;;
    emit (Plot None accuracy (label ++ " (Acc.)") true)) ;;
  emit Legend ;;
  emit (YLabel "Stability") ;;
  emit (XLabel "Epochs") ;;
  emit (SaveFig "stability.png").

(** *** [plot_mismatch] *)

(** The block of [plot_mismatch] that turns [match] into the curve to
    plot: [1 - match], smoothed by a moving average when [window > 0],
    and its x axis. *)
Definition mismatch_curve (window : Z) (iters : list Z) (match_ : series)
  : P (list Z * series) :=
  if (window >? 0)%Z then
    y <- lift (convolve_valid (one_minus_series match_) (ones_over window)) ;;
    let x := linspace (rational window 2)
               (Q2Qc (inject_Z (Z.of_nat (length match_))) - rational window 2)%Qc
               (length y) in
    x <- lift (take iters (map to_int x)) ;;
    ret (x, y)
  else
    ret (iters, one_minus_series match_).

Definition plot_mismatch (preds : list ndarray) (labels : option (list string))
    (iters : option (list Z)) (histogram : bool) (window : Z) : P unit :=
  emit SetTheme ;;
  env <- (if histogram then
            assert (length preds =? 2)
                   "Only two list of predictions is supported for histogram" ;;
            ret (iters, labels)
          else
            iters <- (match iters with
                      | None => raise (NameError "preds_a")
                      | Some it => ret (Some it)
                      end) ;;
            ret (iters, match labels with
                        | None => Some (default_labels preds)
                        | Some l => Some l
                        end)) ;;
  let iters := match fst env with Some it => it | None => [] end in
  let labels := match snd env with Some l => l | None => [] end in
  emit Figure ;;
  (if histogram then
     a <- lift (index preds 0) ;;
     b <- lift (index preds 1) ;;
     same <- lift (np_eq a b) ;;
     let match_ := mean_axis0 same in
     emit (Hist (one_minus_series match_) 100 None) ;;
     emit (XLabel "Mismatch ratio") ;;
     emit (YLabel "# of samples")
   else
     for_each (enumerate preds) (fun '(i, pred_a) =>
       for_each (enumerate (skipn (i + 1) preds)) (fun '(j, pred_b) =>
         a <- lift (index preds 0) ;;
         b <- lift (index preds 1) ;;
         same <- lift (np_eq a b) ;;
         let match_ := mean_axis1 same in
         xy <- mismatch_curve window iters match_ ;;
         la <- lift (index labels (Z.of_nat i)) ;;
         lb <- lift (index labels (Z.of_nat (i + j + 1))) ;;
         emit (Plot (Some (fst xy)) (snd xy) (la ++ " - " ++ lb) false))) ;;
     emit Legend ;;
     emit (XLabel "Epochs") ;;
     emit (YLabel "Mismatch ratio")) ;;
  emit (SaveFig "mismatch.png").

(** *** [plot_misclassification]

    The function never binds the name [match]; reading it raises. *)

Definition plot_misclassification (preds : list ndarray)
    (labels : option (list string)) (iters : option (list Z))
    (histogram : bool) (window : Z) : P unit :=
  emit SetTheme ;;
  env <- (if histogram then
            assert (length preds =? 2)
                   "Only two list of predictions is supported for histogram" ;;
            ret (iters, labels)
          else
            iters <- (match iters with
                      | None => raise (NameError "preds_a")
                      | Some it => ret (Some it)
                      end) ;;
            ret (iters, match labels with
                        | None => Some (default_labels preds)
                        | Some l => Some l
                        end)) ;;
  let iters := match fst env with Some it => it | None => [] end in
  emit Figure ;;
  (if histogram then
     a <- lift (index preds 0) ;;
     let accuracy_a := mean_axis0 (from_second a) in
     b <- lift (index preds 1) ;;
     let accuracy_b := mean_axis0 (from_second b) in
     labels <- (match snd env with
                | None => raise TypeError
                | Some l => ret l
                end) ;;
     la <- lift (index labels 0) ;;
     emit (Hist (one_minus_series accuracy_a) 50 (Some la)) ;;
     lb <- lift (index labels 1) ;;
     emit (Hist (one_minus_series accuracy_b) 50 (Some lb)) ;;
     emit (XLabel "Misclassification ratio") ;;
     emit (YLabel "# of samples")
   else
     let labels := match snd env with Some l => l | None => [] end in
     for_each (enumerate preds) (fun '(i, pred_a) =>
       let misclassification := one_minus_series (mean_axis1 pred_a) in
       (if (window >? 0)%Z then
          y <- lift (convolve_valid misclassification (ones_over window)) ;;
          match_ <- @raise series (NameError "match") ;;
          let x := linspace (rational window 2)
                     (Q2Qc (inject_Z (Z.of_nat (length match_)))
                      - rational window 2)%Qc
                     (length y) in
          x <- lift (take iters (map to_int x)) ;;
          ret tt
        else
          label <- lift (index labels (Z.of_nat i)) ;;
          emit (Plot (Some iters) misclassification label false)) ;;
       for_each (enumerate (skipn (i + 1) preds)) (fun '(j, pred_b) =>
         same <- lift (np_eq pred_a pred_b) ;;
         both <- lift (np_mul same (one_minus pred_a)) ;;
         let misclassification := mean_axis1 both in
         xy <- (if (window >? 0)%Z then
                  y <- lift (convolve_valid misclassification (ones_over window)) ;;
                  match_ <- @raise series (NameError "match") ;;
                  let x := linspace (rational window 2)
                             (Q2Qc (inject_Z (Z.of_nat (length match_)))
                              - rational window 2)%Qc
                             (length y) in
                  x <- lift (take iters (map to_int x)) ;;
                  ret (x, y)
                else
                  ret (iters, misclassification)) ;;
         la <- lift (index labels (Z.of_nat i)) ;;
         lb <- lift (index labels (Z.of_nat (i + j + 1))) ;;
         emit (Plot (Some (fst xy)) (snd xy) (la ++ " and " ++ lb) false))) ;;
     emit (XLabel "Epoch") ;;
     emit (YLabel "Misclassification ratio")) ;;
  emit Legend ;;
  emit (SaveFig "misclassification.png").

(** *** [plot_persistence] *)

(** [s1 + s2] for two one-dimensional arrays, with broadcasting. *)
Definition series_add (s1 s2 : series) : result series :=
  match broadcast_dim (length s1) (length s2) with
  | Some n => Ok (map2 num_add (stretch n s1) (stretch n s2))
  | None => Raise (ValueError "operands could not be broadcast together")
  end.

(** [image[r, :] = values] for a row of width [width]. *)
Definition assign_row (width : nat) (values : list Z) : result (list Z) :=
  if length values =? width then Ok values
  else match values with
       | [v] => Ok (repeat v width)
       | _ => Raise (ValueError "could not broadcast input array")
       end.

(** The loop that fills the image: three rows per selected sample. *)
Fixpoint fill_image (preds_a preds_b : ndarray) (top_n : list nat)
    (width : nat) (idxs : list nat) : P (list (list Z)) :=
  match idxs with
  | [] => ret []
  | i :: rest =>
      ti <- lift (index top_n (Z.of_nat i)) ;;
      col_a <- lift (column preds_a ti) ;;
      row_a <- lift (assign_row width col_a) ;;
      ti <- lift (index top_n (Z.of_nat i)) ;;
      col_b <- lift (column preds_b ti) ;;
      row_b <- lift (assign_row width col_b) ;;
      below <- fill_image preds_a preds_b top_n width rest ;;
      ret (row_a :: row_b :: repeat (-1)%Z width :: below)
  end.

Definition plot_persistence (rng : nat -> nat) (preds : list ndarray)
    (n_samples : nat) (sort : string) : P (list nat) :=
  assert (length preds =? 2)
         "Only two list of predictions is supported for persistence" ;;
  emit SetTheme ;;
  preds_a <- lift (index preds 0) ;;
  preds_b <- lift (index preds 1) ;;
  top_n <- (if String.eqb sort "mismatch" then
              same <- lift (np_eq preds_a preds_b) ;;
              let match_ := mean_axis0 same in
              ret (firstn n_samples (argsort match_))
            else if String.eqb sort "misclassification" then
              total <- lift (np_add preds_a preds_b) ;;
              let misclassification := mean_axis0 total in
              ret (firstn n_samples (argsort misclassification))
            else if String.eqb sort "stability" then
              same_a <- lift (np_eq (from_second preds_a) (but_last preds_a)) ;;
              same_b <- lift (np_eq (from_second preds_b) (but_last preds_b)) ;;
              stability <- lift (series_add (mean_axis0 same_a) (mean_axis0 same_b)) ;;
              ret (firstn n_samples (argsort stability))
            else
              lift (random_choice rng (seq 0 (fst (shape preds_a))) n_samples)) ;;
  let width := fst (shape preds_a) in
  image <- fill_image preds_a preds_b top_n width (seq 0 n_samples) ;;
  emit Figure ;;
  emit (Heatmap image) ;;
  emit (YTicks n_samples) ;;
  emit (XLabel "Epoch") ;;
  emit (YLabel "Sample #") ;;
  emit (SaveFig "persistence.png") ;;
  ret top_n.

(** *** Reading a figure *)

(** The series of the [Plot] calls, in order, with their labels. *)
Definition plotted (calls : list call) : list (string * series) :=
  flat_map (fun c => match c with
                     | Plot _ y label _ => [(label, y)]
                     | _ => []
                     end) calls.

(** The series drawn with a solid line. *)
Definition solid_curves (calls : list call) : list series :=
  flat_map (fun c => match c with
                     | Plot _ y _ false => [y]
                     | _ => []
                     end) calls.

(** The data of the [Hist] calls. *)
Definition histograms (calls : list call) : list series :=
  flat_map (fun c => match c with
                     | Hist data _ _ => [data]
                     | _ => []
                     end) calls.

(** The numerators and denominators of a series, for display. *)
Definition values (s : series) : list (option Q) := map (option_map this) s.

(** No sample changes between two consecutive epochs. *)
Definition unchanging (a : ndarray) : Prop := tl (rows a) = removelast (rows a).

(** The per-epoch disagreement rate of two histories, in the words of
    the specification: [1 - mean_n (a[e,n] == b[e,n])]. *)
Definition disagreement_rate (a b : ndarray) : result series :=
  match np_eq a b with
  | Ok same => Ok (one_minus_series (mean_axis1 same))
  | Raise e => Raise e
  end.

(** *** Concrete histories *)

Definition history (n : nat) (r : list (list Z)) : ndarray := mk_ndarray BoolT n r.

(** One sample, right at epoch 0 and wrong at epoch 1. *)
Definition flipping : ndarray := history 1 [[1]; [0]]%Z.

(** One epoch, one sample: always right, and always wrong. *)
Definition right_once : ndarray := history 1 [[1]]%Z.
Definition wrong_once : ndarray := history 1 [[0]]%Z.

(** Two epochs: one sample, and two samples. *)
Definition narrow : ndarray := history 1 [[1]; [0]]%Z.
Definition wide : ndarray := history 2 [[1; 0]; [1; 1]]%Z.

(** One epoch, two samples. *)
Definition single_epoch : ndarray := history 2 [[1; 0]]%Z.

(** Three epochs, one sample. *)
Definition three_epochs : ndarray := history 1 [[1]; [0]; [1]]%Z.

(** Four epochs, three samples. *)
Definition four_by_three : ndarray :=
  history 3 [[1; 0; 1]; [0; 0; 1]; [1; 1; 1]; [1; 0; 0]]%Z.

(** A generator whose draws count up from [n]. *)
Definition counting_from (n : nat) : nat -> nat := fun step => n + step.

(** *** Predicates and derived series *)

(** Every row has [n] entries. *)
Definition uniform (n : nat) (rs : list (list Z)) : Prop :=
  Forall (fun r => length r = n) rs.

(** One entry of [a == b]. *)
Definition same_entry (x y : Z) : Z := Z.b2z (Z.eqb x y).

(** The series [plot_stability] draws for one history: per epoch, the
    mean of the entries that did not change since the previous epoch. *)
Definition stability_of (a : ndarray) : series :=
  map mean (map2 (map2 same_entry) (tl (rows a)) (removelast (rows a))).

(** The plotted series with their labels, as fractions. *)
Definition labelled_values (calls : list call) : list (string * list (option Q)) :=
  map (fun p => (fst p, values (snd p))) (plotted calls).

(** Three epochs, two samples, nothing ever changes. *)
Definition steady : ndarray := history 2 [[1; 0]; [1; 0]; [1; 0]]%Z.

(** *** More readings of a figure *)

(** The images of the [Heatmap] calls. *)
Definition heatmaps (calls : list call) : list (list (list Z)) :=
  flat_map (fun c => match c with
                     | Heatmap image => [image]
                     | _ => []
                     end) calls.

(** A number that is a fraction between 0 and 1. *)
Definition is_fraction (v : number) : Prop :=
  exists q, v = Some q /\ (0 <= q)%Qc /\ (q <= 1)%Qc.

(** The score of a sample under a ranking. *)
Definition score (keys : series) (i : nat) : number := nth i keys None.


(** [x <= y] for two numbers that are not NaN. *)
Definition at_most (x y : number) : Prop :=
  match x, y with
  | Some p, Some q => (p <= q)%Qc
  | _, _ => False
  end.

(** The three rows of the persistence image for the sample [t]: its
    history under the first model, under the second, and a separator. *)
Definition sample_strip (a b : ndarray) (t : nat) : list (list Z) :=
  [map (fun r => nth t r 0%Z) (rows a);
   map (fun r => nth t r 0%Z) (rows b);
   repeat (-1)%Z (length (rows a))].

(** The three ranking policies of [plot_persistence]. *)
Definition ranked_policy (sort : string) : Prop :=
  sort = "mismatch" \/ sort = "misclassification" \/ sort = "stability".

(** *** More concrete histories *)

(** Three epochs, two samples: the second is learnt, the first lost. *)
Definition drifting : ndarray := history 2 [[1; 0]; [1; 1]; [0; 1]]%Z.

(** [steady] with another first epoch. *)
Definition late_start : ndarray := history 2 [[0; 1]; [1; 0]; [1; 0]]%Z.

(** *** Entries and counts *)

(** [a[e, n]] *)
Definition entry (a : ndarray) (e n : nat) : Z := nth n (nth e (rows a) []) 0%Z.

(** How many samples have at epoch [e] the entry they had at epoch
    [e - 1]. *)
Definition unchanged_samples (a : ndarray) (e : nat) : nat :=
  length (filter (fun n => Z.eqb (entry a e n) (entry a (e - 1) n))
                 (seq 0 (n_cols a))).

(** How many entries of a row are set. *)
Definition count_ones (r : list Z) : Z := sumZ r.

End Plotter.

(** ** Properties of the Trainer *)

Module TrainerFacts.
Import Trainer.

Lemma append_assoc (a b c : string) : (a ++ b) ++ c = a ++ (b ++ c).
Proof. induction a as [|ch a IH]; simpl; [reflexivity | now rewrite IH]. Qed.

Lemma append_cancel (p a b : string) : p ++ a = p ++ b -> a = b.
Proof.
  induction p as [|ch p IH]; simpl; intros H; [exact H|].
  injection H as H. auto.
Qed.

Lemma checkpoint_file_prefix (sp : string) :
  exists p, forall name,
    startswith_sep name = false -> checkpoint_file sp name = p ++ name.
Proof.
  unfold checkpoint_file, join.
  destruct sp as [|c sp].
  - exists "". intros name H. rewrite H. simpl. now rewrite H.
  - destruct (String.eqb (String c sp) "" || endswith_sep (String c sp))%bool eqn:Hend.
    + destruct (Ascii.eqb c "/") eqn:Hc.
      * exists (String c sp). intros name H. rewrite H. simpl append at 1.
        simpl startswith_sep. now rewrite Hc.
      * exists (String c sp ++ String c sp). intros name H. rewrite H.
        simpl append at 1. simpl startswith_sep. rewrite Hc.
        now rewrite append_assoc.
    + destruct (Ascii.eqb c "/") eqn:Hc.
      * exists (String c sp ++ "/"). intros name H. rewrite H.
        simpl append at 1. simpl startswith_sep. rewrite Hc.
        now rewrite append_assoc.
      * exists (String c sp ++ "/" ++ String c sp ++ "/"). intros name H. rewrite H.
        simpl append at 1. simpl startswith_sep. rewrite Hc.
        now rewrite !append_assoc.
Qed.

Lemma checkpoint_file_eqb (sp n1 n2 : string) :
  startswith_sep n1 = false -> startswith_sep n2 = false ->
  String.eqb (checkpoint_file sp n1) (checkpoint_file sp n2) = String.eqb n1 n2.
Proof.
  intros H1 H2. destruct (checkpoint_file_prefix sp) as [p Hp].
  rewrite (Hp _ H1), (Hp _ H2).
  destruct (String.eqb_spec n1 n2) as [->|Hne].
  - apply String.eqb_refl.
  - apply String.eqb_neq. intros H. apply Hne. eapply append_cancel; eauto.
Qed.

Lemma same_setup_refl t : same_setup t t.
Proof. unfold same_setup; tauto. Qed.

Lemma same_setup_trans t1 t2 t3 :
  same_setup t1 t2 -> same_setup t2 t3 -> same_setup t1 t3.
Proof. unfold same_setup; intuition congruence. Qed.

Lemma train_batch_spec t :
  exists t', train_batch t = (Ok tt, t', []) /\ same_setup t t' /\ same_trackers t t'.
Proof.
  destruct t as [w sp spr tl vl mo op sc us ep se am wd b1 b2].
  destruct sc, am, us; cbn; eexists; (split; [reflexivity|]);
    unfold same_setup, same_trackers; cbn; tauto.
Qed.

Lemma batches_spec n : forall t,
  exists t', for_each (seq 0 n) (fun _ => train_batch) t = (Ok tt, t', [])
             /\ same_setup t t' /\ same_trackers t t'.
Proof.
  generalize 0%nat.
  induction n as [|n IH]; intros s t; cbn [seq for_each].
  - exists t. repeat split; auto using same_setup_refl.
  - destruct (train_batch_spec t) as (t1 & E1 & S1 & T1).
    destruct (IH (S s) t1) as (t2 & E2 & S2 & T2).
    exists t2. unfold bind. rewrite E1, E2. split; [reflexivity|].
    split; [eapply same_setup_trans; eauto|].
    unfold same_trackers in *. intuition congruence.
Qed.

Lemma scheduler_step_spec t :
  exists t', scheduler_step t = (Ok tt, t', []) /\ same_setup t t' /\ same_trackers t t'.
Proof.
  destruct t as [w sp spr tl vl mo op sc us ep se am wd b1 b2].
  destruct sc; cbn; eexists; (split; [reflexivity|]);
    unfold same_setup, same_trackers; cbn; tauto.
Qed.

Lemma train_loop_spec epoch t :
  exists t', _train_loop epoch t = (Ok tt, t', [PbarDescription epoch Train])
             /\ same_setup t t' /\ same_trackers t t'.
Proof.
  unfold _train_loop.
  destruct (batches_spec (train_loader t) t) as (t1 & E1 & S1 & T1).
  unfold bind at 1. cbn [emit].
  unfold bind at 1. cbn [get].
  unfold bind at 1. rewrite E1.
  destruct (is_some (scheduler t) && negb (update_sched_on_iter t))%bool; cbn [when].
  - destruct (scheduler_step_spec t1) as (t2 & E2 & S2 & T2). rewrite E2.
    exists t2. split; [reflexivity|].
    split; [eapply same_setup_trans; eauto|].
    unfold same_trackers in *. intuition congruence.
  - exists t1. cbn. auto.
Qed.

Arguments join : simpl never.

Ltac run_monad :=
  cbv [_end_loop _write_to_tb _save_model _save_averaged_model _val_loop
       bind get modify emit lift when ret raise os_path_join is_some
       set_weight_diff set_best_val_loss set_best_avg_val_loss
       writer save_path save_preds train_loader val_loader model optimizer
       scheduler update_sched_on_iter epochs start_epoch averaged_model
       weight_diff best_val_loss best_avg_val_loss app module decay
       andb negb].

Lemma end_loop_spec m epoch t sp :
  save_path t = Some sp ->
  tb_safe t = true ->
  exists t' evs,
    _end_loop m epoch t = (Ok tt, t', evs)
    /\ same_setup t t'
    /\ trained evs = []
    /\ Forall (fun o => checkpoint_epoch o = epoch + 1) (saved_objs evs)
    /\ In (TorchSave (FullCheckpoint (epoch + 1) (optimizer t) (model t) (scheduler t))
                     (checkpoint_file sp "most_recent.pt")) evs
    /\ best_val_loss t' =
         (if val_loader t && gt (best_val_loss t) (val_loss m)
          then val_loss m else best_val_loss t)
    /\ writes (checkpoint_file sp "best_model.pt") evs =
         val_loader t && gt (best_val_loss t) (val_loss m)
    /\ best_avg_val_loss t' =
         (if is_some (averaged_model t) && val_loader t
             && gt (best_avg_val_loss t) (avg_val_loss m)
          then avg_val_loss m else best_avg_val_loss t)
    /\ writes (checkpoint_file sp "best_averaged_model.pt") evs =
         is_some (averaged_model t) && val_loader t
         && gt (best_avg_val_loss t) (avg_val_loss m).
Proof.
  destruct t as [w spo spr tl vl mo op sc us ep se am wd b1 b2].
  unfold tb_safe, tb_needs_scheduler. cbn. intros -> Htb.
  destruct w, vl, am as [a|], sc as [n|], spr;
    try discriminate Htb;
    run_monad.
  all: try destruct (gt b1 (val_loss m)); try destruct (gt b2 (avg_val_loss m)).
  all: do 2 eexists; (split; [reflexivity|]).
  all: split; [unfold same_setup; cbn; tauto|].
  all: split; [reflexivity|].
  all: split; [cbn; repeat constructor|].
  all: split; [cbn; tauto|].
  all: split; [reflexivity|].
  all: unfold writes; cbn [existsb saved_to];
       repeat match goal with
         | |- context [join ?s (join ?s ?n)] =>
             change (join s (join s n)) with (checkpoint_file s n)
         end;
       rewrite ?checkpoint_file_eqb by reflexivity.
  all: cbn; auto.
Qed.

Lemma setup_ok_preserved sp t t' :
  same_setup t t' -> setup_ok sp t -> setup_ok sp t'.
Proof.
  unfold same_setup, setup_ok, tb_safe, tb_needs_scheduler.
  intros (Hw & Hsp & _ & _ & Hvl & _ & _ & _ & Hsc & Ham) [H1 H2].
  rewrite Hw, Hsp, Hvl, Hsc, Ham. auto.
Qed.

Lemma trained_app evs1 evs2 :
  trained (evs1 ++ evs2) = (trained evs1 ++ trained evs2)%list.
Proof. apply flat_map_app. Qed.

Lemma saved_objs_app evs1 evs2 :
  saved_objs (evs1 ++ evs2) = (saved_objs evs1 ++ saved_objs evs2)%list.
Proof. apply flat_map_app. Qed.

Lemma writes_app path evs1 evs2 :
  writes path (evs1 ++ evs2) = (writes path evs1 || writes path evs2)%bool.
Proof. apply existsb_app. Qed.

Lemma epoch_body_spec metrics epoch t sp :
  setup_ok sp t ->
  exists t' evs,
    epoch_body metrics epoch t = (Ok tt, t', evs)
    /\ same_setup t t'
    /\ trained evs = [epoch]
    /\ Forall (fun o => checkpoint_epoch o = epoch + 1) (saved_objs evs)
    /\ (exists o mo sc, In (TorchSave (FullCheckpoint (epoch + 1) o mo sc)
                                      (checkpoint_file sp "most_recent.pt")) evs
                        /\ is_some sc = is_some (scheduler t))
    /\ best_val_loss t' =
         (if val_loader t && gt (best_val_loss t) (val_loss (metrics epoch))
          then val_loss (metrics epoch) else best_val_loss t)
    /\ writes (checkpoint_file sp "best_model.pt") evs =
         val_loader t && gt (best_val_loss t) (val_loss (metrics epoch))
    /\ best_avg_val_loss t' =
         (if is_some (averaged_model t) && val_loader t
             && gt (best_avg_val_loss t) (avg_val_loss (metrics epoch))
          then avg_val_loss (metrics epoch) else best_avg_val_loss t)
    /\ writes (checkpoint_file sp "best_averaged_model.pt") evs =
         is_some (averaged_model t) && val_loader t
         && gt (best_avg_val_loss t) (avg_val_loss (metrics epoch)).
Proof.
  intros Hok.
  destruct (train_loop_spec epoch t) as (t1 & E1 & S1 & [T1a T1b]).
  pose proof (setup_ok_preserved _ _ _ S1 Hok) as [Hsp1 Htb1].
  destruct (end_loop_spec (metrics epoch) epoch t1 sp Hsp1 Htb1)
    as (t2 & evs2 & E2 & S2 & Htr & Hobjs & Hin & Hb & Hw & Hab & Haw).
  pose proof S1 as S1'.
  destruct S1' as (_ & _ & _ & _ & Hvl & _ & _ & _ & Hsc1 & Ham).
  rewrite Hvl, Ham, ?T1a, ?T1b in *.
  unfold epoch_body. unfold bind at 1. rewrite E1.
  unfold bind at 1. cbn [get]. unfold bind at 1.
  assert (Hval : exists evv,
             when (val_loader t1)
               (_val_loop epoch false ;;
                when (is_some (averaged_model t1)) (_val_loop epoch true)) t1
             = (Ok tt, t1, evv)
             /\ trained evv = [] /\ saved_objs evv = []
             /\ forall p, writes p evv = false).
  { destruct (val_loader t1), (is_some (averaged_model t1));
      eexists; (split; [reflexivity|]); cbn; auto. }
  destruct Hval as (evv & Ev & Hvt & Hvo & Hvw).
  rewrite Ev, E2.
  do 2 eexists. split; [reflexivity|].
  change ([PbarDescription epoch Train] ++ [] ++ evv ++ evs2)%list
    with ([PbarDescription epoch Train] ++ (evv ++ evs2))%list.
  rewrite !trained_app, !saved_objs_app, !writes_app, Hvt, Htr, Hvo, !Hvw.
  split; [eapply same_setup_trans; eauto|].
  split; [reflexivity|].
  split; [exact Hobjs|].
  split.
  { do 3 eexists. split; [|exact Hsc1].
    apply in_or_app; right; apply in_or_app; right; exact Hin. }
  cbn. auto.
Qed.

Lemma range_map lo n :
  range lo (lo + Z.of_nat n) = map (fun i => lo + Z.of_nat i) (seq 0 n).
Proof.
  unfold range. replace (lo + Z.of_nat n - lo) with (Z.of_nat n) by lia.
  now rewrite Nat2Z.id.
Qed.

Lemma map_seq_offset {A} (f : nat -> A) (s n : nat) :
  map f (seq s n) = map (fun i => f (s + i)%nat) (seq 0 n).
Proof.
  revert s. induction n as [|n IH]; intros s; cbn [seq map]; [reflexivity|].
  rewrite Nat.add_0_r. f_equal.
  rewrite (IH (S s)), <- seq_shift, map_map.
  apply map_ext. intros i. f_equal. lia.
Qed.

Lemma range_split lo mid hi :
  lo <= mid <= hi -> range lo hi = (range lo mid ++ range mid hi)%list.
Proof.
  intros H. unfold range.
  replace (Z.to_nat (hi - lo)) with (Z.to_nat (mid - lo) + Z.to_nat (hi - mid))%nat by lia.
  rewrite seq_app, map_app. f_equal.
  rewrite map_seq_offset. apply map_ext. intros i. lia.
Qed.

Lemma bind_assoc {A B C} (c : M A) (f : A -> M B) (g : B -> M C) t :
  bind (bind c f) g t = bind c (fun a => bind (f a) g) t.
Proof.
  unfold bind. destruct (c t) as [[[a|e] t1] ev1]; [|reflexivity].
  destruct (f a t1) as [[[b|e] t2] ev2]; [|reflexivity].
  destruct (g b t2) as [[r t3] ev3]. now rewrite app_assoc.
Qed.

Lemma bind_ext {A B} (c : M A) (f f' : A -> M B) t :
  (forall a t1, f a t1 = f' a t1) -> bind c f t = bind c f' t.
Proof.
  intros H. unfold bind. destruct (c t) as [[[a|e] t1] ev1]; [|reflexivity].
  now rewrite H.
Qed.

Lemma for_each_app {A} (l1 l2 : list A) body t :
  for_each (l1 ++ l2) body t = (for_each l1 body ;; for_each l2 body) t.
Proof.
  revert t. induction l1 as [|x l1 IH]; intros t; cbn [app for_each].
  - unfold bind, ret. destruct (for_each l2 body t) as [[r t2] ev2]. reflexivity.
  - rewrite bind_assoc. apply bind_ext. intros _ t1. apply IH.
Qed.

(** The epochs loop of [train], on any list of epochs. *)
Lemma epochs_loop_spec metrics sp (l : list Z) : forall t,
  setup_ok sp t ->
  exists t' evs,
    for_each l (epoch_body metrics) t = (Ok tt, t', evs)
    /\ same_setup t t' /\ trained evs = l.
Proof.
  induction l as [|e l IH]; intros t Hok; cbn [for_each].
  - exists t, []. repeat split; auto using same_setup_refl.
  - destruct (epoch_body_spec metrics e t sp Hok) as (t1 & ev1 & E1 & S1 & Tr1 & _).
    destruct (IH t1 (setup_ok_preserved _ _ _ S1 Hok)) as (t2 & ev2 & E2 & S2 & Tr2).
    exists t2, (ev1 ++ ev2)%list. unfold bind. rewrite E1, E2.
    split; [reflexivity|]. split; [eapply same_setup_trans; eauto|].
    rewrite trained_app, Tr1, Tr2. reflexivity.
Qed.

Ltac run_methods :=
  cbv [_save_model _save_averaged_model bind get modify emit lift when ret
       raise os_path_join is_some];
  cbn [writer save_path save_preds train_loader val_loader model optimizer
       scheduler update_sched_on_iter epochs start_epoch averaged_model
       weight_diff best_val_loss best_avg_val_loss module decay].

Lemma train_spec metrics sp t :
  setup_ok sp t ->
  exists t' evs,
    train metrics t = (Ok tt, t', evs)
    /\ same_setup t t'
    /\ trained evs = range (start_epoch t) (epochs t).
Proof.
  intros Hok.
  destruct (epochs_loop_spec metrics sp (range (start_epoch t) (epochs t)) t Hok)
    as (t1 & ev1 & E1 & S1 & Tr1).
  pose proof (setup_ok_preserved _ _ _ S1 Hok) as [Hsp1 _].
  destruct Hok as [Hsp _].
  pose proof S1 as (_ & _ & _ & _ & _ & _ & _ & _ & _ & Ham).
  unfold train. unfold bind at 1. cbn [emit].
  unfold bind at 1. cbn [get]. unfold bind at 1. rewrite E1.
  rewrite Hsp.
  destruct t1 as [w spo spr tl vl mo op sc us ep se am wd b1 b2].
  cbn in Hsp1, Ham. subst spo.
  destruct (averaged_model t) as [a0|], am as [a1|]; try discriminate Ham.
  all: run_methods; do 2 eexists; (split; [reflexivity|]).
  all: split; [exact S1|].
  all: rewrite !trained_app, Tr1; cbn; now rewrite app_nil_r.
Qed.

Lemma SFltb_leb x y : SFltb x y = true -> SFleb x y = true.
Proof. unfold SFltb, SFleb. destruct (SFcompare x y) as [[]|]; congruence. Qed.

Lemma SFltb_not_nan x y : SFltb x y = true -> x <> S754_nan.
Proof. intros H ->. discriminate H. Qed.

Lemma SFleb_refl x : x <> S754_nan -> SFleb x x = true.
Proof.
  unfold SFleb. destruct x as [s|s| |s m e]; intros H; try reflexivity.
  - now destruct s.
  - congruence.
  - cbn. rewrite Z.compare_refl.
    change (Pos.compare_cont Eq m m) with (Pos.compare m m).
    rewrite Pos.compare_refl. now destruct s.
Qed.

Lemma after_epochs_invariant metrics sp t :
  setup_ok sp t ->
  best_val_loss t <> S754_nan -> best_avg_val_loss t <> S754_nan ->
  forall k,
    setup_ok sp (after_epochs metrics t k)
    /\ same_setup t (after_epochs metrics t k)
    /\ best_val_loss (after_epochs metrics t k) <> S754_nan
    /\ best_avg_val_loss (after_epochs metrics t k) <> S754_nan.
Proof.
  intros Hok Hb Ha. induction k as [|k (IHok & IHs & IHb & IHa)]; cbn [after_epochs].
  - auto using same_setup_refl.
  - destruct (epoch_body_spec metrics (start_epoch t + Z.of_nat k) _ sp IHok)
      as (t' & evs & E & S' & _ & _ & _ & Hb' & _ & Ha' & _).
    rewrite E. cbn [state_of fst snd].
    split; [eapply setup_ok_preserved; eauto|].
    split; [eapply same_setup_trans; eauto|].
    rewrite Hb', Ha'. split.
    + destruct (val_loader _ && gt _ _)%bool eqn:Hc; [|exact IHb].
      apply andb_prop in Hc as [_ Hc]. eapply SFltb_not_nan; exact Hc.
    + destruct (is_some _ && val_loader _ && gt _ _)%bool eqn:Hc; [|exact IHa].
      apply andb_prop in Hc as [_ Hc]. eapply SFltb_not_nan; exact Hc.
Qed.

Lemma init_spec load a t ev :
  __init__ load a = (Ok tt, t, ev) ->
  writer t = arg_writer a /\ save_path t = arg_save_path a
  /\ val_loader t = arg_val_loader a /\ epochs t = arg_epochs a
  /\ is_some (scheduler t) = is_some (arg_scheduler a)
  /\ averaged_model t = arg_averaged_model a
  /\ best_val_loss t = inf /\ best_avg_val_loss t = inf.
Proof.
  unfold __init__, _load_from_checkpoint, blank.
  destruct a as [ep tl vl sc us w sp cp am spr]. cbn [arg_checkpoint_path arg_epochs
    arg_train_loader arg_val_loader arg_scheduler arg_update_sched_on_iter arg_writer
    arg_save_path arg_averaged_model arg_save_preds].
  destruct cp as [p|]; [destruct (String.eqb p "")|].
  2: destruct (load p) as [[e o m s|e m d]|err].
  all: cbv [bind get modify emit lift when ret raise is_some
            checkpoint_model checkpoint_optimizer checkpoint_epoch
            checkpoint_scheduler set_model set_optimizer set_start_epoch
            set_scheduler set_weight_diff set_best_val_loss set_best_avg_val_loss];
       cbn [writer save_path save_preds train_loader val_loader model optimizer
            scheduler update_sched_on_iter epochs start_epoch averaged_model
            weight_diff best_val_loss best_avg_val_loss].
  all: try destruct sc as [n|]; try destruct s as [n'|]; cbn;
       try destruct (e >? ep); cbn.
  all: try discriminate.
  all: intros H; injection H; intros; subst; cbn; tauto.
Qed.

Lemma range_empty lo : range lo lo = [].
Proof. unfold range. now rewrite Z.sub_diag. Qed.

(** A trainer that starts at its last epoch trains nothing. *)
Lemma train_nothing_left metrics t :
  start_epoch t = epochs t -> trained (events_of (train metrics t)) = [].
Proof.
  intros H. unfold train. unfold bind at 1. cbn [emit].
  unfold bind at 1. cbn [get]. rewrite H, range_empty. cbn [for_each].
  destruct t as [w spo spr tl vl mo op sc us ep se am wd b1 b2].
  destruct spo, am; reflexivity.
Qed.

(** Without a save path, [train] cannot finish. *)
Lemma train_needs_save_path metrics t :
  save_path t = None -> is_ok (result_of (train metrics t)) = false.
Proof.
  intros H. unfold train. unfold bind at 1. cbn [emit].
  unfold bind at 1. cbn [get]. unfold bind at 1.
  destruct (for_each _ _ t) as [[[[]|e] t1] ev1]; [|reflexivity].
  rewrite H. reflexivity.
Qed.

(** With a writer, a validation loader and an averaged model,
    [_write_to_tb] reads the scheduler without a check. *)
Lemma write_to_tb_needs_scheduler m epoch t :
  val_loader t = true -> is_some (averaged_model t) = true ->
  is_some (weight_diff t) = true ->
  scheduler t = None ->
  result_of (_write_to_tb m epoch t) = Raise AttributeError.
Proof.
  destruct t as [w spo spr tl vl mo op sc us ep se am wd b1 b2]. cbn.
  intros -> Ham Hwd ->. destruct am; [|discriminate].
  destruct wd; [reflexivity | discriminate].
Qed.

(** The trace of the epochs loop is the concatenation of the traces
    of its epochs, and its final state is [after_epochs]. *)
Lemma epochs_loop_trace metrics sp t :
  setup_ok sp t ->
  forall n,
    for_each (range (start_epoch t) (start_epoch t + Z.of_nat n))
             (epoch_body metrics) t
    = (Ok tt, after_epochs metrics t n,
       concat (map (fun k => events_of (epoch_run metrics t k)) (seq 0 n))).
Proof.
  intros Hok n. rewrite range_map.
  induction n as [|n IH].
  - reflexivity.
  - rewrite seq_S, !map_app, for_each_app. unfold bind. rewrite IH.
    cbn [map for_each Nat.add]. unfold bind at 1.
    assert (Hk : setup_ok sp (after_epochs metrics t n)).
    { clear IH. induction n as [|n IHn]; [exact Hok|].
      cbn [after_epochs].
      destruct (epoch_body_spec metrics (start_epoch t + Z.of_nat n) _ sp IHn)
        as (t' & evs & E & S' & _).
      rewrite E. eapply setup_ok_preserved; eauto. }
    destruct (epoch_body_spec metrics (start_epoch t + Z.of_nat n) _ sp Hk)
      as (t' & evs & E & _).
    cbn [after_epochs]. unfold epoch_run. rewrite E.
    cbn [ret state_of events_of fst snd].
    rewrite concat_app. cbn [concat]. now rewrite !app_nil_r.
Qed.

Lemma init_setup_ok load a t ev sp :
  __init__ load a = (Ok tt, t, ev) ->
  save_path t = Some sp -> tb_safe t = true -> setup_ok sp t.
Proof. intros _ H1 H2. split; assumption. Qed.

(** Loading a full checkpoint: the scheduler's state is read only when
    the trainer has a scheduler, and before the epoch is checked. *)
Lemma load_spec load path t e o m s :
  load path = Ok (FullCheckpoint e o m s) ->
  exists t' evs,
    _load_from_checkpoint load path t =
      ((if is_some (scheduler t) && negb (is_some s)
        then Raise TypeError
        else if e >? epochs t
        then Raise (ValueError "Starting epoch is larger than total epochs")
        else Ok tt), t', evs)
    /\ start_epoch t' = e
    /\ same_setup (set_start_epoch e t) t'
    /\ same_trackers t t'.
Proof.
  intros H. unfold _load_from_checkpoint. rewrite H.
  destruct t as [w spo spr tl vl mo op sc us ep se am wd b1 b2].
  cbv [bind get modify emit lift when ret raise is_some
       checkpoint_model checkpoint_optimizer checkpoint_epoch
       checkpoint_scheduler set_model set_optimizer set_start_epoch
       set_scheduler];
  cbn [writer save_path save_preds train_loader val_loader model optimizer
       scheduler update_sched_on_iter epochs start_epoch averaged_model
       weight_diff best_val_loss best_avg_val_loss].
  destruct sc as [n|]; [destruct s as [n'|]|]; cbn; try destruct (e >? ep);
    do 2 eexists; (split; [reflexivity|]); cbn;
    unfold same_setup, same_trackers; cbn; tauto.
Qed.

Lemma init_resume_spec load path a e o m s :
  path <> "" ->
  load path = Ok (FullCheckpoint e o m s) ->
  e <= arg_epochs a ->
  is_some s = is_some (arg_scheduler a) ->
  exists t ev,
    __init__ load (resume_from path a) = (Ok tt, t, ev)
    /\ start_epoch t = e
    /\ writer t = arg_writer a /\ save_path t = arg_save_path a
    /\ val_loader t = arg_val_loader a /\ epochs t = arg_epochs a
    /\ is_some (scheduler t) = is_some (arg_scheduler a)
    /\ is_some (averaged_model t) = is_some (arg_averaged_model a).
Proof.
  intros Hp Hl He Hsched. unfold __init__. cbn [resume_from arg_checkpoint_path].
  apply String.eqb_neq in Hp. rewrite Hp.
  destruct (load_spec load path (blank (resume_from path a)) e o m s Hl)
    as (t1 & ev1 & E1 & Hs & S1 & T1).
  replace (is_some (scheduler (blank (resume_from path a))) && negb (is_some s))%bool
    with false in E1
    by (cbn [blank resume_from scheduler arg_scheduler]; rewrite Hsched;
        now destruct (is_some (arg_scheduler a))).
  replace (e >? epochs (blank (resume_from path a))) with false in E1
    by (symmetry; rewrite Z.gtb_ltb; apply Z.ltb_ge; exact He).
  unfold bind at 1. rewrite E1.
  destruct t1 as [w spo spr tl vl mo op sc us ep se am wd b1 b2].
  unfold same_setup in S1. cbn in S1, Hs.
  destruct S1 as (-> & -> & -> & -> & -> & -> & -> & _ & Hsc & Ham).
  do 2 eexists. split; [reflexivity|]. cbn.
  repeat split; auto.
Qed.

(** The epochs that the first [n] epoch runs trained. *)
Lemma trained_epoch_runs metrics sp t n :
  setup_ok sp t ->
  trained (concat (map (fun k => events_of (epoch_run metrics t k)) (seq 0 n)))
  = range (start_epoch t) (start_epoch t + Z.of_nat n).
Proof.
  intros Hok.
  destruct (epochs_loop_spec metrics sp
              (range (start_epoch t) (start_epoch t + Z.of_nat n)) t Hok)
    as (t1 & ev1 & E1 & _ & Tr1).
  rewrite (epochs_loop_trace metrics sp t Hok n) in E1.
  injection E1 as _ <-. exact Tr1.
Qed.

(** The "best" checkpoints of a run whose end-of-epoch logging finds
    every component it reads. *)
Lemma best_checkpoint_with_safe_logging :
  forall load a metrics t ev0 sp,
    __init__ load a = (Ok tt, t, ev0) ->
    save_path t = Some sp ->
    val_loader t = true ->
    tb_safe t = true ->
    best_val_loss t = inf /\ best_avg_val_loss t = inf /\
    forall k,
      let before := after_epochs metrics t k in
      let after := after_epochs metrics t (S k) in
      let m := metrics (start_epoch t + Z.of_nat k) in
      let run := epoch_run metrics t k in
      result_of run = Ok tt
      /\ (writes (checkpoint_file sp "best_model.pt") (events_of run) = true
          <-> SFltb (val_loss m) (best_val_loss before) = true)
      /\ best_val_loss after =
           (if SFltb (val_loss m) (best_val_loss before)
            then val_loss m else best_val_loss before)
      /\ SFleb (best_val_loss after) (best_val_loss before) = true
      /\ (is_some (averaged_model t) = true ->
          (writes (checkpoint_file sp "best_averaged_model.pt") (events_of run) = true
           <-> SFltb (avg_val_loss m) (best_avg_val_loss before) = true)
          /\ best_avg_val_loss after =
               (if SFltb (avg_val_loss m) (best_avg_val_loss before)
                then avg_val_loss m else best_avg_val_loss before))
      /\ SFleb (best_avg_val_loss after) (best_avg_val_loss before) = true.
Proof.
  intros load a metrics t ev0 sp Hinit Hsp Hvl Htb.
  destruct (init_spec _ _ _ _ Hinit) as (_ & _ & _ & _ & _ & _ & Hb & Ha).
  split; [exact Hb|]. split; [exact Ha|].
  intros k before after m run.
  assert (Hok : setup_ok sp t) by (split; assumption).
  destruct (after_epochs_invariant metrics sp t Hok) with (k := k)
    as (Hokk & Hsk & Hbk & Hak); try (rewrite ?Hb, ?Ha; discriminate).
  destruct (epoch_body_spec metrics (start_epoch t + Z.of_nat k) before sp Hokk)
    as (t' & evs & E & _ & _ & _ & _ & Hb' & Hw & Ha' & Haw).
  destruct Hsk as (_ & _ & _ & _ & Hvlk & _ & _ & _ & _ & Hamk).
  fold before in Hvlk, Hamk. rewrite Hvlk, Hamk, Hvl in *.
  cbn [andb] in *. rewrite andb_true_r in Ha', Haw.
  unfold gt in *. fold m in Hb', Hw, Ha', Haw.
  assert (Eafter : after = t').
  { unfold after. cbn [after_epochs]. fold before. now rewrite E. }
  assert (Erun : run = (Ok tt, t', evs)) by exact E.
  rewrite Eafter, Erun. cbn [result_of events_of fst snd].
  split; [reflexivity|].
  split; [rewrite Hw; tauto|].
  split; [exact Hb'|].
  split.
  { rewrite Hb'. destruct (SFltb (val_loss m) (best_val_loss before)) eqn:Hc.
    - now apply SFltb_leb.
    - now apply SFleb_refl. }
  split.
  { intros Ham. rewrite Ham in *. cbn [andb] in *.
    split; [rewrite Haw; tauto | exact Ha']. }
  rewrite Ha'.
  destruct (is_some (averaged_model t)
            && SFltb (avg_val_loss m) (best_avg_val_loss before))%bool eqn:Hc.
  - apply andb_prop in Hc as [_ Hc]. now apply SFltb_leb.
  - now apply SFleb_refl.
Qed.

(** With a writer, a validation loader and an averaged model but no
    scheduler, [_end_loop] raises in [_write_to_tb], before it saves
    anything or touches the trackers. *)
Lemma end_loop_unsafe m epoch t :
  tb_safe t = false ->
  exists t' evs,
    _end_loop m epoch t = (Raise AttributeError, t', evs)
    /\ same_setup t t' /\ same_trackers t t'
    /\ forall p, writes p evs = false.
Proof.
  destruct t as [w spo spr tl vl mo op sc us ep se am wd b1 b2].
  unfold tb_safe, tb_needs_scheduler. cbn. intros Htb.
  destruct w, vl, am as [a|], sc as [n|]; try discriminate Htb.
  run_monad. do 2 eexists. split; [reflexivity|].
  unfold same_setup, same_trackers. cbn. tauto.
Qed.

Lemma epoch_body_unsafe metrics epoch t :
  tb_safe t = false ->
  exists t' evs,
    epoch_body metrics epoch t = (Raise AttributeError, t', evs)
    /\ same_setup t t' /\ same_trackers t t'
    /\ forall p, writes p evs = false.
Proof.
  intros Htb.
  destruct (train_loop_spec epoch t) as (t1 & E1 & S1 & T1).
  assert (Htb1 : tb_safe t1 = false).
  { revert Htb. unfold tb_safe, tb_needs_scheduler.
    destruct S1 as (Hw & _ & _ & _ & Hvl & _ & _ & _ & Hsc & Ham).
    now rewrite Hw, Hvl, Hsc, Ham. }
  destruct (end_loop_unsafe (metrics epoch) epoch t1 Htb1)
    as (t2 & evs2 & E2 & S2 & T2 & W2).
  unfold epoch_body. unfold bind at 1. rewrite E1.
  unfold bind at 1. cbn [get]. unfold bind at 1.
  assert (Hval : exists evv,
             when (val_loader t1)
               (_val_loop epoch false ;;
                when (is_some (averaged_model t1)) (_val_loop epoch true)) t1
             = (Ok tt, t1, evv)
             /\ forall p, writes p evv = false).
  { destruct (val_loader t1), (is_some (averaged_model t1));
      eexists; (split; [reflexivity|]); cbn; auto. }
  destruct Hval as (evv & Ev & Hvw).
  rewrite Ev, E2.
  do 2 eexists. split; [reflexivity|].
  split; [eapply same_setup_trans; eauto|].
  split.
  { destruct T1 as [T1a T1b], T2 as [T2a T2b]. split; congruence. }
  intros p. rewrite !writes_app, Hvw, W2. reflexivity.
Qed.

Lemma after_epochs_unsafe metrics t :
  tb_safe t = false ->
  forall k, tb_safe (after_epochs metrics t k) = false
            /\ same_trackers t (after_epochs metrics t k).
Proof.
  intros Htb. induction k as [|k [IHs IHt]]; cbn [after_epochs].
  - split; [exact Htb | split; reflexivity].
  - destruct (epoch_body_unsafe metrics (start_epoch t + Z.of_nat k) _ IHs)
      as (t' & evs & E & S' & T' & _).
    rewrite E. cbn [state_of fst snd]. split.
    + revert IHs. unfold tb_safe, tb_needs_scheduler.
      destruct S' as (Hw & _ & _ & _ & Hvl & _ & _ & _ & Hsc & Ham).
      now rewrite Hw, Hvl, Hsc, Ham.
    + destruct IHt as [IHa IHb], T' as [Ta Tb]. split; congruence.
Qed.

(** C1.  For a freshly built trainer with a save path and a validation
    loader, and for every sequence of per-epoch losses: the trackers
    [best_val_loss] and [best_avg_val_loss] start at +infinity and never
    increase from one epoch to the next.  An epoch completes exactly
    when [_write_to_tb] finds the scheduler it reads; in every epoch
    "best_model.pt" is written if and only if the epoch completes and its
    validation loss is strictly less than the tracker (a tie, or a NaN,
    writes nothing), and the tracker then holds that loss and is
    otherwise unchanged.  So with a writer, a validation loader and an
    averaged model but no scheduler nothing is written and the trackers
    stay at +infinity, whatever the losses: the epoch raises before the
    comparison.  With an averaged model the same holds for
    "best_averaged_model.pt" and its tracker. *)
Theorem best_checkpoint_iff_strictly_better :
  forall load a metrics t ev0 sp,
    __init__ load a = (Ok tt, t, ev0) ->
    save_path t = Some sp ->
    val_loader t = true ->
    best_val_loss t = inf /\ best_avg_val_loss t = inf /\
    forall k,
      let before := after_epochs metrics t k in
      let after := after_epochs metrics t (S k) in
      let m := metrics (start_epoch t + Z.of_nat k) in
      let run := epoch_run metrics t k in
      (result_of run = Ok tt <-> tb_safe t = true)
      /\ (writes (checkpoint_file sp "best_model.pt") (events_of run) = true
          <-> tb_safe t = true
              /\ SFltb (val_loss m) (best_val_loss before) = true)
      /\ best_val_loss after =
           (if tb_safe t && SFltb (val_loss m) (best_val_loss before)
            then val_loss m else best_val_loss before)
      /\ SFleb (best_val_loss after) (best_val_loss before) = true
      /\ (is_some (averaged_model t) = true ->
          (writes (checkpoint_file sp "best_averaged_model.pt") (events_of run) = true
           <-> tb_safe t = true
               /\ SFltb (avg_val_loss m) (best_avg_val_loss before) = true)
          /\ best_avg_val_loss after =
               (if tb_safe t && SFltb (avg_val_loss m) (best_avg_val_loss before)
                then avg_val_loss m else best_avg_val_loss before))
      /\ SFleb (best_avg_val_loss after) (best_avg_val_loss before) = true.
Proof.
  intros load a metrics t ev0 sp Hinit Hsp Hvl.
  destruct (init_spec _ _ _ _ Hinit) as (_ & _ & _ & _ & _ & _ & Hb & Ha).
  split; [exact Hb|]. split; [exact Ha|].
  intros k before after m run.
  destruct (tb_safe t) eqn:Htb.
  - destruct (best_checkpoint_with_safe_logging
                load a metrics t ev0 sp Hinit Hsp Hvl Htb) as (_ & _ & H).
    destruct (H k) as (Hr & Hw & Hbest & Hle & Havg & Hale).
    fold before after m run in Hr, Hw, Hbest, Hle, Havg, Hale.
    cbn [andb].
    split; [tauto|]. split; [tauto|]. split; [exact Hbest|].
    split; [exact Hle|]. split; [|exact Hale].
    intros Ham. destruct (Havg Ham) as [Haw Hab]. split; [tauto | exact Hab].
  - destruct (after_epochs_unsafe metrics t Htb k) as [Hs [Tb Ta]].
    fold before in Hs, Tb, Ta.
    destruct (epoch_body_unsafe metrics (start_epoch t + Z.of_nat k) before Hs)
      as (t' & evs & E & _ & [Tb' Ta'] & W).
    assert (Eafter : after = t').
    { unfold after. cbn [after_epochs]. fold before. now rewrite E. }
    assert (Erun : run = (Raise AttributeError, t', evs)) by exact E.
    rewrite Eafter, Erun. cbn [result_of events_of fst snd andb].
    rewrite !W, Tb', Ta', Tb, Ta, Hb, Ha.
    split; [split; discriminate|].
    split; [split; [discriminate | intros [H _]; discriminate H]|].
    split; [reflexivity|]. split; [reflexivity|].
    split; [|reflexivity].
    intros _. split; [|reflexivity].
    split; [discriminate | intros [H _]; discriminate H].
Qed.

(** C2.  For every epoch [e] of the run, every checkpoint written at the
    end of epoch [e] stores the epoch index [e + 1], and "most_recent.pt"
    is one of them.  Building a trainer from that checkpoint sets
    [start_epoch] to [e + 1]; its [train] then runs exactly the epochs
    [e + 1, epochs), and the epochs run up to the checkpoint followed by
    the epochs of the resumed run are the epochs of the uninterrupted
    run. *)
Theorem resume_trains_remaining_epochs :
  forall load a metrics t ev0 sp,
    __init__ load a = (Ok tt, t, ev0) ->
    save_path t = Some sp ->
    tb_safe t = true ->
    forall k,
      start_epoch t + Z.of_nat k < epochs t ->
      let e := start_epoch t + Z.of_nat k in
      let evs := events_of (epoch_run metrics t k) in
      Forall (fun o => checkpoint_epoch o = e + 1) (saved_objs evs)
      /\ exists o mo sc,
          In (TorchSave (FullCheckpoint (e + 1) o mo sc)
                        (checkpoint_file sp "most_recent.pt")) evs
          /\ forall load' path metrics',
              path <> "" ->
              load' path = Ok (FullCheckpoint (e + 1) o mo sc) ->
              exists t' ev',
                __init__ load' (resume_from path a) = (Ok tt, t', ev')
                /\ start_epoch t' = e + 1
                /\ result_of (train metrics' t') = Ok tt
                /\ trained (events_of (train metrics' t')) = range (e + 1) (epochs t)
                /\ result_of (train metrics t) = Ok tt
                /\ trained (events_of (train metrics t)) =
                     (trained (concat (map (fun j => events_of (epoch_run metrics t j))
                                           (seq 0 (S k))))
                      ++ trained (events_of (train metrics' t')))%list.
Proof.
  intros load a metrics t ev0 sp Hinit Hsp Htb k Hlt e evs.
  assert (Hok : setup_ok sp t) by (split; assumption).
  destruct (init_spec _ _ _ _ Hinit) as (Hw & Hspa & Hvl & Hep & Hsc & Ham & Hb & Ha).
  assert (Hb' : best_val_loss t <> S754_nan) by (rewrite Hb; discriminate).
  assert (Ha' : best_avg_val_loss t <> S754_nan) by (rewrite Ha; discriminate).
  destruct (after_epochs_invariant metrics sp t Hok Hb' Ha' k) as (Hokk & Hsk & _).
  destruct (epoch_body_spec metrics e (after_epochs metrics t k) sp Hokk)
    as (t1 & evs1 & E & _ & _ & Hobjs & (o & mo & sc & Hin & Hck) & _).
  assert (Eevs : evs = evs1) by (unfold evs, epoch_run; fold e; now rewrite E).
  rewrite Eevs. split; [exact Hobjs|].
  exists o, mo, sc. split; [exact Hin|].
  intros load' path metrics' Hpath Hload.
  destruct (init_resume_spec load' path a (e + 1) o mo sc Hpath Hload)
    as (t' & ev' & Einit & Hst & Hw' & Hsp' & Hvl' & Hep' & Hsc' & Ham');
    [rewrite <- Hep; lia | |].
  { destruct Hsk as (_ & _ & _ & _ & _ & _ & _ & _ & Hsck & _). congruence. }
  assert (Hok' : setup_ok sp t').
  { split; [congruence|]. unfold tb_safe, tb_needs_scheduler in *.
    rewrite Hw', Hvl', Hsc', Ham', <- Hw, <- Hvl, <- Hsc, <- Ham. exact Htb. }
  destruct (train_spec metrics' sp t' Hok') as (t2 & ev2 & E2 & _ & Tr2).
  destruct (train_spec metrics sp t Hok) as (t3 & ev3 & E3 & _ & Tr3).
  exists t', ev'. rewrite E2, E3. cbn [result_of events_of fst snd].
  rewrite Tr2, Tr3, Hst, Hep', <- Hep.
  rewrite (trained_epoch_runs metrics sp t (S k) Hok).
  repeat split; auto.
  replace (start_epoch t + Z.of_nat (S k)) with (e + 1) by (unfold e; lia).
  apply range_split. unfold e. lia.
Qed.

(** C8, as the code has it.  Loading a full checkpoint sets
    [start_epoch] to the epoch the checkpoint stores, whatever happens
    next.  When the trainer has no scheduler, or the checkpoint holds a
    scheduler state, loading raises (a [ValueError]) if and only if
    that epoch is greater than [epochs], and returns otherwise: a stored
    epoch equal to [epochs] is accepted, and [train] then runs no epoch.
    When the trainer has a scheduler and the checkpoint's scheduler
    entry is [None], [load_state_dict] raises [TypeError] before the
    epoch is checked, whatever the stored epoch. *)
Theorem load_rejects_only_overshoot :
  forall load path t e o m s,
    load path = Ok (FullCheckpoint e o m s) ->
    let out := _load_from_checkpoint load path t in
    let accepted := (negb (is_some (scheduler t)) || is_some s)%bool in
    start_epoch (state_of out) = e
    /\ epochs (state_of out) = epochs t
    /\ (result_of out = Raise (ValueError "Starting epoch is larger than total epochs")
        <-> accepted = true /\ e > epochs t)
    /\ (result_of out = Ok tt <-> accepted = true /\ e <= epochs t)
    /\ (result_of out = Raise TypeError <-> accepted = false)
    /\ (e = epochs t ->
        forall metrics, trained (events_of (train metrics (state_of out))) = []).
Proof.
  intros load path t e o m s Hload out accepted.
  destruct (load_spec load path t e o m s Hload) as (t' & evs & E & Hst & Hs & _).
  unfold out. rewrite E. cbn [state_of result_of fst snd].
  destruct Hs as (_ & _ & _ & _ & _ & _ & Hep & _).
  change (epochs (set_start_epoch e t)) with (epochs t) in Hep.
  split; [exact Hst|]. split; [exact Hep|].
  assert (Hacc : (is_some (scheduler t) && negb (is_some s))%bool = negb accepted).
  { unfold accepted. now destruct (is_some (scheduler t)), (is_some s). }
  rewrite Hacc.
  assert (Hlast : e = epochs t ->
                  forall metrics, trained (events_of (train metrics t')) = []).
  { intros He metrics. apply train_nothing_left. congruence. }
  destruct accepted; cbn [negb].
  - destruct (Z.gtb_spec e (epochs t)) as [Hgt|Hle].
    + split; [split; [intros _; split; [reflexivity | lia] | reflexivity]|].
      split; [split; [discriminate | intros [_ H]; lia]|].
      split; [split; discriminate | exact Hlast].
    + split; [split; [discriminate | intros [_ H]; lia]|].
      split; [split; [intros _; split; [reflexivity | lia] | reflexivity]|].
      split; [split; discriminate | exact Hlast].
  - split; [split; [discriminate | intros [H _]; discriminate H]|].
    split; [split; [discriminate | intros [H _]; discriminate H]|].
    split; [split; reflexivity | exact Hlast].
Qed.

(** A trainer with a scheduler loads the checkpoint that [_save_model]
    writes, at the end of epoch 0, for a trainer without one: the stored
    epoch 1 is below [epochs = 3], and loading raises all the same. *)
Lemma load_raises_without_overshoot :
  let t := trainer_of full_args in
  let ckpt := FullCheckpoint 1 2 2 None in
  let out := _load_from_checkpoint (one_file "ckpt.pt" ckpt) "ckpt.pt" t in
  is_some (scheduler t) = true
  /\ start_epoch (state_of out) = 1
  /\ start_epoch (state_of out) <= epochs t
  /\ result_of out = Raise TypeError
  /\ ~ (is_ok (result_of out) = false <-> start_epoch (state_of out) > epochs t).
Proof.
  cbv zeta.
  split; [reflexivity|]. split; [reflexivity|].
  split; [vm_compute; discriminate|]. split; [reflexivity|].
  intros [H _]. specialize (H eq_refl). vm_compute in H. discriminate H.
Qed.

(** The run of the specification: with the losses 3.0, 2.5, 2.5, 2.0,
    2.6 the "best" checkpoint is written at the end of epochs 0, 1 and 3
    (it stores the next epoch), three times and not four. *)
Example spec_scenario_three_best_writes :
  let run := train (metrics_of_losses example_losses) (trainer_of example_args) in
  result_of run = Ok tt
  /\ map checkpoint_epoch
       (saved_objs (filter (saved_to (checkpoint_file "out" "best_model.pt"))
                           (events_of run)))
     = [1; 2; 4].
Proof. vm_compute. split; reflexivity. Qed.

(** C6.  Two uses of an optional component without a presence check:
    without a save path [train] raises [TypeError] when it joins the
    path of the final checkpoint; with a writer, a validation loader and
    an averaged model but no scheduler, [_write_to_tb] raises
    [AttributeError] when it reads the learning rate, and so does
    [train] in its first epoch. *)
Theorem optional_components_used_unchecked :
  result_of (train (metrics_of_losses example_losses)
                   (trainer_of args_without_save_path))
    = Raise TypeError
  /\ result_of (_write_to_tb (metrics_of_losses example_losses 0) 0
                             (trainer_of args_without_scheduler))
    = Raise AttributeError
  /\ result_of (train (metrics_of_losses example_losses)
                      (trainer_of args_without_scheduler))
    = Raise AttributeError.
Proof. vm_compute. repeat split; reflexivity. Qed.

Lemma best_checkpoint_iff_strictly_better_witness :
  let t := trainer_of args_without_scheduler in
  let metrics := metrics_of_losses example_losses in
  (__init__ no_files args_without_scheduler = (Ok tt, t, [])
   /\ save_path t = Some "out" /\ val_loader t = true)
  /\ (writes (checkpoint_file "out" "best_model.pt")
             (events_of (epoch_run metrics t 0)) = true
      <-> tb_safe t = true
          /\ SFltb (val_loss (metrics 0)) (best_val_loss (after_epochs metrics t 0))
             = true)
  /\ tb_safe t = false
  /\ SFltb (val_loss (metrics 0)) (best_val_loss (after_epochs metrics t 0)) = true.
Proof.
  intros t metrics.
  assert (H1 : __init__ no_files args_without_scheduler = (Ok tt, t, []))
    by reflexivity.
  assert (H2 : save_path t = Some "out") by reflexivity.
  assert (H3 : val_loader t = true) by reflexivity.
  split; [auto|].
  destruct (best_checkpoint_iff_strictly_better
              no_files args_without_scheduler metrics t [] "out" H1 H2 H3)
    as (_ & _ & H).
  destruct (H 0%nat) as (_ & Hw & _).
  split; [exact Hw|]. split; reflexivity.
Defined.

Lemma resume_trains_remaining_epochs_witness :
  let t := trainer_of example_args in
  let metrics := metrics_of_losses example_losses in
  (__init__ no_files example_args = (Ok tt, t, [])
   /\ save_path t = Some "out" /\ tb_safe t = true
   /\ start_epoch t + Z.of_nat 1 < epochs t)
  /\ Forall (fun o => checkpoint_epoch o = 2)
            (saved_objs (events_of (epoch_run metrics t 1))).
Proof.
  intros t metrics.
  assert (H1 : __init__ no_files example_args = (Ok tt, t, [])) by reflexivity.
  assert (H2 : save_path t = Some "out") by reflexivity.
  assert (H3 : tb_safe t = true) by reflexivity.
  assert (H4 : start_epoch t + Z.of_nat 1 < epochs t) by reflexivity.
  split; [repeat split; assumption|].
  destruct (resume_trains_remaining_epochs
              no_files example_args metrics t [] "out" H1 H2 H3 1%nat H4)
    as (H & _).
  exact H.
Defined.

Lemma load_rejects_only_overshoot_witness :
  let load := one_file "ckpt.pt" (FullCheckpoint 5 10 10 None) in
  let t := trainer_of example_args in
  load "ckpt.pt" = Ok (FullCheckpoint 5 10 10 None)
  /\ start_epoch (state_of (_load_from_checkpoint load "ckpt.pt" t)) = 5
  /\ (result_of (_load_from_checkpoint load "ckpt.pt" t) = Ok tt
      <-> (negb (is_some (scheduler t)) || is_some (@None nat))%bool = true
          /\ 5 <= epochs t).
Proof.
  intros load t.
  assert (H : load "ckpt.pt" = Ok (FullCheckpoint 5 10 10 None)) by reflexivity.
  split; [exact H|].
  destruct (load_rejects_only_overshoot load "ckpt.pt" t 5 10%nat 10%nat None H)
    as (Hs & _ & _ & Hok & _).
  split; [exact Hs | exact Hok].
Defined.

End TrainerFacts.

(** ** Properties of the plots *)

Module PlotterFacts.
Import Plotter.
Local Open Scope nat_scope.

Lemma length_ones_over w : length (ones_over w) = Z.to_nat w.
Proof. apply repeat_length. Qed.

Lemma length_correlate_valid a w :
  length (correlate_valid a w) = length a - length w + 1.
Proof. unfold correlate_valid. now rewrite length_map, length_seq. Qed.

Lemma convolve_valid_ok (a v : series) :
  1 <= length v <= length a ->
  convolve_valid a v = Ok (correlate_valid a (rev v)).
Proof.
  intros H. unfold convolve_valid.
  destruct (Nat.ltb_spec (length a) (length v)); [lia|].
  destruct (Nat.eqb_spec (length a) 0); [lia|].
  destruct (Nat.eqb_spec (length v) 0); [lia|]. reflexivity.
Qed.

Lemma ones_over_1 : ones_over 1 = [Some 1%Qc].
Proof.
  unfold ones_over. change (Z.to_nat 1) with 1.
  cbn [repeat num_div_nat num_of_Z].
  assert (E : (Q2Qc (inject_Z 1) / Q2Qc (inject_Z (Z.of_nat 1)))%Qc = 1%Qc)
    by (apply Qc_is_canon; reflexivity).
  now rewrite E.
Qed.

Lemma dot_single (x : number) : dot [x] [Some 1%Qc] = x.
Proof.
  unfold dot, map2. cbn. destruct x as [q|]; cbn; [|reflexivity].
  f_equal. change (Q2Qc (inject_Z 0)) with 0%Qc. ring.
Qed.

Lemma correlate_single_from (s : series) : forall pre : series,
  map (fun k => dot (firstn 1 (skipn k (pre ++ s))) [Some 1%Qc])
      (seq (length pre) (length s)) = s.
Proof.
  induction s as [|x s IH]; intros pre; cbn [length seq map]; [reflexivity|].
  f_equal.
  - rewrite skipn_app, Nat.sub_diag, skipn_all. cbn. apply dot_single.
  - specialize (IH (pre ++ [x])%list).
    rewrite <- app_assoc, length_app in IH. cbn [length app] in IH.
    rewrite Nat.add_1_r in IH. exact IH.
Qed.

Lemma correlate_single (s : series) :
  s <> [] -> correlate_valid s [Some 1%Qc] = s.
Proof.
  intros Hs. unfold correlate_valid. cbn [length].
  replace (length s - 1 + 1) with (length s).
  2:{ destruct s; [congruence | cbn; lia]. }
  exact (correlate_single_from s []).
Qed.

(** The moving average of a series: its length, and the window 1. *)
Lemma moving_average_spec (s : series) (w : Z) :
  (1 <= w <= Z.of_nat (length s))%Z ->
  exists y,
    convolve_valid s (ones_over w) = Ok y
    /\ length y = length s - Z.to_nat w + 1
    /\ (w = 1%Z -> y = s).
Proof.
  intros H. eexists. split; [apply convolve_valid_ok; rewrite length_ones_over; lia|].
  split.
  - now rewrite length_correlate_valid, length_rev, length_ones_over.
  - intros ->. rewrite ones_over_1. cbn [rev app].
    apply correlate_single. destruct s; [cbn in H; lia | discriminate].
Qed.

Local Open Scope Z_scope.

(** [to_int] on a canonical rational that is a known non-negative
    fraction. *)
Lemma to_int_of (q : Qc) (x : Q) :
  (this q == x)%Q -> (0 <= x)%Q -> to_int q = Qfloor x.
Proof.
  intros E H. unfold to_int.
  assert (Hle : Qle_bool 0 (this q) = true) by (apply Qle_bool_iff; now rewrite E).
  rewrite Hle. now rewrite E.
Qed.

Lemma Qfloor_half (n : Z) : Qfloor (n # 2) = n / 2.
Proof. reflexivity. Qed.

Lemma index_ok {A} (l : list A) (i : nat) (x : A) :
  nth_error l i = Some x -> index l (Z.of_nat i) = Ok x.
Proof.
  intros H. unfold index.
  assert (i < length l)%nat by (apply nth_error_Some; congruence).
  destruct (Z.ltb_spec (Z.of_nat i) 0); [lia|].
  destruct (Z.leb_spec 0 (Z.of_nat i)); [|lia].
  destruct (Z.ltb_spec (Z.of_nat i) (Z.of_nat (length l))); [|lia].
  cbn [andb]. now rewrite Nat2Z.id, H.
Qed.

(** Indexing with consecutive indices takes a slice. *)
Lemma take_slice {A} (l : list A) (c n : nat) :
  (c + n <= length l)%nat ->
  take l (map (fun k => Z.of_nat k + Z.of_nat c) (seq 0 n))
  = Ok (firstn n (skipn c l)).
Proof.
  revert c. induction n as [|n IH]; intros c H; [reflexivity|].
  cbn [seq map take]. rewrite Z.add_0_l.
  destruct (nth_error l c) as [x|] eqn:Hx.
  2:{ apply nth_error_None in Hx. lia. }
  rewrite (index_ok _ _ _ Hx).
  rewrite <- seq_shift, map_map.
  erewrite map_ext; [rewrite (IH (S c)) by lia|intros k; cbv beta; lia].
  f_equal.
  clear IH. revert l H Hx. induction c as [|c IHc]; intros l H Hx.
  - destruct l; [discriminate|]. cbn in Hx. injection Hx as ->. reflexivity.
  - destruct l; [discriminate|]. cbn in Hx, H. cbn [skipn].
    apply IHc; [lia | exact Hx].
Qed.

Lemma this_rational z d : (this (rational z d) == z # d)%Q.
Proof. apply Qred_correct. Qed.

(** One point of the x axis: [w/2 + k] truncates to [k + w div 2]. *)
Lemma center_point (w : Z) (d k : nat) :
  1 <= w ->
  to_int (rational w 2
          + Q2Qc (inject_Z (Z.of_nat k))
            * ((Q2Qc (inject_Z (w + Z.of_nat (S d))) - rational w 2 - rational w 2)
               / Q2Qc (inject_Z (Z.of_nat (S d)))))%Qc
  = Z.of_nat k + w / 2.
Proof.
  intros Hw.
  rewrite (to_int_of _ ((w + 2 * Z.of_nat k) # 2)).
  - rewrite Qfloor_half, (Z.mul_comm 2), Z.div_add by lia. lia.
  - cbn [this Qcplus Qcmult Qcdiv Qcinv Qcminus Qcopp Q2Qc rational].
    rewrite !Qred_correct.
    rewrite (Qmake_Qdiv w 2), (Qmake_Qdiv (w + 2 * Z.of_nat k) 2).
    rewrite !inject_Z_plus, !inject_Z_mult.
    assert (Hd : ~ (inject_Z (Z.of_nat (S d)) == 0)%Q).
    { intros E. unfold Qeq in E. cbn in E. lia. }
    change (inject_Z (Z.pos 2)) with (2 # 1)%Q.
    change (inject_Z 2) with (2 # 1)%Q.
    field. exact Hd.
  - unfold Qle. cbn [Qnum Qden]. lia.
Qed.

Lemma window_centers (w : Z) (L : nat) :
  1 <= w <= Z.of_nat L ->
  map to_int (linspace (rational w 2)
                (Q2Qc (inject_Z (Z.of_nat L)) - rational w 2)%Qc
                (L - Z.to_nat w + 1))
  = map (fun k => Z.of_nat k + Z.of_nat (Z.to_nat (w / 2)))
        (seq 0 (L - Z.to_nat w + 1)).
Proof.
  intros H.
  assert (Hdiv : Z.of_nat (Z.to_nat (w / 2)) = w / 2).
  { apply Z2Nat.id. apply Z.div_pos; lia. }
  rewrite Hdiv.
  destruct (L - Z.to_nat w)%nat as [|d] eqn:Hn.
  - cbn [Nat.add linspace seq map]. f_equal.
    rewrite (to_int_of _ (w # 2)); [apply Qfloor_half | apply this_rational |].
    unfold Qle. cbn. lia.
  - replace (S d + 1)%nat with (S (S d)) by lia. cbn [linspace].
    rewrite map_map. apply map_ext_in. intros k _.
    replace (Z.of_nat L) with (w + Z.of_nat (S d)) by lia.
    replace (S (S d) - 1)%nat with (S d) by lia.
    apply center_point. lia.
Qed.

Local Open Scope nat_scope.

Lemma broadcast_dim_same n : broadcast_dim n n = Some n.
Proof. unfold broadcast_dim. now rewrite Nat.eqb_refl. Qed.

Lemma stretch_same {A} (l : list A) : stretch (length l) l = l.
Proof. destruct l as [|x [|y l]]; reflexivity. Qed.

Lemma well_formed_uniform a : well_formed a -> uniform (n_cols a) (rows a).
Proof. unfold well_formed, uniform. apply Forall_impl. tauto. Qed.

Lemma uniform_tl n rs : uniform n rs -> uniform n (tl rs).
Proof. destruct rs; [auto|]. intros H. now inversion H. Qed.

Lemma uniform_removelast n rs : uniform n rs -> uniform n (removelast rs).
Proof.
  unfold uniform. rewrite !Forall_forall. intros H x Hx. apply H.
  destruct rs as [|r rs]; [contradiction|].
  assert (Hne : r :: rs <> []) by discriminate.
  rewrite (app_removelast_last r Hne). apply in_or_app. now left.
Qed.

Lemma map_stretch_uniform n rs : uniform n rs -> map (stretch n) rs = rs.
Proof.
  induction 1 as [|r rs Hr _ IH]; [reflexivity|].
  cbn [map]. rewrite IH. f_equal. subst n. apply stretch_same.
Qed.

(** On two arrays of one shape, an operator works entry by entry. *)
Lemma elementwise_same_shape f d a b :
  length (rows a) = length (rows b) -> n_cols a = n_cols b ->
  uniform (n_cols a) (rows a) -> uniform (n_cols b) (rows b) ->
  elementwise f d a b
  = Ok (mk_ndarray d (n_cols a) (map2 (map2 f) (rows a) (rows b))).
Proof.
  intros Hr Hc Ha Hb. unfold elementwise.
  rewrite <- Hr, <- Hc, !broadcast_dim_same.
  rewrite stretch_same. rewrite Hr at 1. rewrite stretch_same.
  rewrite (map_stretch_uniform _ _ Ha).
  rewrite Hc in *. now rewrite (map_stretch_uniform _ _ Hb).
Qed.

Lemma length_tl_removelast {A} (l : list A) :
  length (tl l) = length (removelast l).
Proof.
  destruct l as [|x l]; [reflexivity|]. cbn [tl length].
  assert (Hne : x :: l <> []) by discriminate.
  pose proof (app_removelast_last x Hne) as E.
  apply (f_equal (@length A)) in E. rewrite length_app in E. cbn [length] in E. lia.
Qed.

(** The stability series of one history. *)
Lemma stability_eq a :
  well_formed a ->
  np_eq (from_second a) (but_last a)
  = Ok (mk_ndarray BoolT (n_cols a)
          (map2 (map2 (fun x y => Z.b2z (Z.eqb x y)))
                (tl (rows a)) (removelast (rows a)))).
Proof.
  intros Hwf. apply well_formed_uniform in Hwf. unfold np_eq.
  rewrite elementwise_same_shape; cbn [from_second but_last rows n_cols];
    auto using length_tl_removelast, uniform_tl, uniform_removelast.
Qed.

Lemma sumZ_bound (l : list Z) :
  Forall (fun x => x = 0%Z \/ x = 1%Z) l ->
  (sumZ l <= Z.of_nat (length l))%Z
  /\ (sumZ l = Z.of_nat (length l) <-> Forall (fun x => x = 1%Z) l).
Proof.
  induction 1 as [|x l Hx _ [IH1 IH2]]; cbn [sumZ fold_right length].
  - split; [lia|]. split; auto.
  - fold (sumZ l). split; [lia|]. split.
    + intros E. constructor; [lia|]. apply IH2. lia.
    + intros HF. inversion HF; subst. apply IH2 in H2. lia.
Qed.

Lemma Qc_ratio_one (s n : Z) :
  (0 < n)%Z ->
  (Q2Qc (inject_Z s) / Q2Qc (inject_Z n))%Qc = 1%Qc <-> s = n.
Proof.
  intros Hn.
  assert (Hnz : Q2Qc (inject_Z n) <> 0%Qc).
  { intros E. apply Q2Qc_eq_iff in E. unfold Qeq in E. cbn in E. lia. }
  split.
  - intros E.
    assert (E' : Q2Qc (inject_Z s) = Q2Qc (inject_Z n)).
    { rewrite <- (Qcmult_1_l (Q2Qc (inject_Z n))), <- E. field. exact Hnz. }
    apply Q2Qc_eq_iff in E'. unfold Qeq in E'. cbn in E'. lia.
  - intros ->. field. exact Hnz.
Qed.

Lemma mean_one_iff (l : list Z) :
  Forall (fun x => x = 0%Z \/ x = 1%Z) l -> l <> [] ->
  mean l = Some 1%Qc <-> Forall (fun x => x = 1%Z) l.
Proof.
  intros H01 Hne. destruct (sumZ_bound l H01) as [_ Hiff].
  rewrite <- Hiff. unfold mean, num_div_nat, num_of_Z.
  destruct (length l) as [|n] eqn:Hlen.
  { destruct l; [congruence | discriminate]. }
  rewrite <- Qc_ratio_one with (n := Z.of_nat (S n)) by lia.
  split; [intros E | intros ->; reflexivity].
  exact (f_equal (fun o => match o with Some q => q | None => 0%Qc end) E).
Qed.

Lemma same_entries_01 (r1 r2 : list Z) :
  Forall (fun x => x = 0%Z \/ x = 1%Z) (map2 same_entry r1 r2).
Proof.
  unfold map2. apply Forall_map, Forall_forall. intros [x y] _.
  unfold same_entry. cbn. destruct (Z.eqb x y); auto.
Qed.

Lemma same_entries_all_ones (r1 r2 : list Z) :
  length r1 = length r2 ->
  Forall (fun x => x = 1%Z) (map2 same_entry r1 r2) <-> r1 = r2.
Proof.
  revert r2. induction r1 as [|x r1 IH]; intros [|y r2] Hlen; try discriminate.
  - split; intros _; [reflexivity | constructor].
  - unfold map2. cbn [combine map fst snd]. fold (map2 same_entry r1 r2).
    injection Hlen as Hlen. split.
    + intros HF. inversion HF as [|? ? Hxy Hrest]; subst.
      apply IH in Hrest; [|exact Hlen]. unfold same_entry in Hxy.
      destruct (Z.eqb_spec x y); [congruence | discriminate].
    + intros [= -> ->]. constructor.
      * unfold same_entry. now rewrite Z.eqb_refl.
      * now apply IH.
Qed.

(** A row of [a == b] has mean 1 exactly when the two rows agree. *)
Lemma mean_same_row (r1 r2 : list Z) :
  length r1 = length r2 -> r1 <> [] ->
  mean (map2 same_entry r1 r2) = Some 1%Qc <-> r1 = r2.
Proof.
  intros Hlen Hne. rewrite mean_one_iff.
  - now apply same_entries_all_ones.
  - apply same_entries_01.
  - destruct r1; [congruence|]. destruct r2; discriminate.
Qed.

Lemma all_rows_same n (l1 l2 : list (list Z)) :
  1 <= n -> uniform n l1 -> uniform n l2 -> length l1 = length l2 ->
  Forall (fun v => v = Some 1%Qc) (map mean (map2 (map2 same_entry) l1 l2))
  <-> l1 = l2.
Proof.
  intros Hn H1. revert l2. induction H1 as [|r1 l1 Hr1 _ IH];
    intros [|r2 l2] H2 Hlen; try discriminate.
  - split; intros _; [reflexivity | constructor].
  - inversion H2 as [|? ? Hr2 H2']; subst. injection Hlen as Hlen.
    unfold map2 at 1. cbn [combine map fst snd].
    fold (map2 (map2 same_entry) l1 l2).
    assert (Hne : r1 <> []) by (destruct r1; [cbn in Hn; lia | discriminate]).
    split.
    + intros HF. inversion HF as [|? ? Hm Hrest]; subst.
      apply mean_same_row in Hm; [|congruence|exact Hne].
      apply IH in Hrest; auto. congruence.
    + intros [= -> ->]. constructor.
      * apply mean_same_row; auto.
      * apply IH; auto.
Qed.

Lemma plot_stability_self a labels iters :
  well_formed a ->
  2 <= length (match labels with Some l => l | None => default_labels [a; a] end) ->
  exists calls,
    plot_stability [a; a] labels (Some iters) = (Ok tt, calls)
    /\ solid_curves calls = [stability_of a; stability_of a].
Proof.
  intros Hwf Hl. unfold plot_stability.
  cbv [for_each enumerate length seq combine].
  change (index [a; a] 0) with (Ok a).
  unfold shape_eqb, shape. cbn [fst snd].
  cbv [bind lift]. rewrite !Nat.eqb_refl. cbv [andb assert ret emit].
  rewrite (stability_eq a Hwf). cbv [mean_axis1 rows].
  fold same_entry. fold (stability_of a).
  assert (Hlab : exists l0 l1,
            index (match labels with Some l => l | None => default_labels [a; a] end)
                  (Z.of_nat 0) = Ok l0
            /\ index (match labels with Some l => l | None => default_labels [a; a] end)
                     (Z.of_nat 1) = Ok l1).
  { destruct labels as [l|].
    - destruct l as [|l0 [|l1 l]]; try (cbn in Hl; lia).
      exists l0, l1. split.
      + reflexivity.
      + unfold index. cbn [length].
        destruct (Z.ltb_spec (Z.of_nat 1) 0); [lia|].
        destruct (Z.leb_spec 0 (Z.of_nat 1)); [|lia].
        destruct (Z.ltb_spec (Z.of_nat 1) (Z.of_nat (S (S (length l))))); [|lia].
        reflexivity.
    - exists "1", "2". split; reflexivity. }
  destruct Hlab as (l0 & l1 & -> & ->).
  eexists. split; [reflexivity|]. reflexivity.
Qed.

Lemma length_map2 {A B C} (f : A -> B -> C) l1 l2 :
  length (map2 f l1 l2) = Nat.min (length l1) (length l2).
Proof. unfold map2. now rewrite length_map, length_combine. Qed.

Ltac prove_well_formed :=
  unfold well_formed; cbn;
  repeat first [ apply Forall_nil | apply Forall_cons | split | reflexivity
               | left; reflexivity | right; reflexivity ].

Lemma nth_tl {A} (l : list A) (k : nat) (d : A) : nth k (tl l) d = nth (S k) l d.
Proof. destruct l; [now destruct k | reflexivity]. Qed.

Lemma nth_removelast {A} (l : list A) (k : nat) (d : A) :
  S k < length l -> nth k (removelast l) d = nth k l d.
Proof.
  revert k. induction l as [|x l IH]; intros k Hk; [cbn in Hk; lia|].
  destruct l as [|y l]; [cbn in Hk; lia|].
  change (removelast (x :: y :: l)) with (x :: removelast (y :: l)).
  destruct k as [|k]; [reflexivity|].
  cbn [nth]. apply IH. cbn [length] in *. lia.
Qed.

Lemma nth_map2 {A B C} (f : A -> B -> C) l1 l2 k d1 d2 d :
  k < length l1 -> k < length l2 ->
  nth k (map2 f l1 l2) d = f (nth k l1 d1) (nth k l2 d2).
Proof.
  revert l2 k. induction l1 as [|x l1 IH]; intros [|y l2] k H1 H2;
    try (cbn in H1, H2; lia).
  destruct k as [|k]; [reflexivity|].
  unfold map2. cbn [combine map nth]. apply IH; cbn [length] in *; lia.
Qed.

(** The entries that agree, counted by position. *)
Lemma sum_same_entry (r1 r2 : list Z) :
  length r1 = length r2 ->
  sumZ (map2 same_entry r1 r2)
  = Z.of_nat (length (filter (fun n => Z.eqb (nth n r1 0%Z) (nth n r2 0%Z))
                             (seq 0 (length r1)))).
Proof.
  revert r2. induction r1 as [|x r1 IH]; intros [|y r2] H; try discriminate H.
  - reflexivity.
  - injection H as H. unfold map2. cbn [combine map fst snd sumZ fold_right length].
    fold (map2 same_entry r1 r2). fold (sumZ (map2 same_entry r1 r2)).
    rewrite (IH r2 H). cbn [seq]. rewrite <- seq_shift. cbn [filter].
    change (nth 0 (x :: r1) 0%Z) with x. change (nth 0 (y :: r2) 0%Z) with y.
    assert (E : forall (l : list nat),
               length (filter (fun n => Z.eqb (nth n (x :: r1) 0%Z) (nth n (y :: r2) 0%Z))
                              (map S l))
               = length (filter (fun n => Z.eqb (nth n r1 0%Z) (nth n r2 0%Z)) l)).
    { induction l as [|n l IHl]; [reflexivity|].
      cbn [map filter].
      change (nth (S n) (x :: r1) 0%Z) with (nth n r1 0%Z).
      change (nth (S n) (y :: r2) 0%Z) with (nth n r2 0%Z).
      destruct (Z.eqb _ _); cbn [length]; now rewrite IHl. }
    unfold same_entry. destruct (Z.eqb x y); cbn [length Z.b2z]; rewrite E; lia.
Qed.

(** One entry of the stability series: the fraction of samples that
    did not change since the previous epoch. *)
Lemma stability_entry a e :
  well_formed a -> 1 <= e < length (rows a) ->
  nth (e - 1) (stability_of a) None
  = num_div_nat (num_of_Z (Z.of_nat (unchanged_samples a e))) (n_cols a).
Proof.
  intros Hwf He. pose proof (well_formed_uniform a Hwf) as Hu.
  destruct e as [|k]; [lia|].
  replace (S k - 1) with k by lia.
  unfold stability_of.
  rewrite (nth_indep _ None (mean [])) by
    (rewrite length_map, length_map2, <- length_tl_removelast, Nat.min_id;
     destruct (rows a); cbn [tl length] in *; lia).
  rewrite (map_nth mean).
  rewrite (nth_map2 _ _ _ _ [] [] [])
    by (rewrite <- ?length_tl_removelast; destruct (rows a); cbn [tl length] in *; lia).
  rewrite nth_tl, nth_removelast by lia.
  assert (Hlen : forall i, i < length (rows a) -> length (nth i (rows a) []) = n_cols a).
  { intros i Hi. unfold uniform in Hu. rewrite Forall_forall in Hu.
    apply Hu. now apply nth_In. }
  unfold mean. rewrite length_map2, !Hlen, Nat.min_id by lia.
  rewrite sum_same_entry by (rewrite !Hlen; lia).
  rewrite Hlen by lia.
  unfold unchanged_samples, entry. replace (S k - 1) with k by lia.
  reflexivity.
Qed.

(** C10, as the code has it.  [plot_stability] never compares its two
    inputs with each other: for each history it draws the fraction of
    samples unchanged since the previous epoch.  On the pair [(a, a)],
    with at least two epochs and one sample, it draws the same series of
    length [E - 1] twice; its entry for the epoch [e >= 1] is the number
    of samples [n] with [a[e, n] = a[e - 1, n]] divided by the number of
    samples; and the series is all ones if and only if no sample of [a]
    changes between consecutive epochs. *)
Theorem stability_of_pair_all_ones_iff_unchanging :
  forall a labels iters,
    well_formed a ->
    1 <= n_cols a ->
    2 <= length (rows a) ->
    2 <= length (match labels with
                 | Some l => l
                 | None => default_labels [a; a]
                 end) ->
    exists s calls,
      plot_stability [a; a] labels (Some iters) = (Ok tt, calls)
      /\ solid_curves calls = [s; s]
      /\ length s = length (rows a) - 1
      /\ (forall e, 1 <= e < length (rows a) ->
            nth (e - 1) s None
            = num_div_nat (num_of_Z (Z.of_nat (unchanged_samples a e))) (n_cols a))
      /\ (Forall (fun v => v = Some 1%Qc) s <-> unchanging a).
Proof.
  intros a labels iters Hwf Hn He Hl.
  destruct (plot_stability_self a labels iters Hwf Hl) as (calls & E & Hs).
  exists (stability_of a), calls. split; [exact E|]. split; [exact Hs|].
  pose proof (well_formed_uniform a Hwf) as Hu.
  split; [|split].
  - unfold stability_of. rewrite length_map, length_map2, <- length_tl_removelast.
    destruct (rows a); cbn [tl length]; lia.
  - intros e Hrange. now apply stability_entry.
  - unfold stability_of, unchanging.
    apply all_rows_same with (n := n_cols a);
      auto using uniform_tl, uniform_removelast, length_tl_removelast.
Qed.

(** One sample that is right at epoch 0 and wrong at epoch 1: the
    stability series of the pair is 0, not 1. *)
Lemma stability_of_pair_not_all_ones :
  well_formed flipping /\ 2 <= length (rows flipping)
  /\ fst (plot_stability [flipping; flipping] None (Some [0; 1]%Z)) = Ok tt
  /\ map values (solid_curves (snd (plot_stability [flipping; flipping] None
                                                  (Some [0; 1]%Z))))
     = [[Some 0%Q]; [Some 0%Q]]
  /\ ~ Forall (Forall (fun v => v = Some 1%Qc))
         (solid_curves (snd (plot_stability [flipping; flipping] None
                                            (Some [0; 1]%Z)))).
Proof.
  split; [prove_well_formed|].
  split; [cbn; lia|]. split; [reflexivity|]. split; [reflexivity|].
  intros H.
  assert (Hv : Forall (Forall (fun v => v = Some 1%Q))
                 [[Some 0%Q]; [Some 0%Q]]).
  { change [[Some 0%Q]; [Some 0%Q]]
      with (map values (solid_curves (snd (plot_stability [flipping; flipping] None
                                                  (Some [0; 1]%Z))))).
    apply Forall_map. eapply Forall_impl; [|exact H].
    intros s Hs. unfold values. apply Forall_map.
    eapply Forall_impl; [|exact Hs]. intros v ->. reflexivity. }
  inversion Hv as [|? ? Hrow _]. inversion Hrow as [|? ? Hentry _].
  discriminate Hentry.
Qed.

(** C7.  For a series of length [L] and a window [w] with
    [1 <= w <= L], the smoothed curve of [plot_mismatch] has exactly
    [L - w + 1] points (and as many abscissas); with [w = 1] it is the
    unsmoothed series over the unchanged epochs, and with [w = 0] no
    smoothing happens at all. *)
Theorem windowed_smoothing_length_and_identity :
  forall (match_ : series) (iters : list Z) (w : Z),
    length iters = length match_ ->
    (1 <= w <= Z.of_nat (length match_))%Z ->
    mismatch_curve 0 iters match_ = (Ok (iters, one_minus_series match_), [])
    /\ exists x y,
        mismatch_curve w iters match_ = (Ok (x, y), [])
        /\ length y = length match_ - Z.to_nat w + 1
        /\ length x = length y
        /\ (w = 1%Z -> y = one_minus_series match_ /\ x = iters).
Proof.
  intros match_ iters w Hit Hw. split; [reflexivity|].
  set (s := one_minus_series match_).
  assert (Hs : length s = length match_) by apply length_map.
  destruct (moving_average_spec s w) as (y & Ey & Hy & Hy1); [rewrite Hs; lia|].
  rewrite Hs in Hy.
  set (c := Z.to_nat (w / 2)).
  assert (Hc : c + (length match_ - Z.to_nat w + 1) <= length iters).
  { rewrite Hit. unfold c.
    assert (w / 2 < w)%Z by (apply Z.div_lt; lia).
    assert (0 <= w / 2)%Z by (apply Z.div_pos; lia). lia. }
  exists (firstn (length match_ - Z.to_nat w + 1) (skipn c iters)), y.
  split.
  { unfold mismatch_curve.
    destruct (Z.gtb_spec w 0) as [_|]; [|lia].
    fold s. rewrite Ey. cbv [bind lift]. rewrite Hy.
    rewrite (window_centers w (length match_) Hw). fold c.
    rewrite (take_slice iters c _ Hc). reflexivity. }
  split; [exact Hy|]. split.
  { rewrite length_firstn, length_skipn, Hy. lia. }
  intros ->. split; [now apply Hy1|].
  change (Z.to_nat 1) with 1. unfold c. change (Z.to_nat (1 / 2)) with 0.
  cbn [skipn]. rewrite <- Hit. replace (length iters - 1 + 1) with (length iters).
  - apply firstn_all.
  - rewrite Hit. lia.
Qed.

(** C4.  With three histories, the first two always right and the
    third always wrong, the time series of [plot_mismatch] draws the
    series of the first pair under all three labels: the pair "1 - 3"
    gets 0 where the disagreement rate of those two histories is 1. *)
Theorem mismatch_pairs_share_first_pair_series :
  let out := plot_mismatch [right_once; right_once; wrong_once] None
                           (Some [0%Z]) false 0 in
  fst out = Ok tt
  /\ labelled_values (snd out)
     = [("1 - 2", [Some 0%Q]); ("1 - 3", [Some 0%Q]); ("2 - 3", [Some 0%Q])]
  /\ match disagreement_rate right_once wrong_once with
     | Ok s => values s = [Some 1%Q]
     | Raise _ => False
     end.
Proof. vm_compute. repeat split; reflexivity. Qed.

(** C5.  With a window of 2 the time series of
    [plot_misclassification] raises [NameError] on the name [match]
    before it draws anything; without a window it returns, and so does
    [plot_mismatch] with the same window. *)
Theorem misclassification_window_raises_name_error :
  let iters := Some [0; 1; 2; 3]%Z in
  let preds := [four_by_three; four_by_three] in
  plot_misclassification preds None iters false 2
    = (Raise (NameError "match"), [SetTheme; Figure])
  /\ fst (plot_misclassification preds None iters false 0) = Ok tt
  /\ fst (plot_mismatch preds None iters false 2) = Ok tt.
Proof. vm_compute. repeat split; reflexivity. Qed.

(** Whatever the histories, a positive window makes the time series of
    [plot_misclassification] raise. *)
Lemma misclassification_window_never_returns preds labels iters w :
  preds <> [] -> (0 < w)%Z ->
  is_ok (fst (plot_misclassification preds labels iters false w)) = false.
Proof.
  intros Hp Hw. destruct preds as [|a rest]; [congruence|].
  unfold plot_misclassification.
  destruct iters as [it|]; [|reflexivity].
  destruct (Z.gtb_spec w 0) as [_|]; [|lia].
  cbv [bind lift ret emit raise for_each enumerate length seq combine fst snd].
  cbn [combine seq length].
  destruct (convolve_valid (one_minus_series (mean_axis1 a)) (ones_over w));
    reflexivity.
Qed.

(** C9.  Histories of different shapes: the histogram of
    [plot_misclassification] returns its two histograms, and the
    histogram of [plot_mismatch] and the ranking of [plot_persistence]
    broadcast a one-epoch history against a two-epoch one and return;
    only [plot_stability] stops at its assertion. *)
Theorem shapes_checked_by_stability_only :
  shape narrow <> shape wide
  /\ fst (plot_misclassification [narrow; wide] (Some ["a"; "b"]) None true 0) = Ok tt
  /\ map values (histograms (snd (plot_misclassification [narrow; wide]
                                    (Some ["a"; "b"]) None true 0)))
     = [[Some 1%Q]; [Some 0%Q; Some 0%Q]]
  /\ shape wide <> shape single_epoch
  /\ fst (plot_mismatch [wide; single_epoch] None None true 0) = Ok tt
  /\ fst (plot_persistence (counting_from 0) [wide; single_epoch] 2 "mismatch")
     = Ok [1; 0]
  /\ plot_stability [narrow; wide] None (Some [0; 1]%Z)
     = (Raise (AssertionError "Shape of predictions must be the same"), [SetTheme]).
Proof. vm_compute. repeat split; try reflexivity; discriminate. Qed.

(** C3.  Under a sort policy that is none of the three rankings,
    [plot_persistence] samples from the epoch indices: on one epoch and
    two samples it cannot draw two indices and raises, where the
    "mismatch" policy returns both samples; on three epochs and one
    sample it draws the index 2, which is no sample. *)
Theorem persistence_fallback_draws_epoch_indices :
  fst (plot_persistence (counting_from 0) [single_epoch; single_epoch] 2 "random")
    = Raise (ValueError
               "Cannot take a larger sample than population when 'replace=False'")
  /\ fst (plot_persistence (counting_from 0) [single_epoch; single_epoch] 2 "mismatch")
     = Ok [0; 1]
  /\ random_choice (counting_from 2) (seq 0 (fst (shape three_epochs))) 1 = Ok [2]
  /\ fst (plot_persistence (counting_from 2) [three_epochs; three_epochs] 1 "random")
     = Raise IndexError.
Proof. vm_compute. repeat split; reflexivity. Qed.

(** [plot_stability] checks the shapes before anything else. *)
Lemma shape_check_loop (first : ndarray) (l : list ndarray) :
  for_each l (fun pred =>
    first' <- lift (Ok first) ;;
    assert (shape_eqb (shape first') (shape pred))
           "Shape of predictions must be the same")
  = if forallb (fun pred => shape_eqb (shape first) (shape pred)) l
    then (Ok tt, [])
    else (Raise (AssertionError "Shape of predictions must be the same"), []).
Proof.
  induction l as [|p l IH]; [reflexivity|].
  cbn [for_each forallb]. rewrite IH. cbv [bind lift assert ret raise].
  destruct (shape_eqb (shape first) (shape p)); [|reflexivity].
  cbn [andb]. destruct (forallb _ l); reflexivity.
Qed.

Lemma plot_stability_rejects_shapes first rest labels iters :
  forallb (fun pred => shape_eqb (shape first) (shape pred)) rest = false ->
  plot_stability (first :: rest) labels iters
  = (Raise (AssertionError "Shape of predictions must be the same"), [SetTheme]).
Proof.
  intros H. unfold plot_stability.
  change (index (first :: rest) 0) with (Ok first).
  rewrite shape_check_loop. cbn [forallb].
  unfold shape_eqb at 1. rewrite !Nat.eqb_refl. cbn [andb]. rewrite H.
  reflexivity.
Qed.

(** [argsort] returns a permutation of the indices. *)
Lemma insert_sorted_perm keys i sorted :
  Permutation (insert_sorted keys i sorted) (i :: sorted).
Proof.
  induction sorted as [|j rest IH]; cbn [insert_sorted]; [reflexivity|].
  destruct (num_leb _ _); [|reflexivity].
  rewrite IH. apply perm_swap.
Qed.

Lemma argsort_fold_perm keys (l acc : list nat) :
  Permutation (fold_left (fun sorted i => insert_sorted keys i sorted) l acc)
              (rev l ++ acc).
Proof.
  revert acc. induction l as [|i l IH]; intros acc; cbn [fold_left rev app].
  - reflexivity.
  - rewrite IH, <- app_assoc. cbn [app].
    apply Permutation_app_head, insert_sorted_perm.
Qed.

Lemma argsort_perm keys : Permutation (argsort keys) (seq 0 (length keys)).
Proof.
  unfold argsort. rewrite argsort_fold_perm, app_nil_r.
  symmetry. apply Permutation_rev.
Qed.

Lemma top_of_argsort keys n :
  n <= length keys ->
  length (firstn n (argsort keys)) = n
  /\ NoDup (firstn n (argsort keys))
  /\ Forall (fun i => i < length keys) (firstn n (argsort keys)).
Proof.
  intros Hn. pose proof (argsort_perm keys) as Hp.
  assert (Hlen : length (argsort keys) = length keys).
  { rewrite (Permutation_length Hp). apply length_seq. }
  assert (Hnd : NoDup (argsort keys)).
  { eapply Permutation_NoDup; [symmetry; exact Hp | apply seq_NoDup]. }
  assert (Hall : Forall (fun i => i < length keys) (argsort keys)).
  { apply Forall_forall. intros i Hi.
    apply (Permutation_in _ Hp), in_seq in Hi. lia. }
  split; [rewrite length_firstn; lia|]. split.
  - rewrite <- (firstn_skipn n (argsort keys)) in Hnd.
    now apply NoDup_app_remove_r in Hnd.
  - apply Forall_forall. intros i Hi. rewrite Forall_forall in Hall.
    apply Hall. rewrite <- (firstn_skipn n (argsort keys)).
    apply in_or_app. now left.
Qed.

Lemma length_mean_axis0 a : length (mean_axis0 a) = n_cols a.
Proof. unfold mean_axis0. now rewrite length_map, length_seq. Qed.

Lemma column_ok a j :
  j < n_cols a ->
  exists col, column a j = Ok col /\ length col = length (rows a).
Proof.
  intros H. unfold column. destruct (Nat.ltb_spec j (n_cols a)); [|lia].
  eexists. split; [reflexivity|]. apply length_map.
Qed.

Lemma assign_row_ok width values :
  length values = width -> assign_row width values = Ok values.
Proof. intros H. unfold assign_row. now rewrite H, Nat.eqb_refl. Qed.

(** The image loop succeeds on in-range column indices. *)
Lemma fill_image_ok a b top_n width idxs :
  length (rows a) = width -> length (rows b) = width ->
  Forall (fun t => t < n_cols a /\ t < n_cols b) top_n ->
  Forall (fun i => i < length top_n) idxs ->
  exists image, fill_image a b top_n width idxs = (Ok image, []).
Proof.
  intros Ha Hb Htop. induction 1 as [|i idxs Hi _ [image IH]].
  - eexists. reflexivity.
  - cbn [fill_image].
    destruct (nth_error top_n i) as [t|] eqn:Ht.
    2:{ apply nth_error_None in Ht. lia. }
    rewrite Forall_forall in Htop.
    destruct (Htop t (nth_error_In _ _ Ht)) as [Hta Htb].
    destruct (column_ok a t Hta) as (ca & Eca & Hca).
    destruct (column_ok b t Htb) as (cb & Ecb & Hcb).
    cbv [bind lift ret]. rewrite (index_ok _ _ _ Ht), Eca, Ecb.
    rewrite (assign_row_ok width ca), (assign_row_ok width cb) by congruence.
    rewrite IH. eexists. reflexivity.
Qed.

Lemma series_add_same s1 s2 :
  length s1 = length s2 ->
  exists s, series_add s1 s2 = Ok s /\ length s = length s1.
Proof.
  intros H. unfold series_add. rewrite <- H, broadcast_dim_same.
  eexists. split; [reflexivity|].
  rewrite stretch_same. rewrite H at 1. rewrite stretch_same.
  rewrite length_map2. lia.
Qed.

Lemma bind_lift_ok {A B} (x : A) (f : A -> P B) : bind (lift (Ok x)) f = f x.
Proof. unfold bind, lift. destruct (f x); reflexivity. Qed.

Lemma bind_eq {A B} (c : P A) (f : A -> P B) x calls r calls' :
  c = (Ok x, calls) -> f x = (r, calls') -> bind c f = (r, calls ++ calls')%list.
Proof. intros -> E. unfold bind. now rewrite E. Qed.

(** The end of [plot_persistence], once the ranking is known. *)
Lemma persistence_finish a b top_n n :
  length (rows a) = length (rows b) ->
  length top_n = n ->
  Forall (fun t => t < n_cols a /\ t < n_cols b) top_n ->
  exists calls,
    (image <- fill_image a b top_n (fst (shape a)) (seq 0 n) ;;
     emit Figure ;; emit (Heatmap image) ;; emit (YTicks n) ;;
     emit (XLabel "Epoch") ;; emit (YLabel "Sample #") ;;
     emit (SaveFig "persistence.png") ;; ret top_n)
    = (Ok top_n, calls).
Proof.
  intros Hr Hn Htop.
  assert (Hidx : Forall (fun i => i < length top_n) (seq 0 n)).
  { apply Forall_forall. intros i Hi. apply in_seq in Hi. lia. }
  destruct (fill_image_ok a b top_n (fst (shape a)) (seq 0 n)
              eq_refl (eq_sym Hr) Htop Hidx) as [image E].
  cbv [bind]. rewrite E. eexists. reflexivity.
Qed.

(** On two well-formed histories of one shape, the three ranking
    policies return [n_samples] distinct sample indices. *)
Lemma persistence_ranked_policies rng a b n sort :
  well_formed a -> well_formed b -> shape a = shape b ->
  n <= n_cols a ->
  sort = "mismatch" \/ sort = "misclassification" \/ sort = "stability" ->
  exists top_n,
    fst (plot_persistence rng [a; b] n sort) = Ok top_n
    /\ length top_n = n /\ NoDup top_n
    /\ Forall (fun i => i < n_cols a) top_n.
Proof.
  intros Hwa Hwb Hshape Hn Hsort.
  pose proof (well_formed_uniform a Hwa) as Hua.
  pose proof (well_formed_uniform b Hwb) as Hub.
  unfold shape in Hshape. injection Hshape as Hr Hc.
  assert (Hkeys : exists keys,
    (if String.eqb sort "mismatch" then
       same <- lift (np_eq a b) ;;
       let match_ := mean_axis0 same in
       ret (firstn n (argsort match_))
     else if String.eqb sort "misclassification" then
       total <- lift (np_add a b) ;;
       let misclassification := mean_axis0 total in
       ret (firstn n (argsort misclassification))
     else if String.eqb sort "stability" then
       same_a <- lift (np_eq (from_second a) (but_last a)) ;;
       same_b <- lift (np_eq (from_second b) (but_last b)) ;;
       stability <- lift (series_add (mean_axis0 same_a) (mean_axis0 same_b)) ;;
       ret (firstn n (argsort stability))
     else
       lift (random_choice rng (seq 0 (fst (shape a))) n))
    = (Ok (firstn n (argsort keys)), []) /\ length keys = n_cols a).
  { destruct Hsort as [-> | [-> | ->]]; cbn [String.eqb Ascii.eqb Bool.eqb andb].
    - unfold np_eq. rewrite elementwise_same_shape by assumption.
      eexists. split; [reflexivity|]. now rewrite length_mean_axis0.
    - unfold np_add.
      destruct (dt a), (dt b); rewrite elementwise_same_shape by assumption;
        (eexists; split; [reflexivity|]; now rewrite length_mean_axis0).
    - rewrite (stability_eq a Hwa), (stability_eq b Hwb). cbv [bind lift].
      destruct (series_add_same
                  (mean_axis0 (mk_ndarray BoolT (n_cols a)
                     (map2 (map2 (fun x y => Z.b2z (Z.eqb x y)))
                           (tl (rows a)) (removelast (rows a)))))
                  (mean_axis0 (mk_ndarray BoolT (n_cols b)
                     (map2 (map2 (fun x y => Z.b2z (Z.eqb x y)))
                           (tl (rows b)) (removelast (rows b))))))
        as (s & -> & Hs).
      { rewrite !length_mean_axis0. exact Hc. }
      eexists. split; [reflexivity|]. rewrite Hs. now rewrite length_mean_axis0. }
  destruct Hkeys as (keys & Ekeys & Hlen).
  assert (Hnk : n <= length keys) by lia.
  destruct (top_of_argsort keys n Hnk) as (Hl & Hnd & Hall).
  assert (Hcols : Forall (fun t => t < n_cols a /\ t < n_cols b)
                         (firstn n (argsort keys))).
  { eapply Forall_impl; [|exact Hall]. intros i Hi. cbv beta in *. lia. }
  destruct (persistence_finish a b (firstn n (argsort keys)) n Hr Hl Hcols)
    as [calls Efin].
  exists (firstn n (argsort keys)).
  split.
  - unfold plot_persistence.
    change (index [a; b] 0) with (Ok a). change (index [a; b] 1) with (Ok b).
    cbn [length Nat.eqb assert].
    unfold bind at 1. change (@ret unit tt) with (Ok tt, @nil call).
    cbv beta iota.
    unfold bind at 1. change (emit SetTheme) with (Ok tt, [SetTheme]).
    cbv beta iota.
    rewrite bind_lift_ok. cbv beta. rewrite bind_lift_ok. cbv beta.
    match goal with
    | |- context [bind ?c ?f] => rewrite (bind_eq c f _ _ _ _ Ekeys Efin)
    end.
    reflexivity.
  - repeat split; auto. rewrite <- Hlen. exact Hall.
Qed.

Lemma plotted_app c1 c2 : plotted (c1 ++ c2) = (plotted c1 ++ plotted c2)%list.
Proof. apply flat_map_app. Qed.

(** What holds of the curves of every iteration holds of the curves of
    the loop. *)
Lemma for_each_plotted {A} (Q : string * series -> Prop) (body : A -> P unit) l :
  (forall x, Forall Q (plotted (snd (body x)))) ->
  Forall Q (plotted (snd (for_each l body))).
Proof.
  intros Hb. induction l as [|x l IH]; cbn [for_each]; [constructor|].
  unfold bind. specialize (Hb x).
  destruct (body x) as [[[]|e] c1]; cbn [snd] in *; [|exact Hb].
  destruct (for_each l body) as [r c2]. cbn [snd] in *.
  rewrite plotted_app. apply Forall_app. split; assumption.
Qed.

Lemma mismatch_curve_silent window iters match_ :
  snd (mismatch_curve window iters match_) = [].
Proof.
  unfold mismatch_curve. destruct (window >? 0)%Z; [|reflexivity].
  cbv [bind lift ret].
  destruct (convolve_valid _ _); [|reflexivity].
  destruct (take _ _); reflexivity.
Qed.

(** Every curve of the time series of [plot_mismatch] is the curve of
    the first two histories, whatever pair its label names. *)
Lemma mismatch_curves_all_first_pair preds labels iters window :
  forall a b same,
    index preds 0 = Ok a -> index preds 1 = Ok b -> np_eq a b = Ok same ->
    Forall (fun curve =>
              exists x, fst (mismatch_curve window iters (mean_axis1 same))
                        = Ok (x, snd curve))
           (plotted (snd (plot_mismatch preds labels (Some iters) false window))).
Proof.
  intros a b same Ha Hb Hsame.
  set (Q := fun curve : string * series =>
              exists x, fst (mismatch_curve window iters (mean_axis1 same))
                        = Ok (x, snd curve)).
  unfold plot_mismatch.
  cbv [bind emit ret]. rewrite Ha, Hb. cbv [lift]. rewrite Hsame.
  cbn [fst snd].
  match goal with
  | |- context [for_each (enumerate preds) ?body] =>
      assert (HL : Forall Q (plotted (snd (for_each (enumerate preds) body))));
      [| destruct (for_each (enumerate preds) body) as [[[]|e] calls] ]
  end.
  - apply for_each_plotted. intros [i pred_a].
    apply for_each_plotted. intros [j pred_b].
    pose proof (mismatch_curve_silent window iters (mean_axis1 same)) as Hsil.
    destruct (mismatch_curve window iters (mean_axis1 same))
      as [[[x y]|e] c] eqn:Ecurve; cbn [snd] in Hsil; subst c;
      [|constructor].
    cbn [fst snd].
    destruct (index _ (Z.of_nat i)); [|constructor].
    destruct (index _ (Z.of_nat (i + j + 1))); [|constructor].
    cbn [app plotted flat_map]. constructor; [|constructor].
    exists x. reflexivity.
  - cbn [snd app] in *.
    change (SetTheme :: Figure :: ?l)%list with ([SetTheme; Figure] ++ l)%list.
    rewrite !plotted_app. cbn [plotted flat_map app]. now rewrite !app_nil_r.
  - cbn [snd app] in *. exact HL.
Qed.

Lemma stability_of_pair_all_ones_iff_unchanging_witness :
  (well_formed steady /\ 1 <= n_cols steady /\ 2 <= length (rows steady)
   /\ 2 <= length (default_labels [steady; steady]))
  /\ exists s calls,
      plot_stability [steady; steady] None (Some [0; 1; 2]%Z) = (Ok tt, calls)
      /\ solid_curves calls = [s; s]
      /\ length s = length (rows steady) - 1
      /\ (forall e, 1 <= e < length (rows steady) ->
            nth (e - 1) s None
            = num_div_nat (num_of_Z (Z.of_nat (unchanged_samples steady e)))
                          (n_cols steady))
      /\ (Forall (fun v => v = Some 1%Qc) s <-> unchanging steady).
Proof.
  assert (H1 : well_formed steady) by prove_well_formed.
  assert (H2 : 1 <= n_cols steady) by (cbn; lia).
  assert (H3 : 2 <= length (rows steady)) by (cbn; lia).
  assert (H4 : 2 <= length (default_labels [steady; steady])) by (vm_compute; lia).
  split; [repeat split; assumption|].
  exact (stability_of_pair_all_ones_iff_unchanging
           steady None [0; 1; 2]%Z H1 H2 H3 H4).
Defined.

Lemma windowed_smoothing_length_and_identity_witness :
  let match_ := [num_of_Z 0; num_of_Z 1; num_of_Z 1] in
  let iters := [0; 1; 2]%Z in
  (length iters = length match_ /\ (1 <= 2 <= Z.of_nat (length match_))%Z)
  /\ exists x y,
      mismatch_curve 2 iters match_ = (Ok (x, y), [])
      /\ length y = length match_ - Z.to_nat 2 + 1
      /\ length x = length y
      /\ (2%Z = 1%Z -> y = one_minus_series match_ /\ x = iters).
Proof.
  intros match_ iters.
  assert (H1 : length iters = length match_) by reflexivity.
  assert (H2 : (1 <= 2 <= Z.of_nat (length match_))%Z) by (cbn; lia).
  split; [split; assumption|].
  exact (proj2 (windowed_smoothing_length_and_identity match_ iters 2 H1 H2)).
Defined.

End PlotterFacts.

(** * More of [Trainer]: counters, files, and what a resume restores *)

Module TrainerMore.

Import Trainer TrainerFacts.

(** One batch: one optimizer step, one update of the averaged model,
    and one scheduler step when the scheduler follows the iterations. *)
Lemma train_batch_counts t :
  exists t',
    train_batch t = (Ok tt, t', [])
    /\ same_setup t t'
    /\ model t' = S (model t) /\ optimizer t' = S (optimizer t)
    /\ averaged_updates t'
       = (averaged_updates t + if is_some (averaged_model t) then 1 else 0)%nat
    /\ scheduler_steps t'
       = (scheduler_steps t
          + if is_some (scheduler t) && update_sched_on_iter t then 1 else 0)%nat.
Proof.
  destruct t as [w spo spr tl vl mo op sc us ep se am wd b1 b2].
  destruct sc, am, us; cbn; eexists; (split; [reflexivity|]);
    unfold same_setup, averaged_updates, scheduler_steps; cbn;
    repeat split; lia.
Qed.

Lemma batches_counts n : forall s t,
  exists t',
    for_each (seq s n) (fun _ => train_batch) t = (Ok tt, t', [])
    /\ same_setup t t'
    /\ model t' = (model t + n)%nat /\ optimizer t' = (optimizer t + n)%nat
    /\ averaged_updates t'
       = (averaged_updates t + if is_some (averaged_model t) then n else 0)%nat
    /\ scheduler_steps t'
       = (scheduler_steps t
          + if is_some (scheduler t) && update_sched_on_iter t then n else 0)%nat.
Proof.
  induction n as [|n IH]; intros s t; cbn [seq for_each].
  - exists t. split; [reflexivity|]. split; [apply same_setup_refl|].
    repeat split; try lia.
    + destruct (is_some (averaged_model t)); lia.
    + destruct (is_some (scheduler t) && update_sched_on_iter t)%bool; lia.
  - destruct (train_batch_counts t) as (t1 & E1 & S1 & M1 & O1 & A1 & C1).
    destruct (IH (S s) t1) as (t2 & E2 & S2 & M2 & O2 & A2 & C2).
    exists t2. unfold bind. rewrite E1, E2. split; [reflexivity|].
    split; [eapply same_setup_trans; eauto|].
    destruct S1 as (_ & _ & _ & _ & _ & Hus & _ & _ & Hsc & Ham).
    rewrite M2, O2, A2, C2, M1, O1, A1, C1, Hus, Hsc, Ham.
    repeat split; try lia.
    + destruct (is_some (averaged_model t)); lia.
    + destruct (is_some (scheduler t) && update_sched_on_iter t)%bool; lia.
Qed.

Lemma train_loop_counts epoch t :
  exists t',
    _train_loop epoch t = (Ok tt, t', [PbarDescription epoch Train])
    /\ same_setup t t'
    /\ model t' = (model t + train_loader t)%nat
    /\ optimizer t' = (optimizer t + train_loader t)%nat
    /\ averaged_updates t'
       = (averaged_updates t
          + if is_some (averaged_model t) then train_loader t else 0)%nat
    /\ scheduler_steps t'
       = (scheduler_steps t
          + if is_some (scheduler t)
            then (if update_sched_on_iter t then train_loader t else 1)
            else 0)%nat.
Proof.
  unfold _train_loop.
  destruct (batches_counts (train_loader t) 0 t)
    as (t1 & E1 & S1 & M1 & O1 & A1 & C1).
  unfold bind at 1. cbn [emit].
  unfold bind at 1. cbn [get]. unfold bind at 1. rewrite E1.
  destruct (is_some (scheduler t) && negb (update_sched_on_iter t))%bool eqn:Hc;
    cbn [when].
  - destruct (scheduler_step_spec t1) as (t2 & E2 & S2 & _). rewrite E2.
    exists t2. split; [reflexivity|].
    split; [eapply same_setup_trans; eauto|].
    apply andb_prop in Hc as [Hsc Hus]. apply negb_true_iff in Hus.
    rewrite Hsc, Hus in *. cbn [andb] in C1.
    unfold scheduler_step, modify in E2. injection E2 as <-.
    destruct S1 as (_ & _ & _ & _ & _ & _ & _ & _ & Hsc1 & _).
    rewrite Hsc in Hsc1.
    destruct t1 as [w spo spr tl vl mo op sc us ep se am wd b1 b2].
    unfold averaged_updates, scheduler_steps in *.
    cbn [model optimizer scheduler averaged_model set_scheduler] in *.
    destruct sc; [|discriminate Hsc1]. cbn [option_map].
    repeat split; lia.
  - exists t1. split; [reflexivity|]. split; [exact S1|].
    rewrite M1, O1, A1, C1. repeat split.
    destruct (is_some (scheduler t)), (update_sched_on_iter t);
      cbn in *; try discriminate; lia.
Qed.

(** X1.  One call of [_train_loop] never raises and takes one optimizer
    step per batch.  The averaged model, when there is one, is updated
    once per batch; the scheduler, when there is one, is stepped once
    per batch if [update_sched_on_iter] is set and once at the end of
    the loop otherwise. *)
Theorem train_loop_step_counts :
  forall epoch t,
    let out := _train_loop epoch t in
    let n := train_loader t in
    result_of out = Ok tt
    /\ model (state_of out) = (model t + n)%nat
    /\ optimizer (state_of out) = (optimizer t + n)%nat
    /\ averaged_updates (state_of out)
       = (averaged_updates t + if is_some (averaged_model t) then n else 0)%nat
    /\ scheduler_steps (state_of out)
       = (scheduler_steps t
          + if is_some (scheduler t)
            then (if update_sched_on_iter t then n else 1) else 0)%nat.
Proof.
  intros epoch t.
  destruct (train_loop_counts epoch t) as (t' & E & _ & M' & O' & A' & C').
  cbv zeta. rewrite E. cbn [result_of state_of fst snd]. auto.
Qed.

Lemma count_writes_app path evs1 evs2 :
  count_writes path (evs1 ++ evs2)
  = (count_writes path evs1 + count_writes path evs2)%nat.
Proof. unfold count_writes. now rewrite filter_app, length_app. Qed.

Lemma np_saves_app evs1 evs2 :
  np_saves (evs1 ++ evs2) = (np_saves evs1 ++ np_saves evs2)%list.
Proof. apply flat_map_app. Qed.

Lemma scalars_app evs1 evs2 :
  scalars (evs1 ++ evs2) = (scalars evs1 ++ scalars evs2)%list.
Proof. apply flat_map_app. Qed.

Ltac fold_checkpoint_files :=
  repeat match goal with
    | |- context [join ?s (join ?s ?n)] =>
        change (join s (join s n)) with (checkpoint_file s n)
    end;
  rewrite ?checkpoint_file_eqb by reflexivity.

(** What [_end_loop] leaves alone, and what it writes besides the
    "best" checkpoints. *)
Lemma end_loop_more m epoch t sp :
  save_path t = Some sp ->
  tb_safe t = true ->
  exists t' evs,
    _end_loop m epoch t = (Ok tt, t', evs)
    /\ (model t' = model t /\ optimizer t' = optimizer t
        /\ scheduler t' = scheduler t /\ averaged_model t' = averaged_model t)
    /\ count_writes (checkpoint_file sp "most_recent.pt") evs = 1%nat
    /\ count_writes (checkpoint_file sp "final_model.pt") evs = 0%nat
    /\ count_writes (checkpoint_file sp "averaged_most_recent.pt") evs
       = (if is_some (averaged_model t) then 1 else 0)%nat
    /\ np_saves evs
       = (if save_preds t
          then [(preds_file sp epoch false, false); (preds_file sp epoch true, true)]
          else [])
    /\ In (TorchSave (FullCheckpoint (epoch + 1) (optimizer t') (model t')
                                     (scheduler t'))
                     (checkpoint_file sp "most_recent.pt")) evs.
Proof.
  destruct t as [w spo spr tl vl mo op sc us ep se am wd b1 b2].
  unfold tb_safe, tb_needs_scheduler. cbn. intros -> Htb.
  destruct w, vl, am as [a|], sc as [n|], spr;
    try discriminate Htb;
    run_monad.
  all: try destruct (gt b1 (val_loss m)); try destruct (gt b2 (avg_val_loss m)).
  all: do 2 eexists; (split; [reflexivity|]).
  all: split; [cbn; tauto|].
  all: unfold count_writes, preds_file; cbn [filter saved_to np_saves flat_map app];
       fold_checkpoint_files; cbn [String.eqb Ascii.eqb Bool.eqb andb length filter saved_to].
  all: repeat split; try reflexivity.
  all: cbn; tauto.
Qed.

(** One epoch of [train], with its counters and its files. *)
Lemma epoch_body_more metrics epoch t sp :
  setup_ok sp t ->
  exists t' evs,
    epoch_body metrics epoch t = (Ok tt, t', evs)
    /\ same_setup t t'
    /\ model t' = (model t + train_loader t)%nat
    /\ optimizer t' = (optimizer t + train_loader t)%nat
    /\ averaged_updates t'
       = (averaged_updates t
          + if is_some (averaged_model t) then train_loader t else 0)%nat
    /\ scheduler_steps t'
       = (scheduler_steps t
          + if is_some (scheduler t)
            then (if update_sched_on_iter t then train_loader t else 1)
            else 0)%nat
    /\ count_writes (checkpoint_file sp "most_recent.pt") evs = 1%nat
    /\ count_writes (checkpoint_file sp "final_model.pt") evs = 0%nat
    /\ np_saves evs
       = (if save_preds t
          then [(preds_file sp epoch false, false); (preds_file sp epoch true, true)]
          else [])
    /\ In (TorchSave (FullCheckpoint (epoch + 1) (optimizer t') (model t')
                                     (scheduler t'))
                     (checkpoint_file sp "most_recent.pt")) evs.
Proof.
  intros Hok.
  destruct (train_loop_counts epoch t) as (t1 & E1 & S1 & M1 & O1 & A1 & C1).
  pose proof (setup_ok_preserved _ _ _ S1 Hok) as [Hsp1 Htb1].
  destruct (end_loop_more (metrics epoch) epoch t1 sp Hsp1 Htb1)
    as (t2 & evs2 & E2 & (M2 & O2 & C2 & A2) & Hmr & Hfin & _ & Hnp & Hin).
  destruct (end_loop_spec (metrics epoch) epoch t1 sp Hsp1 Htb1)
    as (t2' & evs2' & E2' & S2 & _).
  rewrite E2 in E2'. injection E2' as <- <-.
  pose proof S1 as (_ & _ & Hspr & _ & Hvl & _ & _ & _ & _ & Ham).
  unfold epoch_body. unfold bind at 1. rewrite E1.
  unfold bind at 1. cbn [get]. unfold bind at 1.
  assert (Hval : exists evv,
             when (val_loader t1)
               (_val_loop epoch false ;;
                when (is_some (averaged_model t1)) (_val_loop epoch true)) t1
             = (Ok tt, t1, evv)
             /\ np_saves evv = []
             /\ forall p, count_writes p evv = 0%nat).
  { destruct (val_loader t1), (is_some (averaged_model t1));
      eexists; (split; [reflexivity|]); cbn; auto. }
  destruct Hval as (evv & Ev & Hvn & Hvc).
  rewrite Ev, E2.
  do 2 eexists. split; [reflexivity|].
  change ([PbarDescription epoch Train] ++ [] ++ evv ++ evs2)%list
    with ([PbarDescription epoch Train] ++ (evv ++ evs2))%list.
  rewrite !count_writes_app, !np_saves_app, Hvn, !Hvc, Hmr, Hfin, Hnp, Hspr.
  unfold averaged_updates, scheduler_steps in *.
  rewrite M2, O2, C2, A2, M1, O1, A1, C1.
  split; [eapply same_setup_trans; eauto|].
  repeat split; try reflexivity.
  rewrite <- M1, <- O1, <- M2, <- O2, <- C2.
  apply in_or_app; right. apply in_or_app; right. exact Hin.
Qed.

Lemma range_to_count lo hi :
  range lo hi = range lo (lo + Z.of_nat (Z.to_nat (hi - lo))).
Proof.
  unfold range. f_equal. f_equal.
  replace (lo + Z.of_nat (Z.to_nat (hi - lo)) - lo)
    with (Z.of_nat (Z.to_nat (hi - lo))) by lia.
  now rewrite Nat2Z.id.
Qed.

Lemma after_epochs_setup metrics sp t :
  setup_ok sp t ->
  forall k, setup_ok sp (after_epochs metrics t k)
            /\ same_setup t (after_epochs metrics t k).
Proof.
  intros Hok. induction k as [|k [IHok IHs]]; cbn [after_epochs].
  - split; [exact Hok | apply same_setup_refl].
  - destruct (epoch_body_spec metrics (start_epoch t + Z.of_nat k) _ sp IHok)
      as (t' & evs & E & S' & _).
    rewrite E. cbn [state_of fst snd].
    split; [eapply setup_ok_preserved; eauto | eapply same_setup_trans; eauto].
Qed.

(** [train], unfolded: the epochs, then the final checkpoints. *)
Lemma train_unfold metrics sp t :
  setup_ok sp t ->
  let n := Z.to_nat (epochs t - start_epoch t) in
  let tn := after_epochs metrics t n in
  train metrics t
  = (Ok tt, tn,
     [LoggerInfo BeginningTraining]
     ++ concat (map (fun k => events_of (epoch_run metrics t k)) (seq 0 n))
     ++ [LoggerInfo FinishedTraining;
         TorchSave (FullCheckpoint (epochs t + 1) (optimizer tn) (model tn)
                                   (scheduler tn))
                   (checkpoint_file sp "final_model.pt")]
     ++ match averaged_model tn with
        | Some a => [TorchSave (AveragedCheckpoint (epochs t + 1) (module a) (decay a))
                               (checkpoint_file sp "final_averaged_model.pt")]
        | None => []
        end)%list.
Proof.
  intros Hok n tn.
  destruct (after_epochs_setup metrics sp t Hok n) as [[Hspn _] Hsn].
  fold tn in Hspn, Hsn.
  pose proof Hsn as (_ & _ & _ & _ & _ & _ & _ & _ & _ & Ham).
  destruct Hok as [Hsp Htb].
  unfold train. unfold bind at 1. cbn [emit].
  unfold bind at 1. cbn [get]. unfold bind at 1.
  rewrite range_to_count. fold n.
  rewrite (epochs_loop_trace metrics sp t (conj Hsp Htb) n). fold tn.
  rewrite Hsp.
  destruct tn as [w spo spr tl vl mo op sc us ep se am wd b1 b2].
  cbn in Hspn, Ham. subst spo.
  destruct (averaged_model t) as [a0|], am as [a1|]; try discriminate Ham.
  all: run_methods; unfold checkpoint_file; cbn [app];
       rewrite <- ?app_assoc; reflexivity.
Qed.

Lemma count_writes_cons path e evs :
  count_writes path (e :: evs)
  = ((if saved_to path e then 1 else 0) + count_writes path evs)%nat.
Proof. unfold count_writes. cbn [filter]. destruct (saved_to path e); reflexivity. Qed.

Lemma epoch_runs_counts metrics sp t :
  setup_ok sp t ->
  forall n,
    let tn := after_epochs metrics t n in
    let evs := concat (map (fun k => events_of (epoch_run metrics t k)) (seq 0 n)) in
    model tn = (model t + n * train_loader t)%nat
    /\ optimizer tn = (optimizer t + n * train_loader t)%nat
    /\ averaged_updates tn
       = (averaged_updates t
          + if is_some (averaged_model t) then n * train_loader t else 0)%nat
    /\ scheduler_steps tn
       = (scheduler_steps t
          + if is_some (scheduler t)
            then (if update_sched_on_iter t then n * train_loader t else n)
            else 0)%nat
    /\ count_writes (checkpoint_file sp "most_recent.pt") evs = n
    /\ count_writes (checkpoint_file sp "final_model.pt") evs = 0%nat.
Proof.
  intros Hok n. cbv zeta. induction n as [|n (IM & IO & IA & IC & IW & IF)].
  - cbn [after_epochs seq map concat]. unfold count_writes. cbn.
    repeat split; try lia.
    + destruct (is_some (averaged_model t)); lia.
    + destruct (is_some (scheduler t)), (update_sched_on_iter t); lia.
  - destruct (after_epochs_setup metrics sp t Hok n) as [Hokn Hsn].
    destruct (epoch_body_more metrics (start_epoch t + Z.of_nat n) _ sp Hokn)
      as (t' & evs & E & _ & M & O & A & C & W & F & _).
    rewrite seq_S, map_app, concat_app, !count_writes_app.
    cbn [map concat Nat.add]. rewrite app_nil_r.
    assert (Erun : epoch_run metrics t n = (Ok tt, t', evs)) by exact E.
    assert (Est : after_epochs metrics t (S n) = t').
    { cbn [after_epochs]. now rewrite E. }
    rewrite Erun, Est. cbn [events_of snd].
    destruct Hsn as (_ & _ & _ & Htl & _ & Hus & _ & _ & Hsc & Ham).
    rewrite M, O, A, C, W, F, IM, IO, IA, IC, IW, IF, Htl, Hus, Hsc, Ham.
    repeat split; try lia.
    + destruct (is_some (averaged_model t)); lia.
    + destruct (is_some (scheduler t)), (update_sched_on_iter t); lia.
Qed.

(** X2.  With a save path, and a scheduler whenever [_write_to_tb]
    reads one, [train] returns after [n = max (epochs - start_epoch) 0]
    epochs.  It writes [most_recent.pt] exactly [n] times and
    [final_model.pt] exactly once, the latter with the states reached
    at the end and the epoch [epochs + 1]; the optimizer has taken
    [n * len(train_loader)] steps, the averaged model as many updates,
    and the scheduler that many steps or [n], according to
    [update_sched_on_iter]. *)
Theorem train_checkpoints_and_steps :
  forall metrics sp t,
    save_path t = Some sp ->
    tb_safe t = true ->
    let n := Z.to_nat (epochs t - start_epoch t) in
    let out := train metrics t in
    result_of out = Ok tt
    /\ count_writes (checkpoint_file sp "most_recent.pt") (events_of out) = n
    /\ count_writes (checkpoint_file sp "final_model.pt") (events_of out) = 1%nat
    /\ In (TorchSave (FullCheckpoint (epochs t + 1) (optimizer (state_of out))
                                     (model (state_of out))
                                     (scheduler (state_of out)))
                     (checkpoint_file sp "final_model.pt")) (events_of out)
    /\ model (state_of out) = (model t + n * train_loader t)%nat
    /\ optimizer (state_of out) = (optimizer t + n * train_loader t)%nat
    /\ averaged_updates (state_of out)
       = (averaged_updates t
          + if is_some (averaged_model t) then n * train_loader t else 0)%nat
    /\ scheduler_steps (state_of out)
       = (scheduler_steps t
          + if is_some (scheduler t)
            then (if update_sched_on_iter t then n * train_loader t else n)
            else 0)%nat.
Proof.
  intros metrics sp t Hsp Htb.
  assert (Hok : setup_ok sp t) by (split; assumption).
  pose proof (train_unfold metrics sp t Hok) as E. cbv zeta in E |- *.
  rewrite E. cbn [result_of state_of events_of fst snd].
  destruct (epoch_runs_counts metrics sp t Hok
              (Z.to_nat (epochs t - start_epoch t)))
    as (M & O & A & C & W & F).
  split; [reflexivity|].
  rewrite !count_writes_app, W, F, !count_writes_cons.
  cbn [saved_to]. rewrite !checkpoint_file_eqb by reflexivity.
  cbn [String.eqb Ascii.eqb Bool.eqb andb].
  assert (Havg : forall name,
            startswith_sep name = false ->
            String.eqb "final_averaged_model.pt" name = false ->
            count_writes (checkpoint_file sp name)
              match averaged_model
                      (after_epochs metrics t (Z.to_nat (epochs t - start_epoch t)))
              with
              | Some a =>
                  [TorchSave (AveragedCheckpoint (epochs t + 1) (module a) (decay a))
                             (checkpoint_file sp "final_averaged_model.pt")]
              | None => []
              end = 0%nat).
  { intros name Hs Hn. destruct (averaged_model _); [|reflexivity].
    unfold count_writes. cbn [filter saved_to].
    rewrite checkpoint_file_eqb by (reflexivity || exact Hs).
    now rewrite Hn. }
  rewrite !Havg by reflexivity. unfold count_writes. cbn [filter length].
  split; [lia|]. split; [lia|].
  split; [|auto].
  apply in_or_app; right. apply in_or_app; right. apply in_or_app; left.
  right. left. reflexivity.
Qed.

Lemma train_writes_final_checkpoint metrics sp t :
  save_path t = Some sp -> tb_safe t = true ->
  exists o mo sc,
    In (TorchSave (FullCheckpoint (epochs t + 1) o mo sc)
                  (checkpoint_file sp "final_model.pt"))
       (events_of (train metrics t))
    /\ is_some sc = is_some (scheduler t).
Proof.
  intros Hsp Htb.
  assert (Hok : setup_ok sp t) by (split; assumption).
  pose proof (train_unfold metrics sp t Hok) as E. cbv zeta in E.
  destruct (after_epochs_setup metrics sp t Hok
              (Z.to_nat (epochs t - start_epoch t)))
    as [_ (_ & _ & _ & _ & _ & _ & _ & _ & Hsc & _)].
  rewrite E. cbn [events_of snd]. do 3 eexists. split; [|exact Hsc].
  apply in_or_app; right. apply in_or_app; right. apply in_or_app; left.
  right. left. reflexivity.
Qed.

Lemma init_with_checkpoint load path a :
  path <> "" ->
  __init__ load (resume_from path a)
  = (_load_from_checkpoint load path ;;
     modify (set_weight_diff None) ;;
     modify (set_best_val_loss inf) ;;
     modify (set_best_avg_val_loss inf)) (blank (resume_from path a)).
Proof.
  intros Hp. unfold __init__. cbn [resume_from arg_checkpoint_path].
  apply String.eqb_neq in Hp. now rewrite Hp.
Qed.

(** X3.  The checkpoint that [train] writes to [final_model.pt] holds
    the epoch [epochs + 1]: a [Trainer] built with the same arguments
    and that checkpoint as [checkpoint_path] raises
    [ValueError "Starting epoch is larger than total epochs"]. *)
Theorem final_checkpoint_is_refused_on_resume :
  forall load a metrics t ev0 sp,
    __init__ load a = (Ok tt, t, ev0) ->
    save_path t = Some sp ->
    tb_safe t = true ->
    exists o mo sc,
      In (TorchSave (FullCheckpoint (epochs t + 1) o mo sc)
                    (checkpoint_file sp "final_model.pt"))
         (events_of (train metrics t))
      /\ forall load' path,
          path <> "" ->
          load' path = Ok (FullCheckpoint (epochs t + 1) o mo sc) ->
          result_of (__init__ load' (resume_from path a))
          = Raise (ValueError "Starting epoch is larger than total epochs").
Proof.
  intros load a metrics t ev0 sp Hinit Hsp Htb.
  destruct (train_writes_final_checkpoint metrics sp t Hsp Htb)
    as (o & mo & sc & Hin & Hck).
  exists o, mo, sc. split; [exact Hin|].
  intros load' path Hp Hl.
  destruct (init_spec _ _ _ _ Hinit) as (_ & _ & _ & Hep & Hsc & _).
  rewrite (init_with_checkpoint load' path a Hp).
  destruct (load_spec load' path (blank (resume_from path a))
              (epochs t + 1) o mo sc Hl) as (t1 & ev1 & E1 & _).
  replace (is_some (scheduler (blank (resume_from path a))) && negb (is_some sc))%bool
    with false in E1
    by (cbn [blank resume_from scheduler arg_scheduler]; rewrite Hck, Hsc;
        now destruct (is_some (arg_scheduler a))).
  replace (epochs t + 1 >? epochs (blank (resume_from path a))) with true in E1.
  2:{ symmetry. apply Z.gtb_lt. cbn. lia. }
  unfold bind at 1. rewrite E1. reflexivity.
Qed.

(** X4.  A checkpoint written by [_save_averaged_model] has no
    ["optimizer"] entry: a [Trainer] built with such a file as
    [checkpoint_path] raises [KeyError "optimizer"], after the weights
    of the model were replaced by the checkpoint's, and logs nothing. *)
Theorem averaged_checkpoint_cannot_be_loaded :
  forall load path a e m d,
    path <> "" ->
    load path = Ok (AveragedCheckpoint e m d) ->
    __init__ load (resume_from path a)
    = (Raise (KeyError "optimizer"), set_model m (blank (resume_from path a)), []).
Proof.
  intros load path a e m d Hp Hl.
  rewrite (init_with_checkpoint load path a Hp).
  unfold _load_from_checkpoint. rewrite Hl. reflexivity.
Qed.

Lemma init_resume_values load path a e o m s :
  path <> "" ->
  load path = Ok (FullCheckpoint e o m s) ->
  e <= arg_epochs a ->
  is_some s = is_some (arg_scheduler a) ->
  exists t' ev',
    __init__ load (resume_from path a) = (Ok tt, t', ev')
    /\ start_epoch t' = e
    /\ model t' = m /\ optimizer t' = o /\ scheduler t' = s
    /\ best_val_loss t' = inf /\ best_avg_val_loss t' = inf
    /\ averaged_model t' = arg_averaged_model a.
Proof.
  intros Hp Hl He Hs. rewrite (init_with_checkpoint load path a Hp).
  unfold _load_from_checkpoint. rewrite Hl.
  destruct a as [ep tl vl sc us w sp cp am spr].
  cbn [arg_epochs arg_scheduler] in He, Hs.
  unfold blank, resume_from.
  cbn [arg_checkpoint_path arg_epochs arg_train_loader arg_val_loader
       arg_scheduler arg_update_sched_on_iter arg_writer arg_save_path
       arg_averaged_model arg_save_preds].
  cbv [bind get modify emit lift when ret raise is_some
       checkpoint_model checkpoint_optimizer checkpoint_epoch
       checkpoint_scheduler set_model set_optimizer set_start_epoch
       set_scheduler set_weight_diff set_best_val_loss set_best_avg_val_loss];
  cbn [writer save_path save_preds train_loader val_loader model optimizer
       scheduler update_sched_on_iter epochs start_epoch averaged_model
       weight_diff best_val_loss best_avg_val_loss].
  destruct sc as [n|], s as [n'|]; try discriminate Hs; cbn;
    (destruct (Z.gtb_spec e ep); [lia|]);
    do 2 eexists; (split; [reflexivity|]); cbn; tauto.
Qed.

(** X5.  Round trip of [most_recent.pt].  The checkpoint written at the
    end of an epoch holds the model, optimizer and scheduler states
    reached there; a [Trainer] built with the same arguments from that
    checkpoint starts with these states, but with both best-loss
    trackers back at infinity and with the averaged model given to the
    constructor. *)
Theorem resume_restores_steps_but_not_trackers :
  forall load a metrics t ev0 sp,
    __init__ load a = (Ok tt, t, ev0) ->
    save_path t = Some sp ->
    tb_safe t = true ->
    forall k,
      start_epoch t + Z.of_nat k < epochs t ->
      let tk := after_epochs metrics t (S k) in
      let ck := FullCheckpoint (start_epoch t + Z.of_nat k + 1)
                               (optimizer tk) (model tk) (scheduler tk) in
      In (TorchSave ck (checkpoint_file sp "most_recent.pt"))
         (events_of (epoch_run metrics t k))
      /\ forall load' path,
          path <> "" ->
          load' path = Ok ck ->
          exists t' ev',
            __init__ load' (resume_from path a) = (Ok tt, t', ev')
            /\ model t' = model tk /\ optimizer t' = optimizer tk
            /\ scheduler t' = scheduler tk
            /\ best_val_loss t' = inf /\ best_avg_val_loss t' = inf
            /\ averaged_model t' = arg_averaged_model a.
Proof.
  intros load a metrics t ev0 sp Hinit Hsp Htb k Hlt tk ck.
  assert (Hok : setup_ok sp t) by (split; assumption).
  destruct (init_spec _ _ _ _ Hinit) as (_ & _ & _ & Hep & Hsc & _).
  destruct (after_epochs_setup metrics sp t Hok k) as [Hokk _].
  destruct (after_epochs_setup metrics sp t Hok (S k)) as [_ Hsk].
  destruct (epoch_body_more metrics (start_epoch t + Z.of_nat k) _ sp Hokk)
    as (t1 & evs & E & _ & _ & _ & _ & _ & _ & _ & _ & Hin).
  assert (Etk : tk = t1).
  { unfold tk. cbn [after_epochs]. now rewrite E. }
  assert (Erun : epoch_run metrics t k = (Ok tt, t1, evs)) by exact E.
  split.
  { rewrite Erun. unfold ck. rewrite Etk. exact Hin. }
  intros load' path Hp Hl.
  destruct (init_resume_values load' path a _ _ _ _ Hp Hl)
    as (t' & ev' & Ei & _ & M & O & C & B & B' & A).
  - rewrite <- Hep. lia.
  - fold tk in Hsk. destruct Hsk as (_ & _ & _ & _ & _ & _ & _ & _ & Hsck & _).
    now rewrite Hsck, Hsc.
  - exists t', ev'. repeat split; assumption.
Qed.

(** X6.  Without a save path, [_end_loop] hands nothing to [torch.save]
    or [np.save] and leaves both best-loss trackers as they were,
    whatever the losses of the epoch and whether it returns or raises.
    It raises, an [AttributeError] from [_write_to_tb], exactly when a
    writer, a validation loader and an averaged model are present
    without a scheduler, and returns normally otherwise. *)
Theorem end_loop_without_save_path :
  forall m epoch t,
    save_path t = None ->
    exists r t' evs,
      _end_loop m epoch t = (r, t', evs)
      /\ (r = Ok tt <-> tb_safe t = true)
      /\ (r = Raise AttributeError <-> tb_safe t = false)
      /\ saved_objs evs = [] /\ np_saves evs = []
      /\ best_val_loss t' = best_val_loss t
      /\ best_avg_val_loss t' = best_avg_val_loss t.
Proof.
  intros m epoch t.
  destruct t as [w spo spr tl vl mo op sc us ep se am wd b1 b2].
  unfold tb_safe, tb_needs_scheduler. cbn. intros ->.
  destruct w, vl, am as [a|], sc as [n|]; run_monad;
    do 3 eexists; (split; [reflexivity|]); cbn;
    repeat split; try reflexivity; try discriminate; auto.
Qed.

(** X7.  For a [Trainer] built without a validation loader, every epoch
    completes, writes neither [best_model.pt] nor
    [best_averaged_model.pt], and leaves both trackers at infinity. *)
Theorem no_validation_no_best_checkpoint :
  forall load a metrics t ev0 sp,
    __init__ load a = (Ok tt, t, ev0) ->
    save_path t = Some sp ->
    val_loader t = false ->
    forall k,
      let run := epoch_run metrics t k in
      result_of run = Ok tt
      /\ writes (checkpoint_file sp "best_model.pt") (events_of run) = false
      /\ writes (checkpoint_file sp "best_averaged_model.pt") (events_of run) = false
      /\ best_val_loss (after_epochs metrics t (S k)) = inf
      /\ best_avg_val_loss (after_epochs metrics t (S k)) = inf.
Proof.
  intros load a metrics t ev0 sp Hinit Hsp Hvl.
  assert (Htb : tb_safe t = true).
  { unfold tb_safe, tb_needs_scheduler. rewrite Hvl.
    now rewrite andb_false_r. }
  assert (Hok : setup_ok sp t) by (split; assumption).
  destruct (init_spec _ _ _ _ Hinit) as (_ & _ & _ & _ & _ & _ & Hb & Ha).
  assert (Hinv : forall k, best_val_loss (after_epochs metrics t k) = inf
                           /\ best_avg_val_loss (after_epochs metrics t k) = inf
                           /\ setup_ok sp (after_epochs metrics t k)
                           /\ val_loader (after_epochs metrics t k) = false).
  { induction k as [|k (IB & IA & IOk & IV)]; [cbn; auto|].
    destruct (epoch_body_spec metrics (start_epoch t + Z.of_nat k) _ sp IOk)
      as (t' & evs & E & S' & _ & _ & _ & Hb' & _ & Ha' & _).
    cbn [after_epochs]. rewrite E. cbn [state_of fst snd].
    rewrite IV in Hb', Ha'. rewrite andb_false_r in Ha'. cbn [andb] in *.
    pose proof S' as (_ & _ & _ & _ & Hvl' & _).
    split; [congruence|]. split; [congruence|].
    split; [eapply setup_ok_preserved; eauto | congruence]. }
  intros k run.
  destruct (Hinv k) as (IB & IA & IOk & IV).
  destruct (Hinv (S k)) as (IB' & IA' & _).
  destruct (epoch_body_spec metrics (start_epoch t + Z.of_nat k) _ sp IOk)
    as (t' & evs & E & _ & _ & _ & _ & _ & Hw & _ & Haw).
  assert (Erun : run = (Ok tt, t', evs)) by exact E.
  rewrite Erun. cbn [result_of events_of fst snd].
  rewrite Hw, Haw, IV, andb_false_r. cbn. auto.
Qed.

(** X8.  [_write_to_tb] returns normally exactly when a scheduler is
    present or the validation loader or the averaged model is absent.
    Every scalar carries the epoch as its step; ["Model/lr"] is logged
    exactly when all three are present; otherwise the tags are the two
    train scalars, followed by the two validation scalars if there is a
    validation loader. *)
Theorem write_to_tb_scalars :
  forall m epoch t,
    let out := _write_to_tb m epoch t in
    let full := (val_loader t && is_some (averaged_model t))%bool in
    (result_of out = Ok tt <-> (full = true -> is_some (scheduler t) = true))
    /\ Forall (fun s => snd s = epoch) (scalars (events_of out))
    /\ (In "Model/lr" (map fst (scalars (events_of out)))
        <-> full = true /\ is_some (scheduler t) = true)
    /\ (full = false ->
        map fst (scalars (events_of out))
        = (["Loss/train"; "Accuracy/train"]
           ++ if val_loader t then ["Loss/val"; "Accuracy/val"] else [])%list).
Proof.
  intros m epoch t.
  destruct t as [w spo spr tl vl mo op sc us ep se am wd b1 b2].
  cbv zeta. cbn [val_loader averaged_model scheduler].
  destruct vl, am as [a|], sc as [n|], wd as [d|];
    cbv [_write_to_tb bind get emit ret raise lift when is_some app
         val_loader averaged_model scheduler weight_diff
         result_of events_of fst snd andb scalars flat_map map].
  all: repeat match goal with |- _ /\ _ => split end.
  all: try (repeat constructor; fail).
  all: try reflexivity.
  all: cbn; intuition (try discriminate; try congruence; auto).
Qed.

Lemma length_append (a b : string) :
  String.length (a ++ b) = (String.length a + String.length b)%nat.
Proof. induction a as [|c a IH]; cbn; [reflexivity | now rewrite IH]. Qed.

Lemma startswith_sep_append (a b : string) :
  a <> "" -> startswith_sep (a ++ b) = startswith_sep a.
Proof. destruct a; [congruence | reflexivity]. Qed.

(** X9.  The callers hand [os.path.join(save_path, name)] to
    [_save_model], which joins [save_path] with it again: the path
    string given to [torch.save] is [save_path] joined with itself and
    the name.  For a relative name that string is the caller's if and
    only if [save_path] is empty or absolute; under a non-empty relative
    [save_path] it is [save_path], a separator, and the caller's path.
    This is about the string: under a [save_path] such as ["."] both
    strings name one file. *)
Theorem save_model_joins_save_path_twice :
  forall t sp name epoch,
    save_path t = Some sp ->
    startswith_sep name = false ->
    let p := join sp name in
    _save_model p epoch t
    = (Ok tt, t,
       [TorchSave (FullCheckpoint (epoch + 1) (optimizer t) (model t) (scheduler t))
                  (join sp p)])
    /\ (join sp p = p <-> sp = "" \/ startswith_sep sp = true)
    /\ (sp <> "" -> startswith_sep sp = false ->
        exists sep, p = sp ++ sep ++ name /\ join sp p = sp ++ sep ++ p).
Proof.
  intros t sp name epoch Hsp Hn p.
  assert (Hrel : sp <> "" -> startswith_sep sp = false ->
                 exists sep, p = sp ++ sep ++ name /\ join sp p = sp ++ sep ++ p).
  { intros Hne Hs. unfold p, join. rewrite Hn.
    apply String.eqb_neq in Hne. rewrite Hne. cbn [orb].
    destruct (endswith_sep sp).
    - exists "". cbn [append].
      rewrite startswith_sep_append by (apply String.eqb_neq; exact Hne).
      now rewrite Hs.
    - exists "/". rewrite startswith_sep_append by (apply String.eqb_neq; exact Hne).
      now rewrite Hs. }
  split; [|split; [|exact Hrel]].
  - destruct t as [w spo spr tl vl mo op sc us ep se am wd b1 b2].
    cbn in Hsp. subst spo. reflexivity.
  - split.
    + intros E. destruct sp as [|c sp]; [now left|].
      destruct (startswith_sep (String c sp)) eqn:Hs; [now right|].
      exfalso. destruct Hrel as (sep & Ej & Ec); [discriminate | reflexivity|].
      rewrite Ec in E.
      apply (f_equal String.length) in E. rewrite !length_append in E.
      cbn [String.length] in E. lia.
    + intros [-> | Hs].
      * unfold p, join. rewrite Hn. cbn. now rewrite Hn.
      * unfold join at 1.
        assert (Hj : startswith_sep p = true).
        { unfold p, join. rewrite Hn. destruct sp; [discriminate|].
          destruct (_ || _)%bool; exact Hs. }
        now rewrite Hj.
Qed.

Lemma all_chars_append p (a b : string) :
  all_chars p (a ++ b) = (all_chars p a && all_chars p b)%bool.
Proof.
  induction a as [|c a IH]; cbn [append all_chars]; [reflexivity|].
  now rewrite IH, andb_assoc.
Qed.

Lemma uint_chars (d : Decimal.uint) :
  all_chars decimal_char (NilEmpty.string_of_uint d) = true.
Proof. induction d; cbn [NilEmpty.string_of_uint all_chars]; auto. Qed.

Lemma str_of_Z_chars (z : Z) : all_chars decimal_char (str_of_Z z) = true.
Proof.
  unfold str_of_Z, NilZero.string_of_int, NilZero.string_of_uint.
  destruct (Z.to_int z) as [d|d]; destruct d; cbn [all_chars];
    try reflexivity; try apply uint_chars.
  all: rewrite uint_chars; reflexivity.
Qed.

Lemma str_of_Z_relative (z : Z) : startswith_sep (str_of_Z z) = false.
Proof.
  pose proof (str_of_Z_chars z) as H.
  destruct (str_of_Z z) as [|c s]; [reflexivity|].
  cbn [all_chars] in H. apply andb_prop in H as [H _]. cbn [startswith_sep].
  destruct (Ascii.eqb_spec c "/") as [->|]; [discriminate H | reflexivity].
Qed.

Lemma to_int_not_nil (z : Z) :
  Z.to_int z <> Decimal.Pos Decimal.Nil /\ Z.to_int z <> Decimal.Neg Decimal.Nil.
Proof.
  split; intros E; pose proof (f_equal Z.of_int E) as E';
    rewrite DecimalZ.of_to in E'; cbn in E'; subst z; discriminate E.
Qed.

Lemma str_of_Z_inj (z1 z2 : Z) : str_of_Z z1 = str_of_Z z2 -> z1 = z2.
Proof.
  unfold str_of_Z. intros E.
  apply DecimalZ.to_int_inj.
  destruct (to_int_not_nil z1) as [H1 H1'], (to_int_not_nil z2) as [H2 H2'].
  pose proof (NilZero.isi _ H1 H1') as P1.
  pose proof (NilZero.isi _ H2 H2') as P2.
  rewrite E in P1. congruence.
Qed.

Lemma str_of_Z_not_average (z1 z2 : Z) : str_of_Z z1 <> str_of_Z z2 ++ "_average".
Proof.
  intros E. pose proof (str_of_Z_chars z1) as H.
  rewrite E, all_chars_append in H. apply andb_prop in H as [_ H].
  discriminate H.
Qed.

(** Joining a directory with relative names keeps them apart. *)
Lemma join_relative_inj (d x y : string) :
  startswith_sep x = false -> startswith_sep y = false ->
  join d x = join d y -> x = y.
Proof.
  unfold join. intros -> ->.
  destruct (_ || _)%bool; intros E.
  - eapply append_cancel; eauto.
  - apply append_cancel in E. now injection E.
Qed.

Lemma preds_file_inj sp e1 e2 b1 b2 :
  preds_file sp e1 b1 = preds_file sp e2 b2 -> e1 = e2 /\ b1 = b2.
Proof.
  unfold preds_file. intros E.
  apply join_relative_inj in E.
  - destruct b1, b2.
    + split; [|reflexivity]. apply str_of_Z_inj.
      revert E. generalize (str_of_Z e1), (str_of_Z e2).
      intros s1 s2 E.
      assert (H : forall (a b : string), a ++ "_average" = b ++ "_average" -> a = b).
      { induction a as [|c a IH]; intros [|c' b] H; cbn in H.
        - reflexivity.
        - exfalso. injection H as Hc Hr. apply (f_equal String.length) in Hr.
          rewrite length_append in Hr. cbn in Hr. lia.
        - exfalso. injection H as Hc Hr. apply (f_equal String.length) in Hr.
          rewrite length_append in Hr. cbn in Hr. lia.
        - injection H as -> Hr. f_equal. now apply IH. }
      now apply H.
    + exfalso. symmetry in E. now apply str_of_Z_not_average in E.
    + exfalso. now apply str_of_Z_not_average in E.
    + split; [now apply str_of_Z_inj | reflexivity].
  - destruct b1; [|apply str_of_Z_relative].
    rewrite startswith_sep_append; [apply str_of_Z_relative|].
    intros E'. pose proof (to_int_not_nil e1) as [H1 H1'].
    pose proof (NilZero.isi _ H1 H1') as P. unfold str_of_Z in E'.
    rewrite E' in P. discriminate P.
  - destruct b2; [|apply str_of_Z_relative].
    rewrite startswith_sep_append; [apply str_of_Z_relative|].
    intros E'. pose proof (to_int_not_nil e2) as [H1 H1'].
    pose proof (NilZero.isi _ H1 H1') as P. unfold str_of_Z in E'.
    rewrite E' in P. discriminate P.
Qed.

(** X10.  With a save path, [save_preds] set, and a scheduler whenever
    [_write_to_tb] reads one, every epoch hands exactly two arrays to
    [np.save], in this order: the predictions of the model at
    [preds/<epoch>] and those of the averaged model at
    [preds/<epoch>_average], under the save path.  No two of these
    paths, of one epoch or of two, are the same. *)
Theorem prediction_files_per_epoch :
  forall metrics sp t,
    save_path t = Some sp ->
    tb_safe t = true ->
    save_preds t = true ->
    forall k1,
      np_saves (events_of (epoch_run metrics t k1))
      = [(preds_file sp (start_epoch t + Z.of_nat k1) false, false);
         (preds_file sp (start_epoch t + Z.of_nat k1) true, true)]
      /\ forall k2 file b1 b2,
          In (file, b1) (np_saves (events_of (epoch_run metrics t k1))) ->
          In (file, b2) (np_saves (events_of (epoch_run metrics t k2))) ->
          k1 = k2 /\ b1 = b2.
Proof.
  intros metrics sp t Hsp Htb Hpreds.
  assert (Hok : setup_ok sp t) by (split; assumption).
  assert (Hfiles : forall k,
            np_saves (events_of (epoch_run metrics t k))
            = [(preds_file sp (start_epoch t + Z.of_nat k) false, false);
               (preds_file sp (start_epoch t + Z.of_nat k) true, true)]).
  { intros k. destruct (after_epochs_setup metrics sp t Hok k) as [Hokk Hsk].
    destruct (epoch_body_more metrics (start_epoch t + Z.of_nat k) _ sp Hokk)
      as (t' & evs & E & _ & _ & _ & _ & _ & _ & _ & Hnp & _).
    assert (Erun : epoch_run metrics t k = (Ok tt, t', evs)) by exact E.
    rewrite Erun. cbn [events_of snd]. rewrite Hnp.
    destruct Hsk as (_ & _ & -> & _). now rewrite Hpreds. }
  intros k1. split; [apply Hfiles|].
  intros k2 file b1 b2. rewrite (Hfiles k1), (Hfiles k2).
  intros H1 H2.
  assert (G : forall k b, In (file, b)
                [(preds_file sp (start_epoch t + Z.of_nat k) false, false);
                 (preds_file sp (start_epoch t + Z.of_nat k) true, true)] ->
              file = preds_file sp (start_epoch t + Z.of_nat k) b).
  { intros k b [H | [H | []]]; injection H as <- <-; reflexivity. }
  apply G in H1. apply G in H2. rewrite H1 in H2.
  apply preds_file_inj in H2 as [He Hb]. split; [lia | exact Hb].
Qed.

Lemma gt_nan (x : float) : gt x S754_nan = false.
Proof. reflexivity. Qed.

Lemma nan_epochs_keep_best metrics sp t :
  setup_ok sp t ->
  (forall e, start_epoch t <= e < epochs t -> val_loss (metrics e) = S754_nan) ->
  forall n,
    (n <= Z.to_nat (epochs t - start_epoch t))%nat ->
    writes (checkpoint_file sp "best_model.pt")
           (concat (map (fun k => events_of (epoch_run metrics t k)) (seq 0 n)))
    = false
    /\ best_val_loss (after_epochs metrics t n) = best_val_loss t.
Proof.
  intros Hok Hnan. induction n as [|n IH]; intros Hn.
  - split; reflexivity.
  - destruct IH as [IW IB]; [lia|].
    destruct (after_epochs_setup metrics sp t Hok n) as [Hokn _].
    destruct (epoch_body_spec metrics (start_epoch t + Z.of_nat n) _ sp Hokn)
      as (t' & evs & E & _ & _ & _ & _ & Hb & Hw & _).
    rewrite Hnan, gt_nan, andb_false_r in Hb, Hw by lia.
    rewrite seq_S, map_app, concat_app, writes_app, IW.
    cbn [map concat Nat.add orb]. rewrite app_nil_r.
    assert (Erun : epoch_run metrics t n = (Ok tt, t', evs)) by exact E.
    assert (Est : after_epochs metrics t (S n) = t').
    { cbn [after_epochs]. now rewrite E. }
    rewrite Erun, Est. cbn [events_of snd].
    split; [exact Hw | congruence].
Qed.

(** X11.  A validation loss that is NaN is never the best.  With a save
    path, and a scheduler whenever [_write_to_tb] reads one: if the
    validation loss is NaN in every epoch of the run, [train] completes
    without writing [best_model.pt] and leaves [best_val_loss] as it
    was. *)
Theorem nan_validation_loss_never_saves_best :
  forall metrics sp t,
    save_path t = Some sp ->
    tb_safe t = true ->
    (forall e, start_epoch t <= e < epochs t -> val_loss (metrics e) = S754_nan) ->
    result_of (train metrics t) = Ok tt
    /\ writes (checkpoint_file sp "best_model.pt") (events_of (train metrics t))
       = false
    /\ best_val_loss (state_of (train metrics t)) = best_val_loss t.
Proof.
  intros metrics sp t Hsp Htb Hnan.
  assert (Hok : setup_ok sp t) by (split; assumption).
  pose proof (train_unfold metrics sp t Hok) as E. cbv zeta in E.
  destruct (nan_epochs_keep_best metrics sp t Hok Hnan
              (Z.to_nat (epochs t - start_epoch t))) as [HW HB]; [lia|].
  rewrite E. cbn [result_of state_of events_of fst snd].
  split; [reflexivity|]. split; [|exact HB].
  rewrite !writes_app, HW. cbn [writes existsb saved_to orb].
  rewrite checkpoint_file_eqb by reflexivity. cbn [String.eqb Ascii.eqb Bool.eqb andb orb].
  destruct (averaged_model _); cbn [writes existsb saved_to orb]; [|reflexivity].
  rewrite checkpoint_file_eqb by reflexivity. reflexivity.
Qed.

(** ** Concrete runs *)

Lemma train_checkpoints_and_steps_witness :
  let t := trainer_of full_args in
  let metrics := metrics_of_losses example_losses in
  (save_path t = Some "out" /\ tb_safe t = true)
  /\ result_of (train metrics t) = Ok tt
  /\ count_writes (checkpoint_file "out" "most_recent.pt")
                  (events_of (train metrics t)) = 3%nat
  /\ count_writes (checkpoint_file "out" "final_model.pt")
                  (events_of (train metrics t)) = 1%nat
  /\ optimizer (state_of (train metrics t)) = 6%nat
  /\ scheduler_steps (state_of (train metrics t)) = 6%nat.
Proof.
  intros t metrics.
  assert (H1 : save_path t = Some "out") by reflexivity.
  assert (H2 : tb_safe t = true) by reflexivity.
  split; [auto|].
  destruct (train_checkpoints_and_steps metrics "out" t H1 H2)
    as (Hr & Hm & Hf & _ & _ & Ho & _ & Hs).
  exact (conj Hr (conj Hm (conj Hf (conj Ho Hs)))).
Defined.

Lemma final_checkpoint_is_refused_on_resume_witness :
  let t := trainer_of example_args in
  let metrics := metrics_of_losses example_losses in
  (__init__ no_files example_args = (Ok tt, t, [])
   /\ save_path t = Some "out" /\ tb_safe t = true)
  /\ exists o mo sc,
      In (TorchSave (FullCheckpoint (epochs t + 1) o mo sc)
                    (checkpoint_file "out" "final_model.pt"))
         (events_of (train metrics t))
      /\ forall load' path,
          path <> "" ->
          load' path = Ok (FullCheckpoint (epochs t + 1) o mo sc) ->
          result_of (__init__ load' (resume_from path example_args))
          = Raise (ValueError "Starting epoch is larger than total epochs").
Proof.
  intros t metrics.
  assert (H1 : __init__ no_files example_args = (Ok tt, t, [])) by reflexivity.
  assert (H2 : save_path t = Some "out") by reflexivity.
  assert (H3 : tb_safe t = true) by reflexivity.
  split; [auto|].
  exact (final_checkpoint_is_refused_on_resume
           no_files example_args metrics t [] "out" H1 H2 H3).
Defined.

Lemma averaged_checkpoint_cannot_be_loaded_witness :
  let obj := AveragedCheckpoint 3 7 (float_of_ratio 999 1000) in
  let load := one_file "avg.pt" obj in
  ("avg.pt" <> "" /\ load "avg.pt" = Ok obj)
  /\ __init__ load (resume_from "avg.pt" example_args)
     = (Raise (KeyError "optimizer"),
        set_model 7 (blank (resume_from "avg.pt" example_args)), []).
Proof.
  intros obj load.
  assert (H1 : "avg.pt" <> "") by discriminate.
  assert (H2 : load "avg.pt" = Ok obj) by reflexivity.
  split; [auto|].
  exact (averaged_checkpoint_cannot_be_loaded
           load "avg.pt" example_args 3 7%nat (float_of_ratio 999 1000) H1 H2).
Defined.

Lemma resume_restores_steps_but_not_trackers_witness :
  let t := trainer_of example_args in
  let metrics := metrics_of_losses example_losses in
  let tk := after_epochs metrics t 2 in
  let ck := FullCheckpoint 2 (optimizer tk) (model tk) (scheduler tk) in
  (__init__ no_files example_args = (Ok tt, t, [])
   /\ save_path t = Some "out" /\ tb_safe t = true
   /\ start_epoch t + Z.of_nat 1 < epochs t)
  /\ In (TorchSave ck (checkpoint_file "out" "most_recent.pt"))
        (events_of (epoch_run metrics t 1))
  /\ exists t' ev',
      __init__ (one_file "ckpt.pt" ck) (resume_from "ckpt.pt" example_args)
      = (Ok tt, t', ev')
      /\ optimizer t' = optimizer tk
      /\ best_val_loss t' = inf.
Proof.
  intros t metrics tk ck.
  assert (H1 : __init__ no_files example_args = (Ok tt, t, [])) by reflexivity.
  assert (H2 : save_path t = Some "out") by reflexivity.
  assert (H3 : tb_safe t = true) by reflexivity.
  assert (H4 : start_epoch t + Z.of_nat 1 < epochs t) by reflexivity.
  split; [auto|].
  destruct (resume_restores_steps_but_not_trackers
              no_files example_args metrics t [] "out" H1 H2 H3 1%nat H4)
    as [Hin Hres].
  split; [exact Hin|].
  assert (H5 : "ckpt.pt" <> "") by discriminate.
  assert (H6 : one_file "ckpt.pt" ck "ckpt.pt" = Ok ck) by reflexivity.
  destruct (Hres (one_file "ckpt.pt" ck) "ckpt.pt" H5 H6)
    as (t' & ev' & E & _ & Ho & _ & Hb & _).
  exists t', ev'. exact (conj E (conj Ho Hb)).
Defined.

Lemma end_loop_without_save_path_witness :
  let t := trainer_of args_without_scheduler_or_save_path in
  let m := metrics_of_losses example_losses 0 in
  save_path t = None
  /\ exists r t' evs,
      _end_loop m 0 t = (r, t', evs)
      /\ (r = Raise AttributeError <-> tb_safe t = false)
      /\ saved_objs evs = [] /\ np_saves evs = []
      /\ best_val_loss t' = best_val_loss t.
Proof.
  intros t m.
  assert (H1 : save_path t = None) by reflexivity.
  split; [exact H1|].
  destruct (end_loop_without_save_path m 0 t H1)
    as (r & t' & evs & E & _ & Hr & Hs & Hn & Hb & _).
  exists r, t', evs. exact (conj E (conj Hr (conj Hs (conj Hn Hb)))).
Defined.

Lemma no_validation_no_best_checkpoint_witness :
  let t := trainer_of args_without_validation in
  let metrics := metrics_of_losses example_losses in
  (__init__ no_files args_without_validation = (Ok tt, t, [])
   /\ save_path t = Some "out" /\ val_loader t = false)
  /\ result_of (epoch_run metrics t 1) = Ok tt
  /\ writes (checkpoint_file "out" "best_model.pt")
            (events_of (epoch_run metrics t 1)) = false
  /\ best_val_loss (after_epochs metrics t 2) = inf.
Proof.
  intros t metrics.
  assert (H1 : __init__ no_files args_without_validation = (Ok tt, t, []))
    by reflexivity.
  assert (H2 : save_path t = Some "out") by reflexivity.
  assert (H3 : val_loader t = false) by reflexivity.
  split; [auto|].
  destruct (no_validation_no_best_checkpoint
              no_files args_without_validation metrics t [] "out" H1 H2 H3 1%nat)
    as (Hr & Hw & _ & Hb & _).
  exact (conj Hr (conj Hw Hb)).
Defined.

Lemma save_model_joins_save_path_twice_witness :
  let t := trainer_of example_args in
  (save_path t = Some "out" /\ startswith_sep "most_recent.pt" = false)
  /\ _save_model (join "out" "most_recent.pt") 0 t
     = (Ok tt, t, [TorchSave (FullCheckpoint 1 0 0 None)
                             "out/out/most_recent.pt"]).
Proof.
  intros t.
  assert (H1 : save_path t = Some "out") by reflexivity.
  assert (H2 : startswith_sep "most_recent.pt" = false) by reflexivity.
  split; [auto|].
  exact (proj1 (save_model_joins_save_path_twice t "out" "most_recent.pt" 0 H1 H2)).
Defined.

Lemma prediction_files_per_epoch_witness :
  let t := trainer_of full_args in
  let metrics := metrics_of_losses example_losses in
  (save_path t = Some "out" /\ tb_safe t = true /\ save_preds t = true)
  /\ np_saves (events_of (epoch_run metrics t 1))
     = [(preds_file "out" 1 false, false); (preds_file "out" 1 true, true)].
Proof.
  intros t metrics.
  assert (H1 : save_path t = Some "out") by reflexivity.
  assert (H2 : tb_safe t = true) by reflexivity.
  assert (H3 : save_preds t = true) by reflexivity.
  split; [auto|].
  exact (proj1 (prediction_files_per_epoch metrics "out" t H1 H2 H3 1%nat)).
Defined.

Lemma nan_validation_loss_never_saves_best_witness :
  let t := trainer_of example_args in
  let metrics := metrics_of_losses [] in
  (save_path t = Some "out" /\ tb_safe t = true
   /\ forall e, start_epoch t <= e < epochs t -> val_loss (metrics e) = S754_nan)
  /\ writes (checkpoint_file "out" "best_model.pt") (events_of (train metrics t))
     = false.
Proof.
  intros t metrics.
  assert (H1 : save_path t = Some "out") by reflexivity.
  assert (H2 : tb_safe t = true) by reflexivity.
  assert (H3 : forall e, start_epoch t <= e < epochs t
                         -> val_loss (metrics e) = S754_nan).
  { intros e _. unfold metrics, metrics_of_losses. cbn [val_loss].
    now destruct (Z.to_nat e). }
  split; [auto|].
  exact (proj1 (proj2 (nan_validation_loss_never_saves_best
                         metrics "out" t H1 H2 H3))).
Defined.

End TrainerMore.

(** * More of the plots: what each figure draws *)

Module PlotterMore.

Import Plotter PlotterFacts.

Local Open Scope nat_scope.

(** X12.  With a number of histories other than two, the two histograms
    raise their [AssertionError] after setting the theme and before
    opening a figure, and [plot_persistence] raises its own before
    anything else. *)
Theorem histograms_and_persistence_need_two_histories :
  forall preds labels iters window rng n_samples sort,
    length preds <> 2 ->
    plot_mismatch preds labels iters true window
    = (Raise (AssertionError
                "Only two list of predictions is supported for histogram"),
       [SetTheme])
    /\ plot_misclassification preds labels iters true window
       = (Raise (AssertionError
                   "Only two list of predictions is supported for histogram"),
          [SetTheme])
    /\ plot_persistence rng preds n_samples sort
       = (Raise (AssertionError
                   "Only two list of predictions is supported for persistence"),
          []).
Proof.
  intros preds labels iters window rng n_samples sort H.
  apply Nat.eqb_neq in H.
  unfold plot_mismatch, plot_misclassification, plot_persistence.
  rewrite H. repeat split; reflexivity.
Qed.

(** X13.  The default [iters=None] reads the unbound name [preds_a]:
    the two time series raise [NameError "preds_a"] right after setting
    the theme; [plot_stability] never returns normally, and raises that
    error whenever its shape check passes. *)
Theorem default_iters_raise_name_error :
  forall preds labels window,
    plot_mismatch preds labels None false window
    = (Raise (NameError "preds_a"), [SetTheme])
    /\ plot_misclassification preds labels None false window
       = (Raise (NameError "preds_a"), [SetTheme])
    /\ is_ok (fst (plot_stability preds labels None)) = false
    /\ (forallb (fun pred => shape_eqb (shape (hd pred preds)) (shape pred)) preds
        = true ->
        plot_stability preds labels None
        = (Raise (NameError "preds_a"), [SetTheme])).
Proof.
  intros preds labels window.
  split; [reflexivity|]. split; [reflexivity|].
  assert (H : plot_stability preds labels None
              = if forallb (fun pred => shape_eqb (shape (hd pred preds)) (shape pred))
                           preds
                then (Raise (NameError "preds_a"), [SetTheme])
                else (Raise (AssertionError "Shape of predictions must be the same"),
                      [SetTheme])).
  { destruct preds as [|first rest]; [reflexivity|].
    unfold plot_stability.
    change (index (first :: rest) 0) with (Ok first).
    rewrite shape_check_loop. cbn [hd].
    destruct (forallb _ (first :: rest)); reflexivity. }
  rewrite H. split.
  - destruct (forallb _ preds); reflexivity.
  - intros ->. reflexivity.
Qed.

(** X14.  The histogram of [plot_misclassification] fills in no default
    labels: on two histories with [labels=None] it raises [TypeError]
    at [labels[0]], after opening the figure and before drawing. *)
Theorem misclassification_histogram_needs_labels :
  forall preds iters window,
    length preds = 2 ->
    plot_misclassification preds None iters true window
    = (Raise TypeError, [SetTheme; Figure]).
Proof.
  intros preds iters window H.
  destruct preds as [|a [|b [|c rest]]]; try discriminate H.
  reflexivity.
Qed.

Lemma map_const_seq {A} (f : nat -> A) (c : A) (n : nat) :
  (forall j, j < n -> f j = c) -> map f (seq 0 n) = repeat c n.
Proof.
  intros H. apply nth_ext with (d := f 0) (d' := c).
  - now rewrite length_map, length_seq, repeat_length.
  - intros i Hi. rewrite length_map, length_seq in Hi.
    rewrite nth_repeat.
    rewrite (nth_indep _ _ (f (nth i (seq 0 n) 0))) by (now rewrite length_map, length_seq).
    rewrite map_nth, seq_nth by assumption. now apply H.
Qed.

Lemma nth_map2_same (r : list Z) (j : nat) :
  j < length r -> nth j (map2 same_entry r r) 0%Z = 1%Z.
Proof.
  revert j. induction r as [|x r IH]; intros j Hj; [cbn in Hj; lia|].
  unfold map2. cbn [combine map fst snd]. fold (map2 same_entry r r).
  destruct j as [|j]; cbn [nth].
  - unfold same_entry. now rewrite Z.eqb_refl.
  - apply IH. cbn in Hj. lia.
Qed.

Lemma mean_all_ones (l : list Z) :
  l <> [] -> Forall (fun x => x = 1%Z) l -> mean l = Some 1%Qc.
Proof.
  intros Hne H1. apply mean_one_iff; auto.
  eapply Forall_impl; [|exact H1]. auto.
Qed.

Lemma one_minus_one : num_sub (num_of_Z 1) (Some 1%Qc) = Some 0%Qc.
Proof.
  cbn [num_sub num_of_Z].
  assert (E : (Q2Qc (inject_Z 1) - 1)%Qc = 0%Qc) by (apply Qc_is_canon; reflexivity).
  now rewrite E.
Qed.

(** X15.  The mismatch histogram of a history with itself: one value
    per sample, all of them 0. *)
Theorem mismatch_histogram_of_a_history_with_itself :
  forall a labels iters window,
    well_formed a ->
    1 <= length (rows a) ->
    exists calls,
      plot_mismatch [a; a] labels iters true window = (Ok tt, calls)
      /\ histograms calls = [repeat (Some 0%Qc) (n_cols a)].
Proof.
  intros a labels iters window Hwf He.
  pose proof (well_formed_uniform a Hwf) as Hu.
  unfold plot_mismatch.
  change (index [a; a] 0) with (Ok a). change (index [a; a] 1) with (Ok a).
  cbv [bind lift ret emit assert length Nat.eqb fst snd].
  unfold np_eq. rewrite elementwise_same_shape by auto.
  fold same_entry.
  assert (Hm : mean_axis0 (mk_ndarray BoolT (n_cols a)
                             (map2 (map2 same_entry) (rows a) (rows a)))
               = repeat (Some 1%Qc) (n_cols a)).
  { unfold mean_axis0. cbn [n_cols rows]. apply map_const_seq.
    intros j Hj. apply mean_all_ones.
    - destruct (rows a); [cbn in He; lia | discriminate].
    - apply Forall_map. unfold map2. apply Forall_map.
      unfold uniform in Hu. rewrite Forall_forall in *.
      intros [r1 r2] Hin. cbn [fst snd].
      assert (r1 = r2 /\ In r1 (rows a)) as [<- Hr].
      { clear - Hin. induction (rows a) as [|r rs IH]; [contradiction|].
        destruct Hin as [[= <- <-]|Hin]; [split; [reflexivity | now left]|].
        destruct (IH Hin). split; [assumption | now right]. }
      fold (map2 same_entry r1 r1). apply nth_map2_same.
      rewrite (Hu r1 Hr). exact Hj. }
  rewrite Hm.
  eexists. split; [reflexivity|].
  cbn [histograms flat_map app]. f_equal.
  unfold one_minus_series. rewrite map_repeat. now rewrite one_minus_one.
Qed.

Lemma this_ratio (s n : Z) :
  (this (Q2Qc (inject_Z s) / Q2Qc (inject_Z n))%Qc == inject_Z s / inject_Z n)%Q.
Proof.
  cbn [this Qcdiv Qcmult Qcinv Q2Qc]. rewrite !Qred_correct. reflexivity.
Qed.

Lemma is_fraction_ratio (s n : Z) :
  (0 <= s <= n)%Z -> (0 < n)%Z ->
  is_fraction (Some (Q2Qc (inject_Z s) / Q2Qc (inject_Z n))%Qc).
Proof.
  intros Hs Hn. eexists. split; [reflexivity|].
  assert (Hn' : (0 < inject_Z n)%Q) by (rewrite <- (Zlt_Qlt 0); exact Hn).
  unfold Qcle. rewrite this_ratio. change (this 0%Qc) with 0%Q.
  change (this 1%Qc) with 1%Q. split.
  - apply Qle_shift_div_l; [exact Hn'|]. rewrite Qmult_0_l.
    rewrite <- (Zle_Qle 0). lia.
  - apply Qle_shift_div_r; [exact Hn'|]. rewrite Qmult_1_l.
    rewrite <- Zle_Qle. lia.
Qed.

Lemma sumZ_nonneg (l : list Z) :
  Forall (fun x => x = 0%Z \/ x = 1%Z) l -> (0 <= sumZ l)%Z.
Proof.
  induction 1 as [|x l Hx _ IH]; cbn [sumZ fold_right]; [lia|].
  fold (sumZ l). lia.
Qed.

(** The mean of 0/1 entries is a fraction. *)
Lemma mean_fraction (l : list Z) :
  Forall (fun x => x = 0%Z \/ x = 1%Z) l -> l <> [] -> is_fraction (mean l).
Proof.
  intros H01 Hne. unfold mean, num_div_nat, num_of_Z.
  destruct (length l) as [|n] eqn:Hlen.
  { destruct l; [congruence | discriminate]. }
  apply is_fraction_ratio; [|lia].
  destruct (sumZ_bound l H01) as [Hle _]. pose proof (sumZ_nonneg l H01). lia.
Qed.

Lemma is_fraction_one_minus (v : number) :
  is_fraction v -> is_fraction (num_sub (num_of_Z 1) v).
Proof.
  intros (q & -> & H0 & H1). eexists. split; [reflexivity|].
  unfold Qcle in *. cbn [this Qcminus Qcplus Qcopp Q2Qc] in *.
  rewrite !Qred_correct.
  change (this 0%Qc) with 0%Q in *. change (this 1%Qc) with 1%Q in *.
  change (inject_Z 1) with 1%Q.
  change (Qred 0) with 0%Q in H0. change (Qred 1) with 1%Q in H1.
  split; lra.
Qed.

Lemma map2_same_entry_comm (r1 r2 : list Z) :
  map2 same_entry r1 r2 = map2 same_entry r2 r1.
Proof.
  revert r2. induction r1 as [|x r1 IH]; intros [|y r2]; try reflexivity.
  unfold map2 in *. cbn [combine map fst snd]. rewrite IH.
  unfold same_entry. now rewrite Z.eqb_sym.
Qed.

Lemma map2_rows_comm (l1 l2 : list (list Z)) :
  map2 (map2 same_entry) l1 l2 = map2 (map2 same_entry) l2 l1.
Proof.
  revert l2. induction l1 as [|x l1 IH]; intros [|y l2]; try reflexivity.
  unfold map2 at 1 3. cbn [combine map fst snd].
  fold (map2 (map2 same_entry) l1 l2). fold (map2 (map2 same_entry) l2 l1).
  now rewrite IH, map2_same_entry_comm.
Qed.

Lemma same_entry_01 x y : same_entry x y = 0%Z \/ same_entry x y = 1%Z.
Proof. unfold same_entry. destruct (Z.eqb x y); auto. Qed.

Lemma map2_same_entry_01 (r1 r2 : list Z) :
  Forall (fun x => x = 0%Z \/ x = 1%Z) (map2 same_entry r1 r2).
Proof.
  unfold map2. apply Forall_map. apply Forall_forall. intros [x y] _.
  apply same_entry_01.
Qed.

Lemma Forall_map2 {A B C} (Q : C -> Prop) (f : A -> B -> C) l1 l2 :
  (forall x y, In x l1 -> In y l2 -> Q (f x y)) -> Forall Q (map2 f l1 l2).
Proof.
  intros H. unfold map2. apply Forall_map. apply Forall_forall.
  intros [x y] Hin. cbn [fst snd].
  apply H; [eapply in_combine_l | eapply in_combine_r]; exact Hin.
Qed.

(** The per-epoch agreement of two histories of one shape: a fraction. *)
Lemma agreement_fractions n (l1 l2 : list (list Z)) :
  1 <= n -> uniform n l1 -> uniform n l2 ->
  Forall is_fraction (map mean (map2 (map2 same_entry) l1 l2)).
Proof.
  intros Hn H1 H2. apply Forall_map. apply Forall_map2.
  intros r1 r2 Hr1 Hr2. unfold uniform in *. rewrite Forall_forall in *.
  apply mean_fraction; [apply map2_same_entry_01|].
  intros E. apply (f_equal (@length Z)) in E.
  rewrite length_map2 in E. rewrite (H1 _ Hr1), (H2 _ Hr2) in E.
  cbn in E. lia.
Qed.

Ltac run_plot :=
  cbv [bind lift ret emit raise assert for_each enumerate combine seq length
       skipn Nat.add Nat.eqb fst snd].

(** X17.  On two histories of one shape, with [window <= 0], the time
    series of [plot_mismatch] draws one solid curve, labelled with both
    labels, over [iters]: per epoch, the fraction of samples on which
    the two disagree.  Its values lie between 0 and 1, and swapping the
    two histories draws the same curve. *)
Theorem mismatch_time_series_of_two_histories :
  forall a b la lb more iters window,
    well_formed a -> well_formed b -> shape a = shape b ->
    1 <= n_cols a ->
    length iters = length (rows a) ->
    (window <= 0)%Z ->
    let y := one_minus_series
               (map mean (map2 (map2 same_entry) (rows a) (rows b))) in
    plot_mismatch [a; b] (Some (la :: lb :: more)) (Some iters) false window
    = (Ok tt, [SetTheme; Figure;
               Plot (Some iters) y (la ++ " - " ++ lb) false;
               Legend; XLabel "Epochs"; YLabel "Mismatch ratio";
               SaveFig "mismatch.png"])
    /\ length y = length iters
    /\ Forall is_fraction y
    /\ plotted (snd (plot_mismatch [b; a] (Some (la :: lb :: more)) (Some iters)
                       false window))
       = [((la ++ " - " ++ lb)%string, y)].
Proof.
  intros a b la lb more iters window Hwa Hwb Hshape Hn Hit Hw y.
  pose proof (well_formed_uniform a Hwa) as Hua.
  pose proof (well_formed_uniform b Hwb) as Hub.
  unfold shape in Hshape. injection Hshape as Hr Hc.
  assert (Hgt : (window >? 0)%Z = false) by lia.
  assert (Eab : np_eq a b = Ok (mk_ndarray BoolT (n_cols a)
                                  (map2 (map2 same_entry) (rows a) (rows b)))).
  { unfold np_eq. now rewrite elementwise_same_shape. }
  assert (Eba : np_eq b a = Ok (mk_ndarray BoolT (n_cols b)
                                  (map2 (map2 same_entry) (rows b) (rows a)))).
  { unfold np_eq. now rewrite elementwise_same_shape. }
  split; [|split; [|split]].
  - unfold plot_mismatch, mismatch_curve.
    change (index [a; b] 0) with (Ok a). change (index [a; b] 1) with (Ok b).
    run_plot. rewrite Eab, Hgt. run_plot.
    rewrite (index_ok (la :: lb :: more) 0 la eq_refl). run_plot.
    rewrite (index_ok (la :: lb :: more) 1 lb eq_refl). reflexivity.
  - unfold y, one_minus_series. rewrite !length_map, length_map2. lia.
  - unfold y, one_minus_series. apply Forall_map.
    eapply Forall_impl; [|apply (agreement_fractions (n_cols a)); auto].
    + intros v. apply is_fraction_one_minus.
    + now rewrite Hc.
  - unfold plot_mismatch, mismatch_curve.
    change (index [b; a] 0) with (Ok b). change (index [b; a] 1) with (Ok a).
    run_plot. rewrite Eba, Hgt. run_plot.
    rewrite (index_ok (la :: lb :: more) 0 la eq_refl). run_plot.
    rewrite (index_ok (la :: lb :: more) 1 lb eq_refl).
    unfold y. rewrite (map2_rows_comm (rows a) (rows b)).
    reflexivity.
Qed.

(** In one row, the samples both histories get wrong are among those
    either gets wrong. *)
Lemma both_wrong_count (r1 r2 : list Z) :
  Forall (fun x => x = 0%Z \/ x = 1%Z) r1 ->
  Forall (fun x => x = 0%Z \/ x = 1%Z) r2 ->
  length r1 = length r2 ->
  let both := map2 Z.mul (map2 same_entry r1 r2) (map (fun x => (1 - x)%Z) r1) in
  length both = length r1
  /\ (sumZ both + sumZ r1 <= Z.of_nat (length r1))%Z
  /\ (sumZ both + sumZ r2 <= Z.of_nat (length r1))%Z.
Proof.
  intros H1. revert r2. induction H1 as [|x r1 Hx _ IH]; intros r2 H2 Hlen.
  - destruct r2; [|discriminate]. cbn. lia.
  - destruct r2 as [|y r2]; [discriminate|]. inversion H2 as [|? ? Hy H2']; subst.
    injection Hlen as Hlen. specialize (IH r2 H2' Hlen). cbv zeta in IH.
    destruct IH as (IH0 & IH1 & IH2).
    unfold map2 in *. cbn [combine map fst snd sumZ fold_right length].
    fold (sumZ r1). fold (sumZ r2).
    match goal with
    | |- context [fold_right Z.add 0%Z ?l] => fold (sumZ l)
    end.
    rewrite IH0. unfold same_entry in *.
    split; [reflexivity|].
    destruct Hx as [-> | ->], Hy as [-> | ->]; cbn [Z.eqb Z.b2z]; lia.
Qed.

(** Per epoch, the samples both histories get wrong are among those
    either gets wrong. *)
Lemma both_wrong_rows n (ra rb : list (list Z)) :
  Forall (fun r => length r = n /\ Forall (fun x => x = 0%Z \/ x = 1%Z) r) ra ->
  Forall (fun r => length r = n /\ Forall (fun x => x = 0%Z \/ x = 1%Z) r) rb ->
  length ra = length rb ->
  let marked := map2 (map2 Z.mul) (map2 (map2 same_entry) ra rb)
                     (map (map (fun x => (1 - x)%Z)) ra) in
  Forall2 (fun both r => (count_ones both + count_ones r <= Z.of_nat n)%Z) marked ra
  /\ Forall2 (fun both r => (count_ones both + count_ones r <= Z.of_nat n)%Z) marked rb.
Proof.
  intros Ha. revert rb. induction Ha as [|r1 ra [L1 H1] _ IH]; intros rb Hb Hlen.
  - cbn. split; destruct rb; try discriminate; constructor.
  - destruct rb as [|r2 rb]; [discriminate|].
    inversion Hb as [|? ? [L2 H2] Hb']; subst.
    injection Hlen as Hlen. specialize (IH rb Hb' Hlen). cbv zeta in IH.
    destruct IH as [IHa IHb].
    destruct (both_wrong_count r1 r2 H1 H2 (eq_sym L2)) as (B0 & B1 & B2).
    unfold map2 in *. cbn [combine map fst snd].
    split; (constructor; [|assumption]); unfold count_ones; assumption.
Qed.

Lemma uniform_map2_same_entry n (ra rb : list (list Z)) :
  uniform n ra -> uniform n rb -> uniform n (map2 (map2 same_entry) ra rb).
Proof.
  intros Ha Hb. apply Forall_map2. intros r1 r2 H1 H2.
  unfold uniform in *. rewrite Forall_forall in *.
  rewrite length_map2, (Ha _ H1), (Hb _ H2). lia.
Qed.

Lemma uniform_one_minus n (ra : list (list Z)) :
  uniform n ra -> uniform n (map (map (fun x => (1 - x)%Z)) ra).
Proof.
  intros Ha. apply Forall_map. eapply Forall_impl; [|exact Ha].
  intros r Hr. cbv beta. now rewrite length_map.
Qed.

(** X18.  On two histories of one shape, with [window <= 0], the time
    series of [plot_misclassification] draws three curves in this
    order: the error rate of the first history, the mean of the array
    that marks the samples on which both agree and the first is wrong,
    and the error rate of the second.  At every epoch that array marks
    at most as many samples as either history gets wrong: the marked
    samples and those a history gets right are at most all samples. *)
Theorem misclassification_time_series_of_two_histories :
  forall a b la lb more iters window,
    well_formed a -> well_formed b -> shape a = shape b ->
    1 <= n_cols a ->
    length iters = length (rows a) ->
    (window <= 0)%Z ->
    let wrong_a := one_minus_series (mean_axis1 a) in
    let wrong_b := one_minus_series (mean_axis1 b) in
    let marked := map2 (map2 Z.mul) (map2 (map2 same_entry) (rows a) (rows b))
                       (map (map (fun x => (1 - x)%Z)) (rows a)) in
    plot_misclassification [a; b] (Some (la :: lb :: more)) (Some iters) false window
    = (Ok tt, [SetTheme; Figure;
               Plot (Some iters) wrong_a la false;
               Plot (Some iters) (map mean marked) (la ++ " and " ++ lb) false;
               Plot (Some iters) wrong_b lb false;
               XLabel "Epoch"; YLabel "Misclassification ratio";
               Legend; SaveFig "misclassification.png"])
    /\ Forall2 (fun both r =>
                  (count_ones both + count_ones r <= Z.of_nat (n_cols a))%Z)
               marked (rows a)
    /\ Forall2 (fun both r =>
                  (count_ones both + count_ones r <= Z.of_nat (n_cols a))%Z)
               marked (rows b).
Proof.
  intros a b la lb more iters window Hwa Hwb Hshape Hn Hit Hw wrong_a wrong_b marked.
  pose proof (well_formed_uniform a Hwa) as Hua.
  pose proof (well_formed_uniform b Hwb) as Hub.
  unfold shape in Hshape. injection Hshape as Hr Hc.
  assert (Hgt : (window >? 0)%Z = false) by lia.
  assert (Eab : np_eq a b = Ok (mk_ndarray BoolT (n_cols a)
                                  (map2 (map2 same_entry) (rows a) (rows b)))).
  { unfold np_eq. now rewrite elementwise_same_shape. }
  split.
  - unfold plot_misclassification. run_plot. rewrite Hgt. run_plot.
    rewrite (index_ok (la :: lb :: more) 0 la eq_refl). run_plot.
    rewrite Eab. unfold np_mul.
    rewrite elementwise_same_shape; cbn [rows n_cols one_minus].
    2:{ now rewrite length_map2, length_map, <- Hr, Nat.min_id. }
    2:{ reflexivity. }
    2:{ apply uniform_map2_same_entry; [exact Hua | now rewrite Hc]. }
    2:{ now apply uniform_one_minus. }
    run_plot.
    rewrite (index_ok (la :: lb :: more) 1 lb eq_refl). reflexivity.
  - unfold well_formed in Hwa, Hwb. rewrite <- Hc in Hwb.
    apply (both_wrong_rows (n_cols a)); assumption.
Qed.

(** [argsort] compares with a total preorder. *)
Lemma num_leb_total (x y : number) : num_leb x y = false -> num_leb y x = true.
Proof.
  destruct x as [p|], y as [q|]; cbn [num_leb]; try congruence.
  intros H. apply Qle_bool_iff. apply Qlt_le_weak. apply Qnot_le_lt.
  intros Hle. apply Qle_bool_iff in Hle. congruence.
Qed.

Lemma num_leb_trans (x y z : number) :
  num_leb x y = true -> num_leb y z = true -> num_leb x z = true.
Proof.
  destruct x as [p|], y as [q|], z as [r|]; cbn [num_leb]; try congruence.
  rewrite !Qle_bool_iff. apply Qle_trans.
Qed.

Lemma insert_sorted_sorted keys i sorted :
  StronglySorted (fun i j => num_leb (score keys i) (score keys j) = true) sorted ->
  StronglySorted (fun i j => num_leb (score keys i) (score keys j) = true)
                 (insert_sorted keys i sorted).
Proof.
  induction 1 as [|j rest Hs IH Hj]; cbn [insert_sorted].
  - constructor; constructor.
  - fold (score keys j). fold (score keys i).
    destruct (num_leb (score keys j) (score keys i)) eqn:E.
    + constructor; [exact IH|].
      apply Forall_forall. intros k Hk.
      apply (Permutation_in _ (insert_sorted_perm keys i rest)) in Hk.
      destruct Hk as [<- | Hk]; [exact E|].
      rewrite Forall_forall in Hj. now apply Hj.
    + apply num_leb_total in E.
      constructor; [now constructor|].
      constructor; [exact E|].
      eapply Forall_impl; [|exact Hj].
      intros k Hk. cbv beta in *. eapply num_leb_trans; eassumption.
Qed.

Lemma argsort_fold_sorted keys (l acc : list nat) :
  StronglySorted (fun i j => num_leb (score keys i) (score keys j) = true) acc ->
  StronglySorted (fun i j => num_leb (score keys i) (score keys j) = true)
    (fold_left (fun sorted i => insert_sorted keys i sorted) l acc).
Proof.
  revert acc. induction l as [|i l IH]; intros acc H; cbn [fold_left]; [exact H|].
  apply IH, insert_sorted_sorted, H.
Qed.

(** [argsort] returns the indices in ascending order of their key. *)
Lemma argsort_sorted keys :
  StronglySorted (fun i j => num_leb (score keys i) (score keys j) = true)
                 (argsort keys).
Proof. unfold argsort. apply argsort_fold_sorted. constructor. Qed.

Lemma sorted_app_inv {A} (R : A -> A -> Prop) (l1 l2 : list A) :
  StronglySorted R (l1 ++ l2) ->
  StronglySorted R l1 /\ (forall x y, In x l1 -> In y l2 -> R x y).
Proof.
  induction l1 as [|x l1 IH]; cbn [app]; intros H.
  - split; [constructor | contradiction].
  - inversion H as [|? ? Hs Hx]; subst. destruct (IH Hs) as [IH1 IH2].
    apply Forall_app in Hx. destruct Hx as [Hx1 Hx2].
    split; [now constructor|].
    intros x' y [<- | Hin] Hy; [|now apply IH2].
    rewrite Forall_forall in Hx2. now apply Hx2.
Qed.

(** The first [n] indices of [argsort] are in ascending order of their
    key, and no index left out has a smaller key. *)
Lemma top_of_argsort_least keys n :
  let top_n := firstn n (argsort keys) in
  StronglySorted (fun i j => num_leb (score keys i) (score keys j) = true) top_n
  /\ forall i j, In i top_n -> j < length keys -> ~ In j top_n ->
                 num_leb (score keys i) (score keys j) = true.
Proof.
  intros top_n. pose proof (argsort_sorted keys) as Hs.
  rewrite <- (firstn_skipn n (argsort keys)) in Hs.
  apply sorted_app_inv in Hs. destruct Hs as [H1 H2].
  split; [exact H1|].
  intros i j Hi Hj Hnot. apply H2; [exact Hi|].
  assert (Hin : In j (argsort keys)).
  { apply (Permutation_in _ (Permutation_sym (argsort_perm keys))).
    apply in_seq. lia. }
  rewrite <- (firstn_skipn n (argsort keys)) in Hin.
  apply in_app_or in Hin. now destruct Hin.
Qed.

Lemma at_most_of_leb (x y : number) :
  is_fraction x -> is_fraction y -> num_leb x y = true -> at_most x y.
Proof.
  intros (p & -> & _) (q & -> & _). cbn [num_leb at_most].
  rewrite Qle_bool_iff. auto.
Qed.

Lemma column_value a j :
  j < n_cols a -> column a j = Ok (map (fun r => nth j r 0%Z) (rows a)).
Proof.
  intros H. unfold column. now destruct (Nat.ltb_spec j (n_cols a)); [|lia].
Qed.

(** The image loop, three rows per selected sample. *)
Lemma fill_image_strips a b width (post pre : list nat) :
  length (rows a) = width -> length (rows b) = width ->
  Forall (fun t => t < n_cols a /\ t < n_cols b) post ->
  fill_image a b (pre ++ post) width (seq (length pre) (length post))
  = (Ok (flat_map (sample_strip a b) post), []).
Proof.
  intros Ha Hb. revert pre.
  induction post as [|t post IH]; intros pre Hpost; [reflexivity|].
  inversion Hpost as [|? ? [Hta Htb] Hpost']; subst.
  cbn [length seq fill_image flat_map].
  assert (Ht : nth_error (pre ++ t :: post) (length pre) = Some t).
  { rewrite nth_error_app2 by lia. now rewrite Nat.sub_diag. }
  rewrite (index_ok _ _ _ Ht).
  cbv [bind lift ret]. rewrite (column_value a t Hta). cbv beta iota.
  rewrite assign_row_ok by (rewrite length_map; auto). cbv beta iota.
  rewrite (column_value b t Htb). cbv beta iota.
  rewrite assign_row_ok by (rewrite length_map; auto). cbv beta iota.
  replace (pre ++ t :: post)%list with ((pre ++ [t]) ++ post)%list
    by (now rewrite <- app_assoc).
  replace (S (length pre)) with (length (pre ++ [t]))
    by (rewrite length_app; cbn; lia).
  rewrite (IH (pre ++ [t])%list Hpost').
  reflexivity.
Qed.

(** The image loop runs out of selected samples. *)
Lemma fill_image_short a b width (post pre : list nat) (m : nat) :
  length (rows a) = width -> length (rows b) = width ->
  Forall (fun t => t < n_cols a /\ t < n_cols b) post ->
  fill_image a b (pre ++ post) width (seq (length pre) (length post + S m))
  = (Raise IndexError, []).
Proof.
  intros Ha Hb. revert pre.
  induction post as [|t post IH]; intros pre Hpost.
  - cbn [length Nat.add seq fill_image]. rewrite app_nil_r.
    unfold index.
    destruct (Z.ltb_spec (Z.of_nat (length pre)) 0); [lia|].
    destruct (Z.ltb_spec (Z.of_nat (length pre)) (Z.of_nat (length pre))); [lia|].
    rewrite andb_false_r. reflexivity.
  - inversion Hpost as [|? ? [Hta Htb] Hpost']; subst.
    cbn [length Nat.add seq fill_image].
    assert (Ht : nth_error (pre ++ t :: post) (length pre) = Some t).
    { rewrite nth_error_app2 by lia. now rewrite Nat.sub_diag. }
    rewrite (index_ok _ _ _ Ht).
    cbv [bind lift ret]. rewrite (column_value a t Hta). cbv beta iota.
    rewrite assign_row_ok by (rewrite length_map; auto). cbv beta iota.
    rewrite (column_value b t Htb). cbv beta iota.
    rewrite assign_row_ok by (rewrite length_map; auto). cbv beta iota.
    replace (pre ++ t :: post)%list with ((pre ++ [t]) ++ post)%list
      by (now rewrite <- app_assoc).
    replace (S (length pre)) with (length (pre ++ [t]))
      by (rewrite length_app; cbn; lia).
    now rewrite (IH (pre ++ [t])%list Hpost').
Qed.

(** The end of [plot_persistence], once the samples are selected. *)
Lemma persistence_draws a b top_n n :
  length (rows a) = length (rows b) ->
  length top_n = n ->
  Forall (fun t => t < n_cols a /\ t < n_cols b) top_n ->
  (image <- fill_image a b top_n (fst (shape a)) (seq 0 n) ;;
   emit Figure ;; emit (Heatmap image) ;; emit (YTicks n) ;;
   emit (XLabel "Epoch") ;; emit (YLabel "Sample #") ;;
   emit (SaveFig "persistence.png") ;; ret top_n)
  = (Ok top_n, [Figure; Heatmap (flat_map (sample_strip a b) top_n); YTicks n;
                XLabel "Epoch"; YLabel "Sample #"; SaveFig "persistence.png"]).
Proof.
  intros Hr Hn Htop. subst n.
  pose proof (fill_image_strips a b (fst (shape a)) top_n []
                eq_refl (eq_sym Hr) Htop) as E.
  cbn [app length] in E. cbv [bind]. rewrite E. reflexivity.
Qed.

Lemma persistence_stops a b top_n n :
  length (rows a) = length (rows b) ->
  length top_n < n ->
  Forall (fun t => t < n_cols a /\ t < n_cols b) top_n ->
  (image <- fill_image a b top_n (fst (shape a)) (seq 0 n) ;;
   emit Figure ;; emit (Heatmap image) ;; emit (YTicks n) ;;
   emit (XLabel "Epoch") ;; emit (YLabel "Sample #") ;;
   emit (SaveFig "persistence.png") ;; ret top_n)
  = (Raise IndexError, []).
Proof.
  intros Hr Hn Htop.
  pose proof (fill_image_short a b (fst (shape a)) top_n [] (n - length top_n - 1)
                eq_refl (eq_sym Hr) Htop) as E.
  cbn [app length] in E.
  replace (length top_n + S (n - length top_n - 1)) with n in E by lia.
  cbv [bind]. rewrite E. reflexivity.
Qed.

(** The scores of the three ranking policies. *)
Lemma ranked_policy_keys rng a b n sort :
  well_formed a -> well_formed b -> shape a = shape b ->
  ranked_policy sort ->
  exists keys,
    (if String.eqb sort "mismatch" then
       same <- lift (np_eq a b) ;;
       let match_ := mean_axis0 same in
       ret (firstn n (argsort match_))
     else if String.eqb sort "misclassification" then
       total <- lift (np_add a b) ;;
       let misclassification := mean_axis0 total in
       ret (firstn n (argsort misclassification))
     else if String.eqb sort "stability" then
       same_a <- lift (np_eq (from_second a) (but_last a)) ;;
       same_b <- lift (np_eq (from_second b) (but_last b)) ;;
       stability <- lift (series_add (mean_axis0 same_a) (mean_axis0 same_b)) ;;
       ret (firstn n (argsort stability))
     else
       lift (random_choice rng (seq 0 (fst (shape a))) n))
    = (Ok (firstn n (argsort keys)), []) /\ length keys = n_cols a.
Proof.
  intros Hwa Hwb Hshape Hsort.
  pose proof (well_formed_uniform a Hwa) as Hua.
  pose proof (well_formed_uniform b Hwb) as Hub.
  unfold shape in Hshape. injection Hshape as Hr Hc.
  destruct Hsort as [-> | [-> | ->]]; cbn [String.eqb Ascii.eqb Bool.eqb andb].
  - unfold np_eq. rewrite elementwise_same_shape by assumption.
    eexists. split; [reflexivity|]. now rewrite length_mean_axis0.
  - unfold np_add.
    destruct (dt a), (dt b); rewrite elementwise_same_shape by assumption;
      (eexists; split; [reflexivity|]; now rewrite length_mean_axis0).
  - rewrite (stability_eq a Hwa), (stability_eq b Hwb). cbv [bind lift].
    destruct (series_add_same
                (mean_axis0 (mk_ndarray BoolT (n_cols a)
                   (map2 (map2 (fun x y => Z.b2z (Z.eqb x y)))
                         (tl (rows a)) (removelast (rows a)))))
                (mean_axis0 (mk_ndarray BoolT (n_cols b)
                   (map2 (map2 (fun x y => Z.b2z (Z.eqb x y)))
                         (tl (rows b)) (removelast (rows b))))))
      as (s & -> & Hs).
    { rewrite !length_mean_axis0. exact Hc. }
    eexists. split; [reflexivity|]. rewrite Hs. now rewrite length_mean_axis0.
Qed.

(** [plot_persistence] on two histories, from the selection [Esel] and
    the run of the rest [Erun]. *)
Ltac persistence_steps Esel Erun :=
  unfold plot_persistence;
  match goal with
  | |- context [index [?a; ?b] 0] =>
      change (index [a; b] 0) with (Ok a); change (index [a; b] 1) with (Ok b)
  end;
  cbn [length Nat.eqb assert];
  unfold bind at 1; change (@ret unit tt) with (Ok tt, @nil call);
  cbv beta iota;
  unfold bind at 1; change (emit SetTheme) with (Ok tt, [SetTheme]);
  cbv beta iota;
  rewrite bind_lift_ok; cbv beta; rewrite bind_lift_ok; cbv beta;
  match goal with
  | |- context [bind ?c ?f] => rewrite (bind_eq c f _ _ _ _ Esel Erun)
  end;
  reflexivity.

(** X21.  Under each of the three ranking policies, [plot_persistence]
    returns [n_samples] distinct sample indices and draws one heat map
    with three rows per returned sample, in order: its history under
    the first model, under the second, and a row of -1. *)
Theorem persistence_image_has_three_rows_per_sample :
  forall rng a b n sort,
    well_formed a -> well_formed b -> shape a = shape b ->
    1 <= length (rows a) ->
    1 <= n <= n_cols a ->
    ranked_policy sort ->
    exists top_n,
      plot_persistence rng [a; b] n sort
      = (Ok top_n,
         [SetTheme; Figure; Heatmap (flat_map (sample_strip a b) top_n);
          YTicks n; XLabel "Epoch"; YLabel "Sample #";
          SaveFig "persistence.png"])
      /\ length top_n = n
      /\ NoDup top_n
      /\ Forall (fun t => t < n_cols a) top_n
      /\ length (flat_map (sample_strip a b) top_n) = 3 * n.
Proof.
  intros rng a b n sort Hwa Hwb Hshape He Hn Hsort.
  destruct (ranked_policy_keys rng a b n sort Hwa Hwb Hshape Hsort)
    as (keys & Esel & Hlen).
  unfold shape in Hshape. injection Hshape as Hr Hc.
  assert (Hnk : n <= length keys) by lia.
  destruct (top_of_argsort keys n Hnk) as (Hl & Hnd & Hall).
  assert (Hcols : Forall (fun t => t < n_cols a /\ t < n_cols b)
                         (firstn n (argsort keys))).
  { eapply Forall_impl; [|exact Hall]. intros i Hi. cbv beta in *. lia. }
  pose proof (persistence_draws a b _ n Hr Hl Hcols) as Erun.
  exists (firstn n (argsort keys)).
  split; [persistence_steps Esel Erun|].
  repeat split; auto.
  - rewrite <- Hlen. exact Hall.
  - rewrite <- Hl at 2. clear.
    induction (firstn n (argsort keys)) as [|t l IH]; [reflexivity|].
    cbn [flat_map length app sample_strip]. rewrite IH. lia.
Qed.

(** X22.  Under each of the three ranking policies, asking for more
    samples than the histories have raises [IndexError] while the image
    is filled, after the theme was set and before any figure opens. *)
Theorem persistence_of_too_many_samples_raises :
  forall rng a b n sort,
    well_formed a -> well_formed b -> shape a = shape b ->
    n_cols a < n ->
    ranked_policy sort ->
    plot_persistence rng [a; b] n sort = (Raise IndexError, [SetTheme]).
Proof.
  intros rng a b n sort Hwa Hwb Hshape Hn Hsort.
  destruct (ranked_policy_keys rng a b n sort Hwa Hwb Hshape Hsort)
    as (keys & Esel & Hlen).
  unfold shape in Hshape. injection Hshape as Hr Hc.
  pose proof (argsort_perm keys) as Hp.
  assert (Hfull : firstn n (argsort keys) = argsort keys).
  { apply firstn_all2. rewrite (Permutation_length Hp), length_seq. lia. }
  assert (Hl : length (firstn n (argsort keys)) < n).
  { rewrite Hfull, (Permutation_length Hp), length_seq. lia. }
  assert (Hcols : Forall (fun t => t < n_cols a /\ t < n_cols b)
                         (firstn n (argsort keys))).
  { rewrite Hfull. apply Forall_forall. intros i Hi.
    apply (Permutation_in _ Hp), in_seq in Hi. lia. }
  pose proof (persistence_stops a b _ n Hr Hl Hcols) as Erun.
  persistence_steps Esel Erun.
Qed.

Lemma sorted_impl_in {A} (R R' : A -> A -> Prop) (l : list A) :
  (forall x y, In x l -> In y l -> R x y -> R' x y) ->
  StronglySorted R l -> StronglySorted R' l.
Proof.
  intros H Hs. induction Hs as [|x l Hs IH Hx]; constructor.
  - apply IH. intros y z Hy Hz. apply H; now right.
  - rewrite Forall_forall in *. intros y Hy.
    apply H; [now left | now right | now apply Hx].
Qed.

Lemma nth_01 (r : list Z) (j : nat) :
  Forall (fun x => x = 0%Z \/ x = 1%Z) r -> nth j r 0%Z = 0%Z \/ nth j r 0%Z = 1%Z.
Proof.
  intros H. destruct (Nat.lt_ge_cases j (length r)) as [Hj | Hj].
  - rewrite Forall_forall in H. apply H. now apply nth_In.
  - left. now apply nth_overflow.
Qed.

(** The mean of each column of an array of 0/1 entries is a fraction. *)
Lemma mean_axis0_fractions (x : ndarray) (j : nat) :
  Forall (Forall (fun v => v = 0%Z \/ v = 1%Z)) (rows x) ->
  rows x <> [] -> j < n_cols x ->
  is_fraction (score (mean_axis0 x) j).
Proof.
  intros H01 Hne Hj. unfold score, mean_axis0.
  rewrite (nth_indep _ None (mean (map (fun r => nth 0 r 0%Z) (rows x))))
    by (now rewrite length_map, length_seq).
  rewrite (map_nth (fun j => mean (map (fun r => nth j r 0%Z) (rows x)))).
  rewrite seq_nth by assumption. cbn [Nat.add].
  apply mean_fraction.
  - apply Forall_map. eapply Forall_impl; [|exact H01].
    intros r Hr. now apply nth_01.
  - destruct (rows x); [congruence | discriminate].
Qed.

(** X23.  Under [sort="mismatch"], [plot_persistence] returns the
    samples in ascending order of the fraction of epochs on which the
    two histories agree, and no sample left out agrees less than a
    returned one. *)
Theorem persistence_mismatch_selects_least_agreeing :
  forall rng a b n,
    well_formed a -> well_formed b -> shape a = shape b ->
    1 <= length (rows a) ->
    1 <= n <= n_cols a ->
    exists same top_n,
      np_eq a b = Ok same
      /\ fst (plot_persistence rng [a; b] n "mismatch") = Ok top_n
      /\ StronglySorted (fun i j => at_most (score (mean_axis0 same) i)
                                            (score (mean_axis0 same) j)) top_n
      /\ forall i j, In i top_n -> j < n_cols a -> ~ In j top_n ->
                     at_most (score (mean_axis0 same) i) (score (mean_axis0 same) j).
Proof.
  intros rng a b n Hwa Hwb Hshape He [Hn1 Hn].
  pose proof (well_formed_uniform a Hwa) as Hua.
  pose proof (well_formed_uniform b Hwb) as Hub.
  pose proof Hshape as Hshape'.
  unfold shape in Hshape'. injection Hshape' as Hr Hc.
  set (same := mk_ndarray BoolT (n_cols a)
                 (map2 (map2 same_entry) (rows a) (rows b))).
  assert (Eab : np_eq a b = Ok same).
  { unfold np_eq. now rewrite elementwise_same_shape. }
  set (keys := mean_axis0 same).
  assert (Hlen : length keys = n_cols a) by exact (length_mean_axis0 same).
  assert (Hfrac : forall j, j < n_cols a -> is_fraction (score keys j)).
  { intros j Hj. apply mean_axis0_fractions; cbn [rows n_cols same]; [| |exact Hj].
    - apply Forall_map2. intros r1 r2 _ _. apply map2_same_entry_01.
    - intros E. apply (f_equal (@length (list Z))) in E.
      rewrite length_map2 in E. cbn [length] in E. lia. }
  assert (Hnk : n <= length keys) by lia.
  destruct (top_of_argsort keys n Hnk) as (Hl & Hnd & Hall).
  rewrite Hlen in Hall. rewrite Forall_forall in Hall.
  destruct (top_of_argsort_least keys n) as [Hs Hleast].
  assert (Esel : fst (plot_persistence rng [a; b] n "mismatch")
                 = Ok (firstn n (argsort keys))).
  { assert (Hcols : Forall (fun t => t < n_cols a /\ t < n_cols b)
                           (firstn n (argsort keys))).
    { apply Forall_forall. intros i Hi. specialize (Hall i Hi). lia. }
    pose proof (persistence_draws a b _ n Hr Hl Hcols) as Erun.
    assert (Ekeys : (same <- lift (np_eq a b) ;;
                     let match_ := mean_axis0 same in
                     ret (firstn n (argsort match_)))
                    = (Ok (firstn n (argsort keys)), [])).
    { rewrite Eab. reflexivity. }
    persistence_steps Ekeys Erun. }
  exists same, (firstn n (argsort keys)).
  split; [exact Eab|]. split; [exact Esel|]. split.
  - eapply sorted_impl_in; [|exact Hs].
    intros i j Hi Hj Hle. apply at_most_of_leb; auto.
  - intros i j Hi Hj Hnot. apply at_most_of_leb; auto.
    apply Hleast; auto. lia.
Qed.

Lemma split_at {A} (pop : list A) (i : nat) :
  i < length pop ->
  exists e, firstn 1 (skipn i pop) = [e]
            /\ pop = (firstn i pop ++ e :: skipn (S i) pop)%list.
Proof.
  revert i. induction pop as [|x pop IH]; intros i Hi; [cbn in Hi; lia|].
  destruct i as [|i].
  - exists x. split; reflexivity.
  - cbn [length] in Hi. destruct (IH i) as (e & E1 & E2); [lia|].
    exists e. split; [exact E1|].
    change (x :: pop = x :: (firstn i pop ++ e :: skipn (S i) pop)%list).
    now f_equal.
Qed.

(** Drawing without replacement: [k] distinct elements of the population. *)
Lemma draw_distinct {A} (rng : nat -> nat) (k : nat) :
  forall (step : nat) (pop : list A),
    k <= length pop -> NoDup pop ->
    length (draw rng step pop k) = k
    /\ NoDup (draw rng step pop k)
    /\ incl (draw rng step pop k) pop.
Proof.
  induction k as [|k IH]; intros step pop Hk Hnd.
  - cbn [draw]. repeat split; [constructor | intros x []].
  - destruct pop as [|x xs]; [cbn in Hk; lia|].
    cbn [draw]. set (pop := x :: xs) in *.
    set (i := rng step mod length pop).
    assert (Hi : i < length pop) by (apply Nat.mod_upper_bound; discriminate).
    destruct (split_at pop i Hi) as (e & E1 & E2).
    rewrite E1.
    assert (Hlen : length pop = S (length (firstn i pop ++ skipn (S i) pop))).
    { rewrite E2 at 1. rewrite !length_app. cbn [length]. lia. }
    rewrite E2 in Hnd.
    pose proof (NoDup_remove_1 _ _ _ Hnd) as Hnd'.
    pose proof (NoDup_remove_2 _ _ _ Hnd) as Hnot.
    destruct (IH (S step) (firstn i pop ++ skipn (S i) pop)%list) as (L & N & I);
      [lia | exact Hnd' |].
    cbn [app length]. split; [now rewrite L|]. split.
    + constructor; [|exact N]. intros Hin. apply Hnot. now apply I.
    + intros y [<- | Hy]; rewrite E2.
      * apply in_or_app. right. now left.
      * apply I, in_app_or in Hy. apply in_or_app.
        destruct Hy; [now left | right; now right].
Qed.

(** The selection under a policy that is none of the three rankings. *)
Lemma fallback_selection rng a b n sort :
  ~ ranked_policy sort ->
  (if String.eqb sort "mismatch" then
     same <- lift (np_eq a b) ;;
     let match_ := mean_axis0 same in
     ret (firstn n (argsort match_))
   else if String.eqb sort "misclassification" then
     total <- lift (np_add a b) ;;
     let misclassification := mean_axis0 total in
     ret (firstn n (argsort misclassification))
   else if String.eqb sort "stability" then
     same_a <- lift (np_eq (from_second a) (but_last a)) ;;
     same_b <- lift (np_eq (from_second b) (but_last b)) ;;
     stability <- lift (series_add (mean_axis0 same_a) (mean_axis0 same_b)) ;;
     ret (firstn n (argsort stability))
   else
     lift (random_choice rng (seq 0 (fst (shape a))) n))
  = (random_choice rng (seq 0 (length (rows a))) n, []).
Proof.
  intros H. unfold ranked_policy in H.
  destruct (String.eqb_spec sort "mismatch"); [tauto|].
  destruct (String.eqb_spec sort "misclassification"); [tauto|].
  destruct (String.eqb_spec sort "stability"); [tauto|].
  reflexivity.
Qed.

Lemma bind_raise {A B} (c : P A) (f : A -> P B) e calls :
  c = (Raise e, calls) -> bind c f = (Raise e, calls).
Proof. now intros ->. Qed.

(** X24.  Under a policy that is none of the three rankings, whatever
    the generator draws: with [1 <= n_samples <= E] and at least [E]
    samples, [plot_persistence] returns [n_samples] distinct indices
    below the number [E] of epochs, and draws the samples with these
    indices. *)
Theorem persistence_fallback_selects_epoch_indices :
  forall rng a b n sort,
    ~ ranked_policy sort ->
    length (rows a) = length (rows b) ->
    1 <= n <= length (rows a) ->
    length (rows a) <= n_cols a ->
    length (rows a) <= n_cols b ->
    exists top_n,
      plot_persistence rng [a; b] n sort
      = (Ok top_n,
         [SetTheme; Figure; Heatmap (flat_map (sample_strip a b) top_n);
          YTicks n; XLabel "Epoch"; YLabel "Sample #";
          SaveFig "persistence.png"])
      /\ length top_n = n
      /\ NoDup top_n
      /\ Forall (fun t => t < length (rows a)) top_n.
Proof.
  intros rng a b n sort Hsort Hr Hn Ha Hb.
  pose proof (fallback_selection rng a b n sort Hsort) as Esel.
  unfold random_choice in Esel at 2. rewrite length_seq in Esel.
  destruct (Nat.ltb_spec (length (rows a)) n) as [Hlt | _]; [lia|].
  destruct (draw_distinct rng n 0 (seq 0 (length (rows a))))
    as (Hl & Hnd & Hin); [now rewrite length_seq | apply seq_NoDup |].
  set (top_n := draw rng 0 (seq 0 (length (rows a))) n) in *.
  assert (Hall : Forall (fun t => t < length (rows a)) top_n).
  { apply Forall_forall. intros t Ht. apply Hin, in_seq in Ht. lia. }
  assert (Hcols : Forall (fun t => t < n_cols a /\ t < n_cols b) top_n).
  { eapply Forall_impl; [|exact Hall]. intros t Ht. cbv beta in *. lia. }
  pose proof (persistence_draws a b top_n n Hr Hl Hcols) as Erun.
  exists top_n. split; [persistence_steps Esel Erun|].
  repeat split; assumption.
Qed.

(** X25.  Under a policy that is none of the three rankings, asking for
    more samples than there are epochs raises the [ValueError] of
    [np.random.choice], however many samples the histories have. *)
Theorem persistence_fallback_needs_enough_epochs :
  forall rng a b n sort,
    ~ ranked_policy sort ->
    1 <= length (rows a) < n ->
    plot_persistence rng [a; b] n sort
    = (Raise (ValueError
                "Cannot take a larger sample than population when 'replace=False'"),
       [SetTheme]).
Proof.
  intros rng a b n sort Hsort Hn.
  pose proof (fallback_selection rng a b n sort Hsort) as Esel.
  unfold random_choice in Esel at 2. rewrite length_seq in Esel.
  destruct (Nat.ltb_spec (length (rows a)) n) as [_ | Hge]; [|lia].
  unfold plot_persistence.
  change (index [a; b] 0) with (Ok a). change (index [a; b] 1) with (Ok b).
  cbn [length Nat.eqb assert].
  unfold bind at 1. change (@ret unit tt) with (Ok tt, @nil call).
  cbv beta iota.
  unfold bind at 1. change (emit SetTheme) with (Ok tt, [SetTheme]).
  cbv beta iota.
  rewrite bind_lift_ok. cbv beta. rewrite bind_lift_ok. cbv beta.
  match goal with
  | |- context [bind ?c ?f] => rewrite (bind_raise c f _ _ Esel)
  end.
  reflexivity.
Qed.

Lemma mean_rows_fractions n (rs : list (list Z)) :
  1 <= n ->
  Forall (fun r => length r = n /\ Forall (fun x => x = 0%Z \/ x = 1%Z) r) rs ->
  Forall is_fraction (map mean rs).
Proof.
  intros Hn H. apply Forall_map. eapply Forall_impl; [|exact H].
  intros r [Hl H01]. apply mean_fraction; [exact H01|].
  intros ->. cbn in Hl. lia.
Qed.

Lemma Forall_tl {A} (Q : A -> Prop) (l : list A) : Forall Q l -> Forall Q (tl l).
Proof. destruct l; [auto|]. intros H. now inversion H. Qed.

(** X20.  On two histories of one shape, [plot_stability] draws four
    curves: the two solid stability curves, then the two dashed
    accuracy curves, labelled with [" (Acc.)"] appended.  Each has one
    value per epoch but the first, between 0 and 1; [iters] is not
    drawn. *)
Theorem stability_curves_of_two_histories :
  forall a b la lb more iters,
    well_formed a -> well_formed b -> shape a = shape b ->
    1 <= n_cols a ->
    let accuracy_a := mean_axis1 (from_second a) in
    let accuracy_b := mean_axis1 (from_second b) in
    plot_stability [a; b] (Some (la :: lb :: more)) (Some iters)
    = (Ok tt, [SetTheme; Figure;
               Plot None (stability_of a) la false;
               Plot None (stability_of b) lb false;
               Plot None accuracy_a (la ++ " (Acc.)") true;
               Plot None accuracy_b (lb ++ " (Acc.)") true;
               Legend; YLabel "Stability"; XLabel "Epochs";
               SaveFig "stability.png"])
    /\ Forall (fun s => length s = length (rows a) - 1 /\ Forall is_fraction s)
              [stability_of a; stability_of b; accuracy_a; accuracy_b].
Proof.
  intros a b la lb more iters Hwa Hwb Hshape Hn accuracy_a accuracy_b.
  pose proof (well_formed_uniform a Hwa) as Hua.
  pose proof (well_formed_uniform b Hwb) as Hub.
  pose proof Hshape as Hshape'.
  unfold shape in Hshape'. injection Hshape' as Hr Hc.
  assert (Hlen : forall x, length (stability_of x) = length (rows x) - 1
                           /\ length (mean_axis1 (from_second x)) = length (rows x) - 1).
  { intros x. unfold stability_of, mean_axis1, from_second. cbn [rows].
    rewrite !length_map, length_map2, <- length_tl_removelast, Nat.min_id.
    destruct (rows x); cbn [tl length]; lia. }
  assert (Hfr : forall x, well_formed x -> 1 <= n_cols x ->
                          Forall is_fraction (stability_of x)
                          /\ Forall is_fraction (mean_axis1 (from_second x))).
  { intros x Hwx Hnx. split.
    - apply (agreement_fractions (n_cols x)); auto using uniform_tl,
        uniform_removelast, well_formed_uniform.
    - apply (mean_rows_fractions (n_cols x)); [exact Hnx|].
      cbn [from_second rows]. now apply Forall_tl. }
  split.
  - unfold plot_stability.
    cbv [for_each enumerate length seq combine].
    change (index [a; b] 0) with (Ok a).
    rewrite <- Hshape. unfold shape_eqb, shape. cbn [fst snd].
    cbv [bind lift]. rewrite !Nat.eqb_refl. cbv [andb assert ret emit].
    rewrite (stability_eq a Hwa), (stability_eq b Hwb). cbv [mean_axis1 rows].
    fold same_entry. fold (stability_of a). fold (stability_of b).
    rewrite (index_ok (la :: lb :: more) 0 la eq_refl).
    rewrite (index_ok (la :: lb :: more) 1 lb eq_refl).
    reflexivity.
  - destruct (Hlen a) as [La1 La2]. destruct (Hlen b) as [Lb1 Lb2].
    destruct (Hfr a Hwa Hn) as [Fa1 Fa2].
    destruct (Hfr b Hwb) as [Fb1 Fb2]; [lia|].
    rewrite <- Hr in Lb1, Lb2.
    repeat constructor; assumption.
Qed.

(** X16.  On two histories of one shape, the histogram of
    [plot_mismatch] draws, with 100 bins, one value per sample: the
    fraction of epochs on which the two disagree, between 0 and 1.
    [labels], [iters] and [window] play no part, and swapping the two
    histories changes nothing. *)
Theorem mismatch_histogram_of_two_histories :
  forall a b labels iters window,
    well_formed a -> well_formed b -> shape a = shape b ->
    1 <= length (rows a) ->
    exists same,
      np_eq a b = Ok same
      /\ plot_mismatch [a; b] labels iters true window
         = (Ok tt, [SetTheme; Figure;
                    Hist (one_minus_series (mean_axis0 same)) 100 None;
                    XLabel "Mismatch ratio"; YLabel "# of samples";
                    SaveFig "mismatch.png"])
      /\ plot_mismatch [b; a] labels iters true window
         = plot_mismatch [a; b] labels iters true window
      /\ length (one_minus_series (mean_axis0 same)) = n_cols a
      /\ forall j, j < n_cols a ->
                   is_fraction (score (one_minus_series (mean_axis0 same)) j).
Proof.
  intros a b labels iters window Hwa Hwb Hshape He.
  pose proof (well_formed_uniform a Hwa) as Hua.
  pose proof (well_formed_uniform b Hwb) as Hub.
  unfold shape in Hshape. injection Hshape as Hr Hc.
  set (same := mk_ndarray BoolT (n_cols a)
                 (map2 (map2 same_entry) (rows a) (rows b))).
  assert (Eab : np_eq a b = Ok same).
  { unfold np_eq. now rewrite elementwise_same_shape. }
  assert (Eba : np_eq b a = Ok same).
  { unfold np_eq. rewrite elementwise_same_shape by auto.
    fold same_entry. rewrite (map2_rows_comm (rows b) (rows a)), <- Hc.
    reflexivity. }
  assert (Hab : plot_mismatch [a; b] labels iters true window
                = (Ok tt, [SetTheme; Figure;
                           Hist (one_minus_series (mean_axis0 same)) 100 None;
                           XLabel "Mismatch ratio"; YLabel "# of samples";
                           SaveFig "mismatch.png"])).
  { unfold plot_mismatch.
    change (index [a; b] 0) with (Ok a). change (index [a; b] 1) with (Ok b).
    run_plot. now rewrite Eab. }
  exists same. split; [exact Eab|]. split; [exact Hab|]. split; [|split].
  - rewrite Hab. unfold plot_mismatch.
    change (index [b; a] 0) with (Ok b). change (index [b; a] 1) with (Ok a).
    run_plot. now rewrite Eba.
  - unfold one_minus_series. rewrite length_map. exact (length_mean_axis0 same).
  - intros j Hj. unfold score, one_minus_series.
    change (@None Qc) with (num_sub (num_of_Z 1) None) at 1.
    rewrite (map_nth (fun x => num_sub (num_of_Z 1) x)).
    apply is_fraction_one_minus.
    apply (mean_axis0_fractions same j); cbn [rows n_cols same]; [| |exact Hj].
    + apply Forall_map2. intros r1 r2 _ _. apply map2_same_entry_01.
    + intros E. apply (f_equal (@length (list Z))) in E.
      rewrite length_map2 in E. cbn [length] in E. lia.
Qed.

Lemma mean_axis0_from_second (a a' : ndarray) :
  n_cols a = n_cols a' -> tl (rows a) = tl (rows a') ->
  mean_axis0 (from_second a) = mean_axis0 (from_second a').
Proof.
  intros Hc Ht. unfold mean_axis0, from_second. cbn [rows n_cols].
  now rewrite Hc, Ht.
Qed.

(** X19.  The histogram of [plot_misclassification] draws, with 50 bins
    each, the per-sample error rates of the two histories over the
    epochs after the first: replacing the first epoch of either history
    changes none of the calls. *)
Theorem misclassification_histogram_skips_first_epoch :
  forall a b a' b' la lb more iters window,
    n_cols a = n_cols a' -> tl (rows a) = tl (rows a') ->
    n_cols b = n_cols b' -> tl (rows b) = tl (rows b') ->
    2 <= length (rows a) -> 2 <= length (rows b) ->
    plot_misclassification [a; b] (Some (la :: lb :: more)) iters true window
    = (Ok tt, [SetTheme; Figure;
               Hist (one_minus_series (mean_axis0 (from_second a))) 50 (Some la);
               Hist (one_minus_series (mean_axis0 (from_second b))) 50 (Some lb);
               XLabel "Misclassification ratio"; YLabel "# of samples";
               Legend; SaveFig "misclassification.png"])
    /\ plot_misclassification [a'; b'] (Some (la :: lb :: more)) iters true window
       = plot_misclassification [a; b] (Some (la :: lb :: more)) iters true window.
Proof.
  intros a b a' b' la lb more iters window Ha1 Ha2 Hb1 Hb2 _ _.
  assert (H : forall x y,
    plot_misclassification [x; y] (Some (la :: lb :: more)) iters true window
    = (Ok tt, [SetTheme; Figure;
               Hist (one_minus_series (mean_axis0 (from_second x))) 50 (Some la);
               Hist (one_minus_series (mean_axis0 (from_second y))) 50 (Some lb);
               XLabel "Misclassification ratio"; YLabel "# of samples";
               Legend; SaveFig "misclassification.png"])).
  { intros x y. unfold plot_misclassification.
    change (index [x; y] 0) with (Ok x). change (index [x; y] 1) with (Ok y).
    run_plot.
    change 0%Z with (Z.of_nat 0). change 1%Z with (Z.of_nat 1).
    rewrite (index_ok (la :: lb :: more) 0 la eq_refl). cbv beta iota.
    rewrite (index_ok (la :: lb :: more) 1 lb eq_refl). reflexivity. }
  split; [apply H|]. rewrite !H.
  now rewrite (mean_axis0_from_second a a'), (mean_axis0_from_second b b').
Qed.

(** ** Concrete figures *)

Lemma histograms_and_persistence_need_two_histories_witness :
  length [steady] <> 2
  /\ plot_persistence (counting_from 0) [steady] 1 "mismatch"
     = (Raise (AssertionError
                 "Only two list of predictions is supported for persistence"),
        []).
Proof.
  assert (H : length [steady] <> 2) by (cbn; lia).
  split; [exact H|].
  exact (proj2 (proj2 (histograms_and_persistence_need_two_histories
                         [steady] None None 0%Z (counting_from 0) 1 "mismatch" H))).
Defined.

Lemma misclassification_histogram_needs_labels_witness :
  length [steady; drifting] = 2
  /\ plot_misclassification [steady; drifting] None None true 0
     = (Raise TypeError, [SetTheme; Figure]).
Proof.
  assert (H : length [steady; drifting] = 2) by reflexivity.
  split; [exact H|].
  exact (misclassification_histogram_needs_labels [steady; drifting] None 0%Z H).
Defined.

Lemma mismatch_histogram_of_a_history_with_itself_witness :
  (well_formed steady /\ 1 <= length (rows steady))
  /\ exists calls,
      plot_mismatch [steady; steady] None None true 0 = (Ok tt, calls)
      /\ histograms calls = [repeat (Some 0%Qc) (n_cols steady)].
Proof.
  assert (H1 : well_formed steady) by prove_well_formed.
  assert (H2 : 1 <= length (rows steady)) by (cbn; lia).
  split; [auto|].
  exact (mismatch_histogram_of_a_history_with_itself steady None None 0%Z H1 H2).
Defined.

Lemma mismatch_time_series_of_two_histories_witness :
  let y := one_minus_series
             (map mean (map2 (map2 same_entry) (rows steady) (rows drifting))) in
  (well_formed steady /\ well_formed drifting /\ shape steady = shape drifting
   /\ 1 <= n_cols steady /\ length [0; 1; 2]%Z = length (rows steady)
   /\ (0 <= 0)%Z)
  /\ plot_mismatch [steady; drifting] (Some ["ema"; "sgd"]) (Some [0; 1; 2]%Z)
                   false 0
     = (Ok tt, [SetTheme; Figure;
                Plot (Some [0; 1; 2]%Z) y "ema - sgd" false;
                Legend; XLabel "Epochs"; YLabel "Mismatch ratio";
                SaveFig "mismatch.png"])
  /\ Forall is_fraction y.
Proof.
  intros y.
  assert (H1 : well_formed steady) by prove_well_formed.
  assert (H2 : well_formed drifting) by prove_well_formed.
  assert (H3 : shape steady = shape drifting) by reflexivity.
  assert (H4 : 1 <= n_cols steady) by (cbn; lia).
  assert (H5 : length [0; 1; 2]%Z = length (rows steady)) by reflexivity.
  assert (H6 : (0 <= 0)%Z) by lia.
  split; [auto 7|].
  pose proof (mismatch_time_series_of_two_histories
                steady drifting "ema" "sgd" [] [0; 1; 2]%Z 0%Z H1 H2 H3 H4 H5 H6)
    as H.
  cbv zeta in H. destruct H as (Hp & _ & Hf & _).
  exact (conj Hp Hf).
Defined.

Lemma misclassification_time_series_of_two_histories_witness :
  let marked := map2 (map2 Z.mul)
                  (map2 (map2 same_entry) (rows steady) (rows drifting))
                  (map (map (fun x => (1 - x)%Z)) (rows steady)) in
  (well_formed steady /\ well_formed drifting /\ shape steady = shape drifting
   /\ 1 <= n_cols steady /\ length [0; 1; 2]%Z = length (rows steady)
   /\ (0 <= 0)%Z)
  /\ Forall2 (fun both r =>
                (count_ones both + count_ones r <= Z.of_nat (n_cols steady))%Z)
             marked (rows steady).
Proof.
  intros marked.
  assert (H1 : well_formed steady) by prove_well_formed.
  assert (H2 : well_formed drifting) by prove_well_formed.
  assert (H3 : shape steady = shape drifting) by reflexivity.
  assert (H4 : 1 <= n_cols steady) by (cbn; lia).
  assert (H5 : length [0; 1; 2]%Z = length (rows steady)) by reflexivity.
  assert (H6 : (0 <= 0)%Z) by lia.
  split; [auto 7|].
  pose proof (misclassification_time_series_of_two_histories
                steady drifting "ema" "sgd" [] [0; 1; 2]%Z 0%Z H1 H2 H3 H4 H5 H6)
    as H.
  cbv zeta in H. destruct H as (_ & Ha & _).
  exact Ha.
Defined.

Lemma stability_curves_of_two_histories_witness :
  (well_formed steady /\ well_formed drifting /\ shape steady = shape drifting
   /\ 1 <= n_cols steady)
  /\ plot_stability [steady; drifting] (Some ["ema"; "sgd"]) (Some [0; 1; 2]%Z)
     = (Ok tt, [SetTheme; Figure;
                Plot None (stability_of steady) "ema" false;
                Plot None (stability_of drifting) "sgd" false;
                Plot None (mean_axis1 (from_second steady)) "ema (Acc.)" true;
                Plot None (mean_axis1 (from_second drifting)) "sgd (Acc.)" true;
                Legend; YLabel "Stability"; XLabel "Epochs";
                SaveFig "stability.png"]).
Proof.
  assert (H1 : well_formed steady) by prove_well_formed.
  assert (H2 : well_formed drifting) by prove_well_formed.
  assert (H3 : shape steady = shape drifting) by reflexivity.
  assert (H4 : 1 <= n_cols steady) by (cbn; lia).
  split; [auto|].
  pose proof (stability_curves_of_two_histories
                steady drifting "ema" "sgd" [] [0; 1; 2]%Z H1 H2 H3 H4) as H.
  cbv zeta in H. exact (proj1 H).
Defined.

Lemma mismatch_histogram_of_two_histories_witness :
  (well_formed steady /\ well_formed drifting /\ shape steady = shape drifting
   /\ 1 <= length (rows steady))
  /\ plot_mismatch [drifting; steady] None None true 0
     = plot_mismatch [steady; drifting] None None true 0.
Proof.
  assert (H1 : well_formed steady) by prove_well_formed.
  assert (H2 : well_formed drifting) by prove_well_formed.
  assert (H3 : shape steady = shape drifting) by reflexivity.
  assert (H4 : 1 <= length (rows steady)) by (cbn; lia).
  split; [auto|].
  destruct (mismatch_histogram_of_two_histories
              steady drifting None None 0%Z H1 H2 H3 H4)
    as (same & _ & _ & Hsym & _).
  exact Hsym.
Defined.

Lemma misclassification_histogram_skips_first_epoch_witness :
  (n_cols steady = n_cols late_start /\ tl (rows steady) = tl (rows late_start)
   /\ n_cols drifting = n_cols drifting /\ tl (rows drifting) = tl (rows drifting)
   /\ 2 <= length (rows steady) /\ 2 <= length (rows drifting))
  /\ plot_misclassification [late_start; drifting] (Some ["ema"; "sgd"]) None true 0
     = plot_misclassification [steady; drifting] (Some ["ema"; "sgd"]) None true 0.
Proof.
  assert (H1 : n_cols steady = n_cols late_start) by reflexivity.
  assert (H2 : tl (rows steady) = tl (rows late_start)) by reflexivity.
  assert (H3 : n_cols drifting = n_cols drifting) by reflexivity.
  assert (H4 : tl (rows drifting) = tl (rows drifting)) by reflexivity.
  assert (H5 : 2 <= length (rows steady)) by (cbn; lia).
  assert (H6 : 2 <= length (rows drifting)) by (cbn; lia).
  split; [auto 7|].
  exact (proj2 (misclassification_histogram_skips_first_epoch
                  steady drifting late_start drifting "ema" "sgd" [] None 0%Z
                  H1 H2 H3 H4 H5 H6)).
Defined.

Lemma persistence_image_has_three_rows_per_sample_witness :
  (well_formed steady /\ well_formed drifting /\ shape steady = shape drifting
   /\ 1 <= length (rows steady) /\ 1 <= 2 <= n_cols steady
   /\ ranked_policy "stability")
  /\ exists top_n,
      plot_persistence (counting_from 0) [steady; drifting] 2 "stability"
      = (Ok top_n,
         [SetTheme; Figure; Heatmap (flat_map (sample_strip steady drifting) top_n);
          YTicks 2; XLabel "Epoch"; YLabel "Sample #";
          SaveFig "persistence.png"])
      /\ length top_n = 2.
Proof.
  assert (H1 : well_formed steady) by prove_well_formed.
  assert (H2 : well_formed drifting) by prove_well_formed.
  assert (H3 : shape steady = shape drifting) by reflexivity.
  assert (H4 : 1 <= length (rows steady)) by (cbn; lia).
  assert (H5 : 1 <= 2 <= n_cols steady) by (cbn; lia).
  assert (H6 : ranked_policy "stability") by (right; right; reflexivity).
  split; [auto 7|].
  destruct (persistence_image_has_three_rows_per_sample
              (counting_from 0) steady drifting 2 "stability" H1 H2 H3 H4 H5 H6)
    as (top_n & Hp & Hl & _).
  exists top_n. exact (conj Hp Hl).
Defined.

Lemma persistence_of_too_many_samples_raises_witness :
  (well_formed steady /\ well_formed drifting /\ shape steady = shape drifting
   /\ n_cols steady < 3 /\ ranked_policy "mismatch")
  /\ plot_persistence (counting_from 0) [steady; drifting] 3 "mismatch"
     = (Raise IndexError, [SetTheme]).
Proof.
  assert (H1 : well_formed steady) by prove_well_formed.
  assert (H2 : well_formed drifting) by prove_well_formed.
  assert (H3 : shape steady = shape drifting) by reflexivity.
  assert (H4 : n_cols steady < 3) by (cbn; lia).
  assert (H5 : ranked_policy "mismatch") by (left; reflexivity).
  split; [auto 7|].
  exact (persistence_of_too_many_samples_raises
           (counting_from 0) steady drifting 3 "mismatch" H1 H2 H3 H4 H5).
Defined.

Lemma persistence_mismatch_selects_least_agreeing_witness :
  (well_formed steady /\ well_formed drifting /\ shape steady = shape drifting
   /\ 1 <= length (rows steady) /\ 1 <= 1 <= n_cols steady)
  /\ exists same top_n,
      np_eq steady drifting = Ok same
      /\ fst (plot_persistence (counting_from 0) [steady; drifting] 1 "mismatch")
         = Ok top_n
      /\ forall i j, In i top_n -> j < n_cols steady -> ~ In j top_n ->
                     at_most (score (mean_axis0 same) i) (score (mean_axis0 same) j).
Proof.
  assert (H1 : well_formed steady) by prove_well_formed.
  assert (H2 : well_formed drifting) by prove_well_formed.
  assert (H3 : shape steady = shape drifting) by reflexivity.
  assert (H4 : 1 <= length (rows steady)) by (cbn; lia).
  assert (H5 : 1 <= 1 <= n_cols steady) by (cbn; lia).
  split; [auto 7|].
  destruct (persistence_mismatch_selects_least_agreeing
              (counting_from 0) steady drifting 1 H1 H2 H3 H4 H5)
    as (same & top_n & He & Hp & _ & Hleast).
  exists same, top_n. exact (conj He (conj Hp Hleast)).
Defined.

Lemma persistence_fallback_selects_epoch_indices_witness :
  (~ ranked_policy "random" /\ length (rows wide) = length (rows wide)
   /\ 1 <= 2 <= length (rows wide)
   /\ length (rows wide) <= n_cols wide /\ length (rows wide) <= n_cols wide)
  /\ exists top_n,
      fst (plot_persistence (counting_from 0) [wide; wide] 2 "random") = Ok top_n
      /\ length top_n = 2 /\ NoDup top_n
      /\ Forall (fun t => t < length (rows wide)) top_n.
Proof.
  assert (H1 : ~ ranked_policy "random")
    by (intros [H | [H | H]]; discriminate H).
  assert (H2 : length (rows wide) = length (rows wide)) by reflexivity.
  assert (H3 : 1 <= 2 <= length (rows wide)) by (cbn; lia).
  assert (H4 : length (rows wide) <= n_cols wide) by (cbn; lia).
  split; [auto 7|].
  destruct (persistence_fallback_selects_epoch_indices
              (counting_from 0) wide wide 2 "random" H1 H2 H3 H4 H4)
    as (top_n & Hp & Hl & Hn & Ha).
  exists top_n. rewrite Hp. exact (conj eq_refl (conj Hl (conj Hn Ha))).
Defined.

Lemma persistence_fallback_needs_enough_epochs_witness :
  (~ ranked_policy "random" /\ 1 <= length (rows single_epoch) < 2)
  /\ plot_persistence (counting_from 0) [single_epoch; single_epoch] 2 "random"
     = (Raise (ValueError
                 "Cannot take a larger sample than population when 'replace=False'"),
        [SetTheme]).
Proof.
  assert (H1 : ~ ranked_policy "random")
    by (intros [H | [H | H]]; discriminate H).
  assert (H2 : 1 <= length (rows single_epoch) < 2) by (cbn; lia).
  split; [auto|].
  exact (persistence_fallback_needs_enough_epochs
           (counting_from 0) single_epoch single_epoch 2 "random" H1 H2).
Defined.

End PlotterMore.
